(** * CardioNova backend: prediction pipeline, narratives, history and auth

    A shallow embedding of the Flask backend (routes/predict_routes.py,
    routes/auth_routes.py, utils/shap_handler.py, utils/gemini_client.py,
    utils/token.py) together with the properties its specification states.

    Conventions of the embedding:
    - a Python call that may raise is a function into [Outcome];
    - JSON values (request bodies, token payloads, data-frame cells, stored
      fields) are values of [JVal]; Python's [None] is [JNull];
    - Python dicts that are only read by key are [gmap string JVal];
    - finite floats are the rationals they denote ([Q]); comparison and
      absolute value are exact on floats; a sum or a quotient of floats is
      the exact one followed by the rounding [fl] to the nearest double;
    - a Python string is kept as its UTF-8 encoding, and the string methods
      work on its characters, not on its bytes;
    - the fitted artefacts loaded from disk, the explainer, the generative
      service, the JWT and BSON libraries, the server's reading of a query
      and the clock are fields of [Env];
    - the document store is the explicit state [Mongo]. *)

From Stdlib Require Import QArith Qabs ZArith Lia Lqa Ascii String DecimalString List Permutation Sorted.
From stdpp Require Import base option gmap strings list sorting.

Set Warnings "-register-all".
Local Open Scope string_scope.
Local Open Scope Z_scope.

(** ** Exceptions and outcomes *)

Inductive exc_class :=
| ValueError (* or a subclass of it *) | TypeError | KeyError | IndexError | AttributeError
| OverflowError | RuntimeError | OtherError.

Record exn := Exn { exn_class : exc_class; exn_msg : string }.

Inductive Outcome (A : Type) :=
| Returned (a : A)
| Raised (e : exn).
Arguments Returned {A} a.
Arguments Raised {A} e.

Definition obind {A B} (o : Outcome A) (k : A -> Outcome B) : Outcome B :=
  match o with
  | Returned a => k a
  | Raised e => Raised e
  end.

Notation "'let*' x ':=' c 'in' k" := (obind c (fun x => k))
  (at level 10, x pattern, c at level 100, k at level 200).

#[global] Instance exc_class_eq_dec : EqDecision exc_class.
Proof. solve_decision. Defined.

(** ** Python floats and JSON values *)

Inductive pyfloat :=
| FFin (q : Q)
| FInf (negative : bool)
| FNaN.

(** [a < t] for a float [a] and a finite threshold [t]; false on NaN. *)
Definition Qltb (x y : Q) : bool := negb (Qle_bool y x).

Definition flt (a : pyfloat) (t : Q) : bool :=
  match a with
  | FFin q => Qltb q t
  | FInf negative => negative
  | FNaN => false
  end.

Inductive JVal :=
| JNull
| JBool (b : bool)
| JInt (z : Z)
| JFloat (f : pyfloat)
| JStr (s : string)
| JArr (l : list JVal)
| JObj (d : list (string * JVal)).
(** [JObj d] is a dict given by its items, in order, with distinct keys. *)

(** [bool(v)]. *)
Definition py_truthy (v : JVal) : bool :=
  match v with
  | JNull => false
  | JBool b => b
  | JInt z => negb (z =? 0)
  | JFloat (FFin q) => negb (Qeq_bool q 0)
  | JFloat _ => true
  | JStr s => negb (String.eqb s "")
  | JArr l => match l with [] => false | _ => true end
  | JObj d => match d with [] => false | _ => true end
  end.

(** [a or b]. *)
Definition py_or (a b : JVal) : JVal := if py_truthy a then a else b.

(** [d.get(k)] on the items of a dict: [None] when the key is missing. *)
Fixpoint dict_get (d : list (string * JVal)) (k : string) : JVal :=
  match d with
  | [] => JNull
  | (k', v) :: d' => if String.eqb k' k then v else dict_get d' k
  end.

(** [v.get(k)]: only dicts have the method. *)
Definition jget (v : JVal) (k : string) : Outcome JVal :=
  match v with
  | JObj d => Returned (dict_get d k)
  | _ => Raised (Exn AttributeError "object has no attribute 'get'")
  end.

(** [v.items()]. *)
Definition jitems (v : JVal) : Outcome (list (string * JVal)) :=
  match v with
  | JObj d => Returned d
  | _ => Raised (Exn AttributeError "object has no attribute 'items'")
  end.

(** The largest magnitude an [int] may have for [float(int)] not to raise
    [OverflowError]: integers round to the nearest double, and everything
    from [2^1024 - 2^970] on rounds past the largest finite double. *)
Definition float_int_limit : Z := 2 ^ 1024 - 2 ^ 970.

(** [float(v)] for a cell value.  Strings go through Python's float grammar,
    which is the parameter [float_of_str].  An integer is taken to its own
    value: rounding to a double is monotone and the thresholds compared
    against below are small integers, so the comparisons agree. *)
Definition py_float (float_of_str : string -> option pyfloat) (v : JVal) : Outcome pyfloat :=
  match v with
  | JNull => Raised (Exn TypeError "float() argument must be a string or a real number, not 'NoneType'")
  | JBool b => Returned (FFin (if b then 1 else 0)%Q)
  | JInt z =>
      if Z.abs z <? float_int_limit then Returned (FFin (inject_Z z))
      else Raised (Exn OverflowError "int too large to convert to float")
  | JFloat f => Returned f
  | JStr s =>
      match float_of_str s with
      | Some f => Returned f
      | None => Raised (Exn ValueError "could not convert string to float")
      end
  | JArr _ => Raised (Exn TypeError "float() argument must be a string or a real number, not 'list'")
  | JObj _ => Raised (Exn TypeError "float() argument must be a string or a real number, not 'dict'")
  end.

(** ** Feature normalizer (predict_risk, the derived columns) *)

Section Normalizer.
Variable float_of_str : string -> option pyfloat.

Definition _age_group (a : JVal) : string :=
  match py_float float_of_str a with
  | Raised _ => "unknown"
  | Returned a =>
      if flt a 31 then "0-30"
      else if flt a 46 then "31-45"
      else if flt a 61 then "46-60"
      else "61+"
  end.

Definition _bp_cat (b : JVal) : string :=
  match py_float float_of_str b with
  | Raised _ => "unknown"
  | Returned b =>
      if flt b 120 then "normal"
      else if flt b 130 then "elevated"
      else if flt b 140 then "hypertension1"
      else "hypertension2"
  end.

Definition _chol_cat (c : JVal) : string :=
  match py_float float_of_str c with
  | Raised _ => "unknown"
  | Returned c =>
      if flt c 200 then "normal"
      else if flt c 240 then "borderline"
      else "high"
  end.

(** [if src in df.columns and tgt not in df.columns: df[tgt] = f(df[src])]
    on the one-row frame. *)
Definition derive_column (src tgt : string) (f : JVal -> JVal)
    (df : gmap string JVal) : gmap string JVal :=
  match df !! src, df !! tgt with
  | Some v, None => <[tgt := f v]> df
  | _, _ => df
  end.

(** The four guarded assignments, in the order of the source. *)
Definition normalize (df : gmap string JVal) : gmap string JVal :=
  let df := derive_column "thalach" "thalch" (fun v => v) df in
  let df := derive_column "age" "age_group" (fun v => JStr (_age_group v)) df in
  let df := derive_column "trestbps" "bp_cat" (fun v => JStr (_bp_cat v)) df in
  derive_column "chol" "chol_cat" (fun v => JStr (_chol_cat v)) df.
End Normalizer.

(** ** Ensemble scorer (predict_risk, the score and the tier) *)

(** [(p1 + p2 + p3) / 3] as the program computes it, on doubles: each of the
    two additions and the division gives its exact result rounded by [fl] to
    the nearest double. *)
Definition final_score (fl : Q -> Q) (p1 p2 p3 : Q) : Q :=
  fl (fl (fl (p1 + p2) + p3) / 3)%Q.

(** The arithmetic mean of the specification, in exact arithmetic. *)
Definition exact_mean (p1 p2 p3 : Q) : Q := ((p1 + p2 + p3) / 3)%Q.

(** The cascade of comparisons.  The literals [0.33] and [0.66] denote the
    doubles nearest to 33/100 and 66/100; both lie a little above the
    fraction with no double in between, so a double is below the literal
    exactly when it is below the fraction. *)
Definition risk_of (final_score : Q) : string :=
  if Qltb final_score 0.33 then "Low"
  else if Qltb final_score 0.66 then "Moderate"
  else "High".

(** ** Attribution extractor (utils/shap_handler.py) *)

(** What an explainer returns: an array, or a list with one array per class.
    The arrays are those of the docstring, of shape [(n_features,)] or
    [(n_samples, n_features)], with finite entries. *)
Inductive ndarray :=
| Nd1 (v : list Q)
| Nd2 (rows : list (list Q)).

Inductive ShapRaw :=
| ShapList (l : list ndarray)
| ShapArray (a : ndarray).

(** [raw[0] if isinstance(raw, list) else raw], then the first sample. *)
Definition sample_shap_of (raw : ShapRaw) : Outcome (list Q) :=
  let* raw0 :=
    match raw with
    | ShapList [] => Raised (Exn IndexError "list index out of range")
    | ShapList (a :: _) => Returned a
    | ShapArray a => Returned a
    end in
  match raw0 with
  | Nd1 v => Returned v
  | Nd2 [] => Raised (Exn IndexError "index 0 is out of bounds for axis 0 with size 0")
  | Nd2 (r :: _) => Returned r
  end.

(** The slice [l[-top:]]: the last [top] elements, and all of [l] when
    [top] is [0] (Python reads [-0] as [0]). *)
Definition last_slice {A} (top : nat) (l : list A) : list A :=
  match top with
  | O => l
  | _ => drop (length l - top) l
  end.

(** [for x in xs: results.append(f(x))], stopping at the first exception. *)
Fixpoint for_each {A B} (f : A -> Outcome B) (xs : list A) : Outcome (list B) :=
  match xs with
  | [] => Returned []
  | x :: xs' =>
      let* y := f x in
      let* ys := for_each f xs' in
      Returned (y :: ys)
  end.

Section Attribution.
(** [ndarray.argsort()]: numpy's default sort is not stable, so only its
    contract is used (see [argsort_spec] below). *)
Variable argsort : list Q -> list nat.

Definition top_entry (fnames : list string) (sample_shap : list Q) (i : nat)
    : Outcome (string * Q) :=
  match sample_shap !! i with
  | None => Raised (Exn IndexError "index out of bounds")
  | Some val =>
      match fnames !! i with
      | None => Raised (Exn IndexError "list index out of range")
      | Some f => Returned (f, val)
      end
  end.

Definition get_top_features_of (raw : Outcome ShapRaw) (feature_names : list string)
    (top : nat) : Outcome (list (string * Q)) :=
  let fnames := feature_names in
  let* raw := raw in
  let* sample_shap := sample_shap_of raw in
  let abs_vals := map Qabs sample_shap in
  let top_idx := rev (last_slice top (argsort abs_vals)) in
  for_each (top_entry fnames sample_shap) top_idx.

Definition get_top_features (explainer : list Q -> Outcome ShapRaw) (x_np : list Q)
    (feature_names : list string) : Outcome (list (string * Q)) :=
  get_top_features_of (explainer x_np) feature_names 5.
End Attribution.

(** The contract of [argsort]: a permutation of the positions that lists the
    values in non-decreasing order. *)
Definition argsort_spec (argsort : list Q -> list nat) : Prop :=
  forall l : list Q,
    Permutation (argsort l) (seq 0 (length l)) /\
    StronglySorted (fun i j => (nth i l 0 <= nth j l 0)%Q) (argsort l).

(** A stable instance, by insertion: what numpy does on short arrays. *)
Fixpoint insert_idx (l : list Q) (i : nat) (sorted : list nat) : list nat :=
  match sorted with
  | [] => [i]
  | j :: rest =>
      if Qltb (nth i l 0%Q) (nth j l 0%Q) then i :: j :: rest
      else j :: insert_idx l i rest
  end.

Definition insertion_argsort (l : list Q) : list nat :=
  fold_left (fun acc i => insert_idx l i acc) (seq 0 (length l)) [].

(** ** Python string helpers

    A Python string is a sequence of Unicode characters.  It is kept here as
    its UTF-8 encoding, and [utf8_chars] cuts the encoding into characters:
    each byte that is not a continuation byte ([10xxxxxx]) together with the
    continuation bytes that follow it. *)

Definition is_continuation (a : ascii) : bool :=
  let n := nat_of_ascii a in (128 <=? n)%nat && (n <? 192)%nat.

Definition starts_with_continuation (c : string) : bool :=
  match c with
  | String a _ => is_continuation a
  | EmptyString => false
  end.

Fixpoint utf8_chars (s : string) : list string :=
  match s with
  | EmptyString => []
  | String a s' =>
      match utf8_chars s' with
      | c :: cs =>
          if starts_with_continuation c then String a c :: cs
          else String a EmptyString :: c :: cs
      | [] => [String a EmptyString]
      end
  end.

(** The code point of a character: the payload bits of its first byte and
    six bits of every byte after it. *)
Definition code_point (c : string) : N :=
  match list_ascii_of_string c with
  | [] => 0%N
  | a :: rest =>
      let n := N_of_ascii a in
      let lead :=
        if (n <? 128)%N then n
        else if (n <? 224)%N then (n mod 32)%N
        else if (n <? 240)%N then (n mod 16)%N
        else (n mod 8)%N in
      fold_left (fun acc b => (acc * 64 + N_of_ascii b mod 64)%N) rest lead
  end.

Definition char_in (codes : list N) (c : string) : bool :=
  existsb (N.eqb (code_point c)) codes.

(** The characters [str.strip()] removes, those of [str.isspace()]: the
    ASCII ones (tab to carriage return, the four separators, the space) and
    U+0085, U+00A0, U+1680, U+2000 to U+200A, U+2028, U+2029, U+202F,
    U+205F and U+3000. *)
Definition py_isspace : string -> bool :=
  char_in [9; 10; 11; 12; 13; 28; 29; 30; 31; 32; 133; 160; 5760;
           8192; 8193; 8194; 8195; 8196; 8197; 8198; 8199; 8200; 8201; 8202;
           8232; 8233; 8239; 8287; 12288]%N.

(** The line boundaries of [str.splitlines()] other than a carriage return:
    line feed, vertical tab, form feed, the file, group and record
    separators, U+0085, U+2028 and U+2029. *)
Definition py_islinebreak : string -> bool :=
  char_in [10; 11; 12; 28; 29; 30; 133; 8232; 8233]%N.

Fixpoint drop_while {A} (p : A -> bool) (l : list A) : list A :=
  match l with
  | [] => []
  | x :: l' => if p x then drop_while p l' else l
  end.

(** [s.strip(chars)], with the set of characters as a predicate. *)
Definition strip_chars (p : string -> bool) (s : string) : string :=
  String.concat "" (rev (drop_while p (rev (drop_while p (utf8_chars s))))).

(** [s.strip()]. *)
Definition py_strip : string -> string := strip_chars py_isspace.

(** [s.strip("- ")]. *)
Definition strip_bullet : string -> string := strip_chars (char_in [45; 32]%N).

Definition is_empty_str (s : string) : bool := String.eqb s "".

Fixpoint splitlines_from (cur : list string) (l : list string) : list string :=
  match l with
  | [] => match cur with [] => [] | _ => [String.concat "" (rev cur)] end
  | c :: rest =>
      if (code_point c =? 13)%N then
        match rest with
        | c' :: rest' =>
            if (code_point c' =? 10)%N
            then String.concat "" (rev cur) :: splitlines_from [] rest'
            else String.concat "" (rev cur) :: splitlines_from [] rest
        | [] => [String.concat "" (rev cur)]
        end
      else if py_islinebreak c
      then String.concat "" (rev cur) :: splitlines_from [] rest
      else splitlines_from (c :: cur) rest
  end.

(** [s.splitlines()]. *)
Definition py_splitlines (s : string) : list string :=
  splitlines_from [] (utf8_chars s).

(** [f"{x:.2f}"]: two decimals, ties to even, the sign kept on a negative
    value that rounds to zero. *)
Definition round_half_even (num den : Z) : Z :=
  let q := num / den in
  let r := num mod den in
  if 2 * r <? den then q
  else if den <? 2 * r then q + 1
  else if Z.even q then q else q + 1.

Definition dec_of_Z (z : Z) : string := NilZero.string_of_uint (N.to_uint (Z.to_N z)).

Definition fmt_2f (x : Q) : string :=
  let n := round_half_even (100 * Z.abs (Qnum x)) (Z.pos (Qden x)) in
  let frac := n mod 100 in
  (if Qnum x <? 0 then "-" else "") +:+ dec_of_Z (n / 100) +:+ "."
    +:+ (if frac <? 10 then "0" else "") +:+ dec_of_Z frac.

(** ** Narrative generator (utils/gemini_client.py) *)

Inductive NarrativeKind := KExplanation | KLifestyle | KFollowup | KPrescription.

(** A prompt is one of four fixed templates with the call's arguments
    interpolated; it is kept as the template's name and those arguments. *)
Record Prompt := {
  prompt_kind : NarrativeKind;
  prompt_language : string;
  prompt_inputs : list (string * JVal);
  prompt_score : Q;
  prompt_level : string;
  prompt_top_features : list (string * Q)
}.

(** The response object: reading [.text] may raise, give nothing ([None] or
    no such attribute) or give a string; each candidate may carry a text
    ([None] for a candidate without a [text] attribute). *)
Record GenResponse := {
  resp_text : Outcome (option string);
  resp_candidates : list (option string)
}.

(** [getattr(resp, "text", default)]: a missing attribute and a property
    that raises [AttributeError] both give the default; any other exception
    of the property propagates. *)
Definition getattr_text (resp : GenResponse) : Outcome (option string) :=
  match resp_text resp with
  | Returned t => Returned t
  | Raised e =>
      match exn_class e with
      | AttributeError => Returned None
      | _ => Raised e
      end
  end.

Record Gemini := {
  api_key : option string;
  generate_content : Prompt -> Outcome GenResponse
}.

Definition _get_client (g : Gemini) : bool :=
  match api_key g with
  | None => false
  | Some k => negb (is_empty_str k)
  end.

Definition _basic_explanation_fallback (risk_level : string) (risk_score : Q) : string :=
  "Your predicted heart disease risk is " +:+ risk_level +:+ " "
  +:+ "(score: " +:+ fmt_2f risk_score +:+ "). This tool is for educational use only and "
  +:+ "cannot provide a medical diagnosis. Please discuss any concerns with a "
  +:+ "qualified healthcare professional.".

Definition _basic_lifestyle_fallback (risk_level : string) : list string :=
  let base :=
    ["This tool does not give medical advice. For personalized guidance, "
     +:+ "please consult a doctor."] in
  if String.eqb risk_level "Low" then
    base ++ ["Maintain a heart-healthy lifestyle with regular physical activity, "
             +:+ "balanced diet, and avoiding smoking."]
  else if String.eqb risk_level "Moderate" then
    base ++ ["Consider speaking with a healthcare professional about blood "
             +:+ "pressure, cholesterol, exercise, and diet goals."]
  else
    base ++ ["It may be important to seek professional medical advice to review "
             +:+ "your risk factors and next steps."].

Definition opt_or_empty (t : option string) : string := default "" t.

Section Narratives.
Variable g : Gemini.
Variables (inputs : list (string * JVal)) (risk_score : Q) (risk_level : string)
          (top_features : list (string * Q)) (language : string).

Definition prompt_for (k : NarrativeKind) : Prompt :=
  {| prompt_kind := k; prompt_language := language; prompt_inputs := inputs;
     prompt_score := risk_score; prompt_level := risk_level;
     prompt_top_features := top_features |}.

Definition generate_explanation : string :=
  if negb (_get_client g) then _basic_explanation_fallback risk_level risk_score
  else
    let attempt :=
      let* resp := generate_content g (prompt_for KExplanation) in
      let* t := getattr_text resp in
      let text :=
        if is_empty_str (opt_or_empty t)
        then String.concat "" (omap (fun c => c) (resp_candidates resp))
        else opt_or_empty t in
      let text := if is_empty_str text then "" else py_strip text in
      if is_empty_str text
      then Returned (_basic_explanation_fallback risk_level risk_score)
      else Returned text in
    match attempt with
    | Returned text => text
    | Raised _ => _basic_explanation_fallback risk_level risk_score
    end.

Definition generate_lifestyle_suggestions : list string :=
  if negb (_get_client g) then _basic_lifestyle_fallback risk_level
  else
    let attempt :=
      let* resp := generate_content g (prompt_for KLifestyle) in
      let* t := getattr_text resp in
      let text := opt_or_empty t in
      let lines :=
        map (fun ln => py_strip (strip_bullet ln))
            (filter (fun ln => is_empty_str (py_strip ln) = false) (py_splitlines text)) in
      let cleaned := filter (fun ln => is_empty_str ln = false) lines in
      match cleaned with
      | [] => Returned (_basic_lifestyle_fallback risk_level)
      | _ => Returned cleaned
      end in
    match attempt with
    | Returned suggestions => suggestions
    | Raised _ => _basic_lifestyle_fallback risk_level
    end.

Definition generate_followup_plan : string :=
  if negb (_get_client g) then
    "Consider scheduling an appointment with a qualified healthcare "
    +:+ "professional to review your blood pressure, cholesterol, "
    +:+ "lifestyle, and any symptoms. Bring this assessment result and "
    +:+ "ask what additional tests or monitoring they recommend."
  else
    let attempt :=
      let* resp := generate_content g (prompt_for KFollowup) in
      let* t := getattr_text resp in
      let text := py_strip (opt_or_empty t) in
      if is_empty_str text then
        Returned ("Consider discussing this assessment with a doctor, asking "
                  +:+ "about further evaluation, lifestyle options, and how often "
                  +:+ "your heart health should be monitored.")
      else Returned text in
    match attempt with
    | Returned text => text
    | Raised _ =>
        "Consider scheduling an appointment with a qualified healthcare "
        +:+ "professional to review your results, ask about further tests, "
        +:+ "and discuss safe lifestyle options."
    end.

Definition generate_prescription_summary : string :=
  if negb (_get_client g) then
    "This summary is intended to help structure a discussion with "
    +:+ "a qualified healthcare professional. It does not recommend "
    +:+ "specific medications or doses. Please consult your doctor for "
    +:+ "any treatment decisions."
  else
    let attempt :=
      let* resp := generate_content g (prompt_for KPrescription) in
      let* t := getattr_text resp in
      let text := py_strip (opt_or_empty t) in
      if is_empty_str text then
        Returned ("Discuss these results with a qualified doctor, who can "
                  +:+ "review risk factors, advise on lifestyle, and decide if "
                  +:+ "any tests or treatments are appropriate for you.")
      else Returned text in
    match attempt with
    | Returned text => text
    | Raised _ =>
        "This high-level summary is intended for discussion with a "
        +:+ "healthcare professional and does not include medication names "
        +:+ "or dosages. Please consult your doctor for individual advice."
    end.
End Narratives.

(** ** Equality of JSON values (the equality filter of a store query) *)

Definition pyfloat_eqb (a b : pyfloat) : bool :=
  match a, b with
  | FFin x, FFin y => (Qnum x =? Qnum y) && (Qden x =? Qden y)%positive
  | FInf x, FInf y => Bool.eqb x y
  | FNaN, FNaN => true
  | _, _ => false
  end.

Fixpoint jeqb (a b : JVal) {struct a} : bool :=
  match a, b with
  | JNull, JNull => true
  | JBool x, JBool y => Bool.eqb x y
  | JInt x, JInt y => x =? y
  | JFloat x, JFloat y => pyfloat_eqb x y
  | JStr x, JStr y => String.eqb x y
  | JArr l, JArr l' =>
      (fix go (l l' : list JVal) : bool :=
         match l, l' with
         | [], [] => true
         | x :: xs, y :: ys => jeqb x y && go xs ys
         | _, _ => false
         end) l l'
  | JObj d, JObj d' =>
      (fix go (d d' : list (string * JVal)) : bool :=
         match d, d' with
         | [], [] => true
         | (k, x) :: xs, (k', y) :: ys => String.eqb k k' && jeqb x y && go xs ys
         | _, _ => false
         end) d d'
  | _, _ => false
  end.

(** ** Requests, responses and the environment *)

Definition Processed : Type := list Q.

Record Request := {
  method : string;
  authorization : option string;
  json : JVal
}.

Record PredictResponse := {
  r_input : list (string * JVal);
  r_risk_score : Q;
  r_risk_level : string;
  r_top_features : list (string * Q);
  r_explanation_text : string;
  r_lifestyle_suggestions : list string;
  r_followup_plan : string;
  r_prescription_summary : string;
  r_lifestyle : JVal;
  r_patientName : JVal;
  r_shap_error : option string
}.

Record PredictionDoc := {
  _id : N;
  created_at : Z;
  userId : JVal;
  doctorId : JVal;
  patientId : JVal;
  patientName : JVal;
  input : list (string * JVal);
  risk_score : Q;
  risk_level : string;
  trestbps : JVal;
  chol : JVal;
  thalach : JVal;
  oldpeak : JVal;
  restecg : JVal;
  smoking_status : JVal;
  diabetes_status : JVal;
  family_history_diabetes : JVal;
  pregnancy_status : JVal;
  top_features : list (string * Q);
  explanation_text : string;
  lifestyle_suggestions : list string;
  followup_plan : string;
  prescription_summary : string
}.

Record UserDoc := {
  user_name : JVal;
  user_email : JVal;
  user_password : string;
  user_role : option JVal
}.

(** What the program takes from its surroundings. *)
Record Env := {
  (** [float(s)] on a string and [str(v)] inside an f-string *)
  float_of_str : string -> option pyfloat;
  py_str : JVal -> string;
  (** the rounding of a real number to the nearest double, which every
      arithmetic operation on floats ends with *)
  fl : Q -> Q;
  (** [str.lower()], which follows the case mappings of Unicode *)
  str_lower : string -> string;
  (** models/preprocessor.joblib *)
  transform : gmap string JVal -> Outcome Processed;
  get_feature_names_out : list string;
  (** [predict_proba(processed)[0][1]] of the three classifiers *)
  log_predict_proba : Processed -> Outcome Q;
  rf_predict_proba : Processed -> Outcome Q;
  xgb_predict_proba : Processed -> Outcome Q;
  (** [shap.TreeExplainer(rf_model).shap_values] and numpy's [argsort] *)
  shap_values : Processed -> Outcome ShapRaw;
  argsort : list Q -> list nat;
  gemini : Gemini;
  (** the JWT library under utils/token.py, with the configured secret *)
  jwt_encode : gmap string JVal -> Outcome string;
  jwt_decode : string -> Outcome (gmap string JVal);
  (** [datetime.utcnow()] in seconds, and [datetime.isoformat] *)
  utcnow : Z;
  isoformat : Z -> string;
  (** [bson.ObjectId(s)]; [None] when it raises *)
  ObjectId : string -> option N;
  (** what [insert_one] raises on account of the document itself, if
      anything: the BSON encoder refuses, among others, an integer that does
      not fit 64 bits ([OverflowError]) *)
  prediction_error : PredictionDoc -> option exn;
  user_error : UserDoc -> option exn;
  (** the server's reading of a mapping given as the value of a filter, on
      the value of the field of a stored document: with [$]-keys the mapping
      is an operator expression, as [{"$gt": ""}] *)
  query_operator : list (string * JVal) -> JVal -> bool;
  (** utils/hashing.py, which is not among the sources at hand: its two
      functions are parameters *)
  hash_password : JVal -> string;
  verify_password : JVal -> string -> bool
}.

Record PatientSummary := {
  ps_patientId : JVal;
  ps_patientName : JVal;
  ps_lastVisit : string;
  ps_assessmentCount : nat
}.

Record HistoryItem := {
  h_id : N;
  h_created_at : string;
  h_risk_score : Q;
  h_risk_level : string;
  h_trestbps : JVal;
  h_chol : JVal;
  h_thalach : JVal;
  h_oldpeak : JVal;
  h_restecg : JVal;
  h_smoking_status : JVal;
  h_diabetes_status : JVal;
  h_family_history_diabetes : JVal;
  h_pregnancy_status : JVal;
  h_input : list (string * JVal)
}.

Record PatientProfile := {
  pp_patientId : string;
  pp_patientName : JVal;
  pp_assessmentCount : nat;
  pp_firstVisit : option string;
  pp_lastVisit : option string;
  pp_history : list HistoryItem
}.

Inductive Body :=
| BPrediction (r : PredictResponse)
| BMsg (msg : string) (error : option string)
| BEmpty
| BPatients (patients : list PatientSummary)
| BProfile (profile : PatientProfile)
| BLogin (token : string) (name role : JVal)
| BServerError.

Record Response := { status : nat; body : Body }.

(** [jsonify({"msg": m})], optionally with an ["error"] entry. *)
Definition msg_response (code : nat) (m : string) (err : option string) : Response :=
  {| status := code; body := BMsg m err |}.

(** Flask answers 500 with its own error page when a view raises. *)
Definition serve (view : Outcome Response) : Response :=
  match view with
  | Returned r => r
  | Raised _ => {| status := 500; body := BServerError |}
  end.

(** ** The document store *)

Record Mongo := {
  users : list UserDoc;
  predictions : list PredictionDoc;
  next_oid : N;
  (** a pending failure of the server or the connection: every operation
      raises it *)
  fault : option exn
}.

Definition with_store {A} (db : Mongo) (a : A) : Outcome A :=
  match fault db with
  | Some e => Raised e
  | None => Returned a
  end.

Definition set_predictions (db : Mongo) (ps : list PredictionDoc) (oid : N) : Mongo :=
  {| users := users db; predictions := ps; next_oid := oid; fault := fault db |}.

Definition set_users (db : Mongo) (us : list UserDoc) : Mongo :=
  {| users := us; predictions := predictions db; next_oid := next_oid db; fault := fault db |}.

(** [predictions_collection.insert_one(doc)]: the driver gives the document
    its [_id] and encodes it, which can fail on the document itself; then
    the store takes it. *)
Definition insert_one_prediction (E : Env) (db : Mongo) (doc : N -> PredictionDoc)
    : Outcome Mongo :=
  let d := doc (next_oid db) in
  match prediction_error E d with
  | Some e => Raised e
  | None => with_store db (set_predictions db (predictions db ++ [d]) (N.succ (next_oid db)))
  end.

(** [predictions_collection.delete_one({"_id": oid, "userId": email})]:
    the first matching document goes; the result is the new collection and
    [deleted_count]. *)
Fixpoint remove_first (p : PredictionDoc -> bool) (l : list PredictionDoc)
    : list PredictionDoc * nat :=
  match l with
  | [] => ([], 0%nat)
  | d :: l' =>
      if p d then (l', 1%nat)
      else let '(l'', n) := remove_first p l' in (d :: l'', n)
  end.

Definition owned_item (oid : N) (email : JVal) (d : PredictionDoc) : bool :=
  (_id d =? oid)%N && jeqb (userId d) email.

Definition delete_one_prediction (db : Mongo) (oid : N) (email : JVal)
    : Outcome (Mongo * nat) :=
  let '(ps, deleted_count) := remove_first (owned_item oid email) (predictions db) in
  with_store db (set_predictions db ps (next_oid db), deleted_count).

(** The filter [{"email": query}] on the email of a stored user.  The view
    hands the value of the body to the server as it is: a value that is not
    a mapping selects the users whose email equals it; a mapping is read by
    the server, as an operator expression when it has [$]-keys, and what it
    selects is the server's [query_operator].  A stored email equal to the
    mapping is taken to be selected as well. *)
Definition field_matches (E : Env) (query field : JVal) : bool :=
  jeqb field query ||
  match query with
  | JObj d => query_operator E d field
  | _ => false
  end.

(** [users_collection.find_one({"email": email})]. *)
Definition find_one_user (E : Env) (db : Mongo) (email : JVal) : Outcome (option UserDoc) :=
  with_store db (find (fun u => field_matches E email (user_email u)) (users db)).

(** [users_collection.insert_one(doc)]. *)
Definition insert_one_user (E : Env) (db : Mongo) (u : UserDoc) : Outcome Mongo :=
  match user_error E u with
  | Some e => Raised e
  | None => with_store db (set_users db (users db ++ [u]))
  end.

(** ** Tokens (utils/token.py) *)

(** [generate_token]: the payload carries [name] and [role] only when they
    are not [None]; the token expires a day later. *)
Definition token_payload (E : Env) (email name role : JVal) : gmap string JVal :=
  let payload : gmap string JVal :=
    <["exp" := JInt (utcnow E + 86400)]> (<["email" := email]> ∅) in
  let payload := if jeqb name JNull then payload else <["name" := name]> payload in
  if jeqb role JNull then payload else <["role" := role]> payload.

Definition generate_token (E : Env) (email name role : JVal) : Outcome string :=
  jwt_encode E (token_payload E email name role).

Definition decode_token (E : Env) (token : string) : Outcome (gmap string JVal) :=
  jwt_decode E token.

(** ** Reading the caller's identity *)

Definition dict_lookup (d : list (string * JVal)) (k : string) : option JVal :=
  snd <$> find (fun kv => String.eqb (fst kv) k) d.

(** [v[k]] with a string key. *)
Definition jindex (v : JVal) (k : string) : Outcome JVal :=
  match v with
  | JObj d =>
      match dict_lookup d k with
      | Some x => Returned x
      | None => Raised (Exn KeyError k)
      end
  | _ => Raised (Exn TypeError "object is not subscriptable by a string key")
  end.

Definition auth_header_of (req : Request) : string := default "" (authorization req).

(** [s.split(" ", 1)[1]]: what follows the first space. *)
Fixpoint split_second (s : string) : Outcome string :=
  match s with
  | EmptyString => Raised (Exn IndexError "list index out of range")
  | String c s' => if Ascii.eqb c " " then Returned s' else split_second s'
  end.

(** [payload.get("email")] and [payload.get("role", "Doctor")]. *)
Definition payload_email (payload : gmap string JVal) : JVal :=
  default JNull (payload !! "email").

Definition payload_role (payload : gmap string JVal) : JVal :=
  default (JStr "Doctor") (payload !! "role").

(** The opening lines shared by the protected views: the bearer token is
    taken from the header and decoded, or the view answers 401. *)
Definition bearer_payload (E : Env) (req : Request)
    : Outcome (Response + gmap string JVal) :=
  let auth_header := auth_header_of req in
  if negb (String.prefix "Bearer " auth_header) then
    Returned (inl (msg_response 401 "Authorization header missing" None))
  else
    let* rest := split_second auth_header in
    let token := py_strip rest in
    match decode_token E token with
    | Raised e => Returned (inl (msg_response 401 "Invalid token" (Some (exn_msg e))))
    | Returned payload => Returned (inr payload)
    end.

(** In [predict_risk] a missing or undecodable token only leaves
    [user_email] at [None]. *)
Definition caller_email (E : Env) (req : Request) : Outcome JVal :=
  let auth_header := auth_header_of req in
  if String.prefix "Bearer " auth_header then
    let* rest := split_second auth_header in
    let token := py_strip rest in
    match decode_token E token with
    | Returned payload => Returned (payload_email payload)
    | Raised _ => Returned JNull
    end
  else Returned JNull.

(** ** POST /predict *)

(** [v.strip()]: only strings have the method. *)
Definition jstrip (v : JVal) : Outcome string :=
  match v with
  | JStr s => Returned (py_strip s)
  | _ => Raised (Exn AttributeError "object has no attribute 'strip'")
  end.

(** [f"{v}"]. *)
Definition py_format (E : Env) (v : JVal) : string :=
  match v with
  | JStr s => s
  | _ => py_str E v
  end.

(** What the view has computed when it reaches the response. *)
Record Prediction := {
  p_data : list (string * JVal);
  p_lifestyle : JVal;
  p_patient_name : JVal;
  p_final_score : Q;
  p_risk : string;
  p_top_features : list (string * Q);
  p_shap_error : option string;
  p_explanation_text : string;
  p_lifestyle_suggestions : list string;
  p_followup_plan : string;
  p_prescription_summary : string
}.

(** The best-effort SHAP step: [(top_features, shap_error)]. *)
Definition shap_step (E : Env) (processed : Processed) (feature_names : list string)
    : list (string * Q) * option string :=
  match get_top_features (argsort E) (shap_values E) processed feature_names with
  | Returned top_features => (top_features, None)
  | Raised e => ([], Some (exn_msg e))
  end.

(** Lines 30-36: the patient name, the lifestyle mapping and the feature
    mapping [data], whose items become the columns of the frame. *)
Definition parse_request (req : Request)
    : Outcome (JVal * JVal * list (string * JVal)) :=
  let raw := py_or (json req) (JObj []) in
  let* pn1 := jget raw "patientName" in
  let* pn2 := jget raw "patient_name" in
  let patient_name := py_or pn1 pn2 in
  let* f := jget raw "features" in
  let features := py_or f raw in
  let* l := jget raw "lifestyle" in
  let lifestyle := py_or l (JObj []) in
  let* data := jitems features in
  Returned (patient_name, lifestyle, data).

(** Lines 39-94: the one-row frame with its derived columns. *)
Definition feature_row (E : Env) (data : list (string * JVal)) : gmap string JVal :=
  normalize (float_of_str E) (list_to_map data).

(** Lines 30-155: parsing, derived columns, transform, ensemble, SHAP and
    narratives.  [inl] is the 400 answer to a [ValueError] of the transform. *)
Definition compute_prediction (E : Env) (req : Request) : Outcome (Response + Prediction) :=
  let* parsed := parse_request req in
  let '(patient_name, lifestyle, data) := parsed in
  let df := feature_row E data in
  match transform E df with
  | Raised e =>
      match exn_class e with
      | ValueError =>
          Returned (inl (msg_response 400 "Preprocessing failed" (Some (exn_msg e))))
      | _ => Raised e
      end
  | Returned processed =>
      let feature_names := get_feature_names_out E in
      let* p1 := log_predict_proba E processed in
      let* p2 := rf_predict_proba E processed in
      let* p3 := xgb_predict_proba E processed in
      let score := final_score (fl E) p1 p2 p3 in
      let risk := risk_of score in
      let '(top, shap_error) := shap_step E processed feature_names in
      Returned (inr
        {| p_data := data; p_lifestyle := lifestyle; p_patient_name := patient_name;
           p_final_score := score; p_risk := risk;
           p_top_features := top; p_shap_error := shap_error;
           p_explanation_text := generate_explanation (gemini E) data score risk top "en";
           p_lifestyle_suggestions :=
             generate_lifestyle_suggestions (gemini E) data score risk top "en";
           p_followup_plan := generate_followup_plan (gemini E) data score risk top "en";
           p_prescription_summary :=
             generate_prescription_summary (gemini E) data score risk top "en" |})
  end.

(** Lines 169-182: the response; [shap_error] is added [if shap_error:]. *)
Definition response_of (p : Prediction) : PredictResponse :=
  {| r_input := p_data p;
     r_risk_score := p_final_score p;
     r_risk_level := p_risk p;
     r_top_features := p_top_features p;
     r_explanation_text := p_explanation_text p;
     r_lifestyle_suggestions := p_lifestyle_suggestions p;
     r_followup_plan := p_followup_plan p;
     r_prescription_summary := p_prescription_summary p;
     r_lifestyle := p_lifestyle p;
     r_patientName := p_patient_name p;
     r_shap_error :=
       match p_shap_error p with
       | Some m => if is_empty_str m then None else Some m
       | None => None
       end |}.

(** Lines 184-219: the history record; any exception leaves the store as it
    was. *)
Definition history_record (E : Env) (p : Prediction) (user_email patient_id : JVal)
    (smoking diabetes family pregnancy : JVal) (oid : N) : PredictionDoc :=
  {| _id := oid;
     created_at := utcnow E;
     userId := user_email;
     doctorId := user_email;
     patientId := patient_id;
     patientName := p_patient_name p;
     input := p_data p;
     risk_score := p_final_score p;
     risk_level := p_risk p;
     trestbps := dict_get (p_data p) "trestbps";
     chol := dict_get (p_data p) "chol";
     thalach := dict_get (p_data p) "thalach";
     oldpeak := dict_get (p_data p) "oldpeak";
     restecg := dict_get (p_data p) "restecg";
     smoking_status := smoking;
     diabetes_status := diabetes;
     family_history_diabetes := family;
     pregnancy_status := pregnancy;
     top_features := p_top_features p;
     explanation_text := p_explanation_text p;
     lifestyle_suggestions := p_lifestyle_suggestions p;
     followup_plan := p_followup_plan p;
     prescription_summary := p_prescription_summary p |}.

(** Lines 186-215: the document handed to [insert_one], up to the [_id] the
    driver gives it. *)
Definition history_doc (E : Env) (p : Prediction) (user_email : JVal)
    : Outcome (N -> PredictionDoc) :=
  let* patient_id :=
    if py_truthy user_email && py_truthy (p_patient_name p) then
      let* name := jstrip (p_patient_name p) in
      Returned (JStr (py_format E user_email +:+ "::" +:+ str_lower E name))
    else Returned JNull in
  let* smoking := jget (p_lifestyle p) "smoking_status" in
  let* diabetes := jget (p_lifestyle p) "diabetes_status" in
  let* family := jget (p_lifestyle p) "family_history_diabetes" in
  let* pregnancy := jget (p_lifestyle p) "pregnancy_status" in
  Returned (history_record E p user_email patient_id smoking diabetes family pregnancy).

Definition persist (E : Env) (db : Mongo) (p : Prediction) (user_email : JVal) : Mongo :=
  let attempt :=
    let* doc := history_doc E p user_email in
    insert_one_prediction E db doc in
  match attempt with
  | Returned db' => db'
  | Raised _ => db
  end.

Definition predict_risk_view (E : Env) (db : Mongo) (req : Request)
    : Outcome Response * Mongo :=
  match compute_prediction E req with
  | Raised e => (Raised e, db)
  | Returned (inl bad_request) => (Returned bad_request, db)
  | Returned (inr p) =>
      match caller_email E req with
      | Raised e => (Raised e, db)
      | Returned user_email =>
          (Returned {| status := 200; body := BPrediction (response_of p) |},
           persist E db p user_email)
      end
  end.

Definition predict_risk (E : Env) (db : Mongo) (req : Request) : Response * Mongo :=
  let '(view, db') := predict_risk_view E db req in (serve view, db').

(** ** GET /doctor/patients and GET /doctor/patient/<patient_id> *)

(** Lines 281-286 and 331-336: the caller must have an email, and a role
    that is "Doctor" (the role a token without one is given). *)
Definition doctor_gate (payload : gmap string JVal) : Response + JVal :=
  let email := payload_email payload in
  let role := payload_role payload in
  if negb (py_truthy email) then inl (msg_response 401 "Unauthorized" None)
  else if negb (jeqb role (JStr "Doctor")) then inl (msg_response 403 "Forbidden" None)
  else inr email.

Record PatientGroup := {
  g_id : JVal;
  g_patientName : JVal;
  g_lastVisit : Z;
  g_assessmentCount : nat
}.

(** The [$group] stage: one group per [patientId], with the first
    [patientName], the latest [created_at] and the number of documents. *)
Fixpoint add_to_groups (d : PredictionDoc) (groups : list PatientGroup) : list PatientGroup :=
  match groups with
  | [] =>
      [{| g_id := patientId d; g_patientName := patientName d;
          g_lastVisit := created_at d; g_assessmentCount := 1 |}]
  | grp :: rest =>
      if jeqb (g_id grp) (patientId d) then
        {| g_id := g_id grp; g_patientName := g_patientName grp;
           g_lastVisit := Z.max (g_lastVisit grp) (created_at d);
           g_assessmentCount := S (g_assessmentCount grp) |} :: rest
      else grp :: add_to_groups d rest
  end.

(** Sorting on a key, newest first; the server leaves the order of equal
    keys open, here the earlier element stays first. *)
Fixpoint insert_desc {A} (key : A -> Z) (x : A) (l : list A) : list A :=
  match l with
  | [] => [x]
  | y :: l' => if key y <? key x then x :: y :: l' else y :: insert_desc key x l'
  end.

Definition sort_desc {A} (key : A -> Z) (l : list A) : list A :=
  fold_left (fun acc x => insert_desc key x acc) l [].

(** The pipeline [$match], [$group], [$sort] of [get_doctor_patients]. *)
Definition aggregate_patients (db : Mongo) (email : JVal) : Outcome (list PatientGroup) :=
  let matched :=
    List.filter (fun d => jeqb (doctorId d) email && negb (jeqb (patientId d) JNull))
                (predictions db) in
  let groups := fold_left (fun acc d => add_to_groups d acc) matched [] in
  with_store db (sort_desc g_lastVisit groups).

Definition patient_summary (E : Env) (grp : PatientGroup) : PatientSummary :=
  {| ps_patientId := g_id grp;
     ps_patientName := g_patientName grp;
     ps_lastVisit := isoformat E (g_lastVisit grp);
     ps_assessmentCount := g_assessmentCount grp |}.

Definition get_doctor_patients_view (E : Env) (db : Mongo) (req : Request)
    : Outcome Response :=
  let* auth := bearer_payload E req in
  match auth with
  | inl unauthenticated => Returned unauthenticated
  | inr payload =>
      match doctor_gate payload with
      | inl refused => Returned refused
      | inr email =>
          match aggregate_patients db email with
          | Returned cursor =>
              Returned {| status := 200; body := BPatients (map (patient_summary E) cursor) |}
          | Raised e =>
              Returned (msg_response 500 "Failed to load patients" (Some (exn_msg e)))
          end
      end
  end.

Definition get_doctor_patients (E : Env) (db : Mongo) (req : Request) : Response :=
  serve (get_doctor_patients_view E db req).

(** [find({"doctorId": email, "patientId": patient_id}).sort("created_at", -1)]. *)
Definition find_patient_history (db : Mongo) (email : JVal) (patient_id : string)
    : Outcome (list PredictionDoc) :=
  with_store db
    (sort_desc created_at
       (List.filter (fun d => jeqb (doctorId d) email && jeqb (patientId d) (JStr patient_id))
                    (predictions db))).

Definition history_item (E : Env) (doc : PredictionDoc) : HistoryItem :=
  {| h_id := _id doc;
     h_created_at := isoformat E (created_at doc);
     h_risk_score := risk_score doc;
     h_risk_level := risk_level doc;
     h_trestbps := trestbps doc;
     h_chol := chol doc;
     h_thalach := thalach doc;
     h_oldpeak := oldpeak doc;
     h_restecg := restecg doc;
     h_smoking_status := smoking_status doc;
     h_diabetes_status := diabetes_status doc;
     h_family_history_diabetes := family_history_diabetes doc;
     h_pregnancy_status := pregnancy_status doc;
     h_input := input doc |}.

(** The loop over the cursor: the first name that is not [None], the first
    [created_at] as the last visit, the least one as the first visit. *)
Definition patient_profile (E : Env) (patient_id : string) (cursor : list PredictionDoc)
    : PatientProfile :=
  let patient_name :=
    fold_left (fun name doc => if jeqb name JNull then patientName doc else name) cursor JNull in
  let last_visit := created_at <$> head cursor in
  let first_visit :=
    fold_left (fun first doc =>
                 match first with
                 | None => Some (created_at doc)
                 | Some t => Some (Z.min t (created_at doc))
                 end) cursor None in
  {| pp_patientId := patient_id;
     pp_patientName := patient_name;
     pp_assessmentCount := length cursor;
     pp_firstVisit := isoformat E <$> first_visit;
     pp_lastVisit := isoformat E <$> last_visit;
     pp_history := map (history_item E) cursor |}.

Definition get_doctor_patient_profile_view (E : Env) (db : Mongo) (patient_id : string)
    (req : Request) : Outcome Response :=
  let* auth := bearer_payload E req in
  match auth with
  | inl unauthenticated => Returned unauthenticated
  | inr payload =>
      match doctor_gate payload with
      | inl refused => Returned refused
      | inr email =>
          match find_patient_history db email patient_id with
          | Returned cursor =>
              Returned {| status := 200; body := BProfile (patient_profile E patient_id cursor) |}
          | Raised e =>
              Returned (msg_response 500 "Failed to load patient profile" (Some (exn_msg e)))
          end
      end
  end.

Definition get_doctor_patient_profile (E : Env) (db : Mongo) (patient_id : string)
    (req : Request) : Response :=
  serve (get_doctor_patient_profile_view E db patient_id req).

(** ** DELETE /history/item/<item_id> *)

Definition delete_history_item_view (E : Env) (db : Mongo) (item_id : string)
    (req : Request) : Outcome Response * Mongo :=
  if String.eqb (method req) "OPTIONS" then
    (Returned {| status := 200; body := BEmpty |}, db)
  else
    match bearer_payload E req with
    | Raised e => (Raised e, db)
    | Returned (inl unauthenticated) => (Returned unauthenticated, db)
    | Returned (inr payload) =>
        let email := payload_email payload in
        if negb (py_truthy email) then (Returned (msg_response 401 "Unauthorized" None), db)
        else
          match ObjectId E item_id with
          | None => (Returned (msg_response 400 "Invalid id" None), db)
          | Some oid =>
              match delete_one_prediction db oid email with
              | Returned (db', deleted_count) =>
                  if Nat.eqb deleted_count 0
                  then (Returned (msg_response 404 "Item not found" None), db')
                  else (Returned (msg_response 200 "Deleted" None), db')
              | Raised e =>
                  (Returned (msg_response 500 "Failed to delete history item"
                                          (Some (exn_msg e))), db)
              end
          end
    end.

Definition delete_history_item (E : Env) (db : Mongo) (item_id : string) (req : Request)
    : Response * Mongo :=
  let '(view, db') := delete_history_item_view E db item_id req in (serve view, db').

(** ** POST /signup and POST /login (routes/auth_routes.py) *)

Definition signup_view (E : Env) (db : Mongo) (req : Request) : Outcome Response * Mongo :=
  let data := json req in
  let attempt :=
    let* email := jindex data "email" in
    let* existing := find_one_user E db email in
    match existing with
    | Some _ => Returned (msg_response 400 "User already exists" None, db)
    | None =>
        let* items := jitems data in
        let role := default (JStr "Doctor") (dict_lookup items "role") in
        let* name := jindex data "name" in
        let* email' := jindex data "email" in
        let* password := jindex data "password" in
        let* db' :=
          insert_one_user E db
            {| user_name := name; user_email := email';
               user_password := hash_password E password; user_role := Some role |} in
        Returned (msg_response 200 "Signup successful" None, db')
    end in
  match attempt with
  | Returned (r, db') => (Returned r, db')
  | Raised e => (Raised e, db)
  end.

Definition signup (E : Env) (db : Mongo) (req : Request) : Response * Mongo :=
  let '(view, db') := signup_view E db req in (serve view, db').

Definition login_view (E : Env) (db : Mongo) (req : Request) : Outcome Response :=
  let data := json req in
  let* email := jindex data "email" in
  let* found := find_one_user E db email in
  match found with
  | None => Returned (msg_response 404 "User not found" None)
  | Some user =>
      let* password := jindex data "password" in
      if negb (verify_password E password (user_password user)) then
        Returned (msg_response 401 "Incorrect password" None)
      else
        let role := default JNull (user_role user) in
        let* token := generate_token E (user_email user) (user_name user) role in
        Returned {| status := 200;
                    body := BLogin token (user_name user)
                                   (default (JStr "Doctor") (user_role user)) |}
  end.

Definition login (E : Env) (db : Mongo) (req : Request) : Response :=
  serve (login_view E db req).

(** ** Doubles

    Rounding to the nearest double, ties to even, of a rational number.  A
    double is an integer of at most 53 bits times a power of two that is at
    least [2^-1074].  Overflow to an infinity is left out: nothing as large
    as [2^1024] is rounded here. *)

Definition pow2 (e : Z) : Q :=
  if 0 <=? e then inject_Z (2 ^ e) else (1 # Z.to_pos (2 ^ (- e)))%Q.

(** The exponent of the binade of [q <> 0]: [2^e <= |q| < 2^(e+1)]. *)
Definition binade (q : Q) : Z :=
  let n := Z.abs (Qnum q) in
  let d := Z.pos (Qden q) in
  let e0 := Z.log2 n - Z.log2 d in
  if (if 0 <=? e0 then d * 2 ^ e0 <=? n else d <=? n * 2 ^ (- e0)) then e0 else e0 - 1.

Definition round_binary64 (q : Q) : Q :=
  if Qnum q =? 0 then 0%Q
  else
    let e := Z.max (binade q - 52) (- 1074) in
    let n := Z.abs (Qnum q) in
    let d := Z.pos (Qden q) in
    let m :=
      if 0 <=? e then round_half_even n (d * 2 ^ e)
      else round_half_even (n * 2 ^ (- e)) d in
    let r := (inject_Z m * pow2 e)%Q in
    if Qnum q <? 0 then (- r)%Q else r.

(** ** Sample artefacts, tokens and requests

    One concrete environment, used to run the views on explicit inputs. *)

Definition hex_digit (a : ascii) : option N :=
  let n := N_of_ascii a in
  if (48 <=? n)%N && (n <=? 57)%N then Some (n - 48)%N
  else if (97 <=? n)%N && (n <=? 102)%N then Some (n - 87)%N
  else if (65 <=? n)%N && (n <=? 70)%N then Some (n - 55)%N
  else None.

(** An [ObjectId] from its 24 hexadecimal digits. *)
Definition sample_ObjectId (s : string) : option N :=
  if Nat.eqb (String.length s) 24 then
    fold_left (fun acc a =>
                 match acc, hex_digit a with
                 | Some n, Some d => Some (16 * n + d)%N
                 | _, _ => None
                 end) (list_ascii_of_string s) (Some 0%N)
  else None.

(** A preprocessor fitted on [age], [trestbps], [chol], [thalch] and the
    three derived categories: it raises [ValueError] when one is missing. *)
Definition sample_transform (df : gmap string JVal) : Outcome Processed :=
  if forallb (fun c => bool_decide (is_Some (df !! c)))
       ["age"; "trestbps"; "chol"; "thalch"; "age_group"; "bp_cat"; "chol_cat"]
  then Returned [0.5; 1; 0; 0.25; 1; 0; 1]%Q
  else Raised (Exn ValueError "columns are missing").

Definition sample_feature_names : list string :=
  ["age"; "trestbps"; "chol"; "thalch"; "age_group"; "bp_cat"; "chol_cat"].

Definition sample_shap_values (x : Processed) : Outcome ShapRaw :=
  Returned (ShapList [Nd2 [[0.1; -0.4; 0.05; 0; 0.2; -0.3; 0.02]%Q];
                      Nd2 [[-0.1; 0.4; -0.05; 0; -0.2; 0.3; -0.02]%Q]]).

Definition doctor_payload : gmap string JVal :=
  <["role" := JStr "Doctor"]> (<["email" := JStr "doc@example.org"]> ∅).

Definition patient_without_email_payload : gmap string JVal :=
  <["role" := JStr "Patient"]> (<["email" := JStr ""]> ∅).

Definition payload_without_role : gmap string JVal :=
  <["email" := JStr "old@example.org"]> ∅.

Definition issued_payload : gmap string JVal :=
  <["role" := JStr "Doctor"]>
    (<["name" := JStr "Ann"]>
       (<["exp" := JInt 1700086400]> (<["email" := JStr "ann@example.org"]> ∅))).

Definition sample_jwt_decode (token : string) : Outcome (gmap string JVal) :=
  if String.eqb token "doctor-token" then Returned doctor_payload
  else if String.eqb token "patient-token" then Returned patient_without_email_payload
  else if String.eqb token "legacy-token" then Returned payload_without_role
  else if String.eqb token "issued-token" then Returned issued_payload
  else Raised (Exn OtherError "Signature verification failed").

Definition sample_gemini : Gemini :=
  {| api_key := None;
     generate_content := fun _ => Raised (Exn OtherError "service unavailable") |}.

Definition failing_gemini : Gemini :=
  {| api_key := Some "key";
     generate_content := fun _ => Raised (Exn OtherError "service unavailable") |}.

(** Lower-casing of the letters A to Z: enough of [str.lower()] for the
    samples. *)
Definition ascii_lower (a : ascii) : ascii :=
  let n := nat_of_ascii a in
  if (65 <=? n)%nat && (n <=? 90)%nat then ascii_of_nat (n + 32) else a.

Definition sample_str_lower (s : string) : string :=
  string_of_list_ascii (map ascii_lower (list_ascii_of_string s)).

(** An integer that does not fit 64 bits, anywhere in a value. *)
Fixpoint has_wide_int (v : JVal) : bool :=
  match v with
  | JInt z => (z <? - 2 ^ 63) || (2 ^ 63 - 1 <? z)
  | JArr l => existsb has_wide_int l
  | JObj d => existsb (fun kv => has_wide_int (snd kv)) d
  | _ => false
  end.

Definition wide_int_error : exn :=
  Exn OverflowError "MongoDB can only handle up to 8-byte ints".

(** A BSON encoder that refuses integers beyond 64 bits, and nothing else. *)
Definition sample_prediction_error (d : PredictionDoc) : option exn :=
  if existsb has_wide_int
       [JObj (input d); patientName d; userId d; doctorId d; patientId d;
        trestbps d; chol d; thalach d; oldpeak d; restecg d;
        smoking_status d; diabetes_status d; family_history_diabetes d;
        pregnancy_status d]
  then Some wide_int_error else None.

Definition sample_user_error (u : UserDoc) : option exn :=
  if existsb has_wide_int [user_name u; user_email u; default JNull (user_role u)]
  then Some wide_int_error else None.

(** A server that knows the operator [$gt] on strings, and no other. *)
Definition sample_query_operator (d : list (string * JVal)) (field : JVal) : bool :=
  match d, field with
  | [(op, JStr bound)], JStr s => String.eqb op "$gt" && String.ltb bound s
  | _, _ => false
  end.

(** A reader of unsigned decimal integers with blanks around them: enough
    of [float(s)] for the samples. *)
Definition sample_float_of_str (s : string) : option pyfloat :=
  match NilZero.uint_of_string (py_strip s) with
  | Some u => Some (FFin (inject_Z (Z.of_uint u)))
  | None => None
  end.

Definition sample_env_with (tr : gmap string JVal -> Outcome Processed)
    (sv : Processed -> Outcome ShapRaw) : Env :=
  {| float_of_str := sample_float_of_str;
     py_str := fun _ => "";
     fl := round_binary64;
     str_lower := sample_str_lower;
     transform := tr;
     get_feature_names_out := sample_feature_names;
     log_predict_proba := fun _ => Returned 0.2%Q;
     rf_predict_proba := fun _ => Returned 0.3%Q;
     xgb_predict_proba := fun _ => Returned 0.7%Q;
     shap_values := sv;
     argsort := insertion_argsort;
     gemini := sample_gemini;
     jwt_encode := fun _ => Returned "issued-token";
     jwt_decode := sample_jwt_decode;
     utcnow := 1700000000;
     isoformat := fun _ => "2023-11-14T22:13:20";
     ObjectId := sample_ObjectId;
     prediction_error := sample_prediction_error;
     user_error := sample_user_error;
     query_operator := sample_query_operator;
     hash_password := fun p => match p with JStr s => "hashed:" +:+ s | _ => "" end;
     verify_password := fun p h =>
       match p with JStr s => String.eqb ("hashed:" +:+ s) h | _ => false end |}.

Definition sample_env : Env := sample_env_with sample_transform sample_shap_values.

(** [E] with other classifiers. *)
Definition with_classifiers (E : Env) (log rf xgb : Processed -> Outcome Q) : Env :=
  {| float_of_str := float_of_str E;
     py_str := py_str E;
     fl := fl E;
     str_lower := str_lower E;
     transform := transform E;
     get_feature_names_out := get_feature_names_out E;
     log_predict_proba := log;
     rf_predict_proba := rf;
     xgb_predict_proba := xgb;
     shap_values := shap_values E;
     argsort := argsort E;
     gemini := gemini E;
     jwt_encode := jwt_encode E;
     jwt_decode := jwt_decode E;
     utcnow := utcnow E;
     isoformat := isoformat E;
     ObjectId := ObjectId E;
     prediction_error := prediction_error E;
     user_error := user_error E;
     query_operator := query_operator E;
     hash_password := hash_password E;
     verify_password := verify_password E |}.

(** Three doubles whose mean lies just below 33/100, while the sum and the
    quotient, rounded as the program computes them, give the double nearest
    to 33/100, which lies above it. *)
Definition near_threshold_env : Env :=
  with_classifiers sample_env
    (fun _ => Returned (1210245519433057 # 9007199254740992)%Q)
    (fun _ => Returned (954125565472927 # 1125899906842624)%Q)
    (fun _ => Returned (4728142014534973 # 576460752303423488)%Q).

Definition sample_features : list (string * JVal) :=
  [("age", JInt 45); ("trestbps", JInt 135); ("chol", JFloat (FFin 250));
   ("thalach", JInt 150)].

Definition sample_request (auth : option string) : Request :=
  {| method := "POST"; authorization := auth;
     json := JObj [("patientName", JStr " Ann Lee "); ("features", JObj sample_features)] |}.

Definition empty_store : Mongo :=
  {| users := []; predictions := []; next_oid := 0; fault := None |}.

(** A preprocessor that meets a nested value in a numeric column: the
    conversion to a float array raises [TypeError]. *)
Definition type_error_transform (df : gmap string JVal) : Outcome Processed :=
  Raised (Exn TypeError "float() argument must be a string or a real number, not 'dict'").

(** An explainer that fails with an exception that carries no message, and
    one that fails with a message. *)
Definition silent_shap_failure (x : Processed) : Outcome ShapRaw :=
  Raised (Exn OtherError "").

Definition loud_shap_failure (x : Processed) : Outcome ShapRaw :=
  Raised (Exn ValueError "The explainer expects 9 features").

Definition get_request (auth : option string) : Request :=
  {| method := "GET"; authorization := auth; json := JNull |}.

Definition delete_request (auth : option string) : Request :=
  {| method := "DELETE"; authorization := auth; json := JNull |}.

Definition signup_request : Request :=
  {| method := "POST"; authorization := None;
     json := JObj [("name", JStr "Ann"); ("email", JStr "ann@example.org");
                   ("password", JStr "s3cret")] |}.


(** Bodies whose email is a mapping that the server reads as "greater than
    the empty string". *)
Definition operator_email : JVal := JObj [("$gt", JStr "")].

Definition operator_signup_request : Request :=
  {| method := "POST"; authorization := None;
     json := JObj [("name", JStr "Eve"); ("email", operator_email);
                   ("password", JStr "guess")] |}.

Definition operator_login_request : Request :=
  {| method := "POST"; authorization := None;
     json := JObj [("email", operator_email); ("password", JStr "s3cret")] |}.

(** A body with an integer that does not fit 64 bits. *)
Definition wide_age_request : Request :=
  {| method := "POST"; authorization := None;
     json := JObj [("features",
                    JObj [("age", JInt (2 ^ 63)); ("trestbps", JInt 135);
                          ("chol", JFloat (FFin 250)); ("thalach", JInt 150)])] |}.

(** The store after one prediction recorded for the doctor of
    "doctor-token". *)
Definition store_with_one_record : Mongo :=
  snd (predict_risk sample_env empty_store (sample_request (Some "Bearer doctor-token"))).

(** ** Predicates used in the statements *)

(** [a < t] as a proposition: false on NaN, decided by the sign on an
    infinity. *)
Definition float_lt (a : pyfloat) (t : Q) : Prop :=
  match a with
  | FFin q => (q < t)%Q
  | FInf negative => negative = true
  | FNaN => False
  end.

(** What a guarded derivation leaves in column [tgt]: the value that was
    there, else the value derived from [src], else nothing. *)
Definition derived_as (df out : gmap string JVal) (src tgt : string) (f : JVal -> JVal) : Prop :=
  out !! tgt =
    match df !! tgt with
    | Some v => Some v
    | None => f <$> df !! src
    end.

(** Rounding does not cross the integers 0 to 3, each of which is a double:
    what lies between 0 and one of them is rounded to something between 0
    and it. *)
Definition keeps_small_integers (fl : Q -> Q) : Prop :=
  forall (k : Z) (x : Q),
    (0 <= k <= 3)%Z -> (0 <= x <= inject_Z k)%Q -> (0 <= fl x <= inject_Z k)%Q.

(** Entries ordered by non-increasing absolute contribution. *)
Definition by_abs_desc (a b : string * Q) : Prop := (Qabs (snd b) <= Qabs (snd a))%Q.

(** What both doctor views do with a request: 401 without a decodable
    bearer token or without an email in it, 403 for another role, and the
    query of the store (200, or 500 when the store fails) otherwise. *)
Definition doctor_only (E : Env) (req : Request) (r : Response) : Prop :=
  (status r <> 401%nat -> status r <> 403%nat ->
   exists rest payload,
     authorization req = Some ("Bearer " +:+ rest) /\
     decode_token E (py_strip rest) = Returned payload /\
     py_truthy (payload_email payload) = true /\
     payload_role payload = JStr "Doctor") /\
  (forall rest payload,
     authorization req = Some ("Bearer " +:+ rest) ->
     decode_token E (py_strip rest) = Returned payload ->
     (py_truthy (payload_email payload) = false -> status r = 401%nat) /\
     (py_truthy (payload_email payload) = true ->
      payload_role payload <> JStr "Doctor" -> status r = 403%nat) /\
     (py_truthy (payload_email payload) = true ->
      payload_role payload = JStr "Doctor" -> status r = 200%nat \/ status r = 500%nat)).

(** A request without a bearer token, or with one that does not decode. *)
Definition token_absent_or_undecodable (E : Env) (req : Request) : Prop :=
  String.prefix "Bearer " (auth_header_of req) = false \/
  exists rest e,
    authorization req = Some ("Bearer " +:+ rest) /\
    decode_token E (py_strip rest) = Raised e.

(** The driver accepts the history record that a /predict call builds. *)
Definition record_accepted (E : Env) (db : Mongo) (req : Request) : Prop :=
  forall p user_email doc,
    compute_prediction E req = Returned (inr p) ->
    caller_email E req = Returned user_email ->
    history_doc E p user_email = Returned doc ->
    prediction_error E (doc (next_oid db)) = None.

(** A record written for a caller without identity. *)
Definition anonymous_record (d : PredictionDoc) : Prop :=
  userId d = JNull /\ doctorId d = JNull /\ patientId d = JNull.

(** The three tiers that [predict_risk] produces. *)
Definition is_tier (risk_level : string) : Prop :=
  risk_level = "Low" \/ risk_level = "Moderate" \/ risk_level = "High".

(** The generative service is of no use to a call: it is not configured, or
    the call for the prompt raises. *)
Definition service_unavailable (g : Gemini) (p : Prompt) : Prop :=
  _get_client g = false \/ exists e, generate_content g p = Raised e.

(** ** GET /history/<user_id> *)

(** A record as the view returns it: [_id] replaced by its text under
    ["id"], [created_at] in ISO format, the other fields as stored. *)
Record HistoryEntry := {
  entry_id : N;
  entry_created_at : string;
  entry_record : PredictionDoc
}.

(** The answer of the view: [{"items": history}] with status 200, or one of
    the plain responses. *)
Inductive HistoryAnswer :=
| HistoryItems (items : list HistoryEntry)
| HistoryPlain (r : Response).

Definition history_status (a : HistoryAnswer) : nat :=
  match a with
  | HistoryItems _ => 200%nat
  | HistoryPlain r => status r
  end.

(** [find({"userId": user_id}).sort("created_at", -1)]; as in the other
    queries, the filter is read as the equality of the field with the
    value. *)
Definition find_user_history (db : Mongo) (user_id : string) : Outcome (list PredictionDoc) :=
  with_store db
    (sort_desc created_at
       (List.filter (fun d => jeqb (userId d) (JStr user_id)) (predictions db))).

Definition history_entry (E : Env) (doc : PredictionDoc) : HistoryEntry :=
  {| entry_id := _id doc;
     entry_created_at := isoformat E (created_at doc);
     entry_record := doc |}.

Definition get_history_for_user_view (E : Env) (db : Mongo) (user_id : string)
    (req : Request) : Outcome HistoryAnswer :=
  if String.eqb (method req) "OPTIONS" then
    Returned (HistoryPlain {| status := 200; body := BEmpty |})
  else
    let* auth := bearer_payload E req in
    match auth with
    | inl unauthenticated => Returned (HistoryPlain unauthenticated)
    | inr payload =>
        let email := payload_email payload in
        if negb (py_truthy email) || negb (jeqb email (JStr user_id)) then
          Returned (HistoryPlain (msg_response 403 "Forbidden" None))
        else
          match find_user_history db user_id with
          | Returned cursor => Returned (HistoryItems (map (history_entry E) cursor))
          | Raised e =>
              Returned (HistoryPlain
                          (msg_response 500 "Failed to load history" (Some (exn_msg e))))
          end
    end.

Definition get_history_for_user (E : Env) (db : Mongo) (user_id : string) (req : Request)
    : HistoryAnswer :=
  match get_history_for_user_view E db user_id req with
  | Returned a => a
  | Raised _ => HistoryPlain {| status := 500; body := BServerError |}
  end.


(** ** Further sample environments *)

(** [sample_env] with a forest whose [predict_proba] raises. *)
Definition env_with_failing_forest : Env :=
  with_classifiers sample_env (log_predict_proba sample_env)
    (fun _ => Raised (Exn ValueError "X has 7 features, but the forest expects 9"))
    (xgb_predict_proba sample_env).

(** A configured service that answers every prompt with the same response. *)
Definition answering_gemini (resp : GenResponse) : Gemini :=
  {| api_key := Some "key"; generate_content := fun _ => Returned resp |}.

(** The line feed, for sample texts of several lines; the no-break space
    U+00A0 and the line separator U+2028, in UTF-8. *)
Definition newline : string := String "010"%char "".

Definition nbsp : string := String "194"%char (String "160"%char "").

Definition line_separator : string :=
  String "226"%char (String "128"%char (String "168"%char "")).

Definition padded_response : GenResponse :=
  {| resp_text := Returned (Some ("  Stay active." +:+ newline)); resp_candidates := [] |}.

(** An answer without a text of its own, with candidates; and an answer
    whose text is blank. *)
Definition candidates_response : GenResponse :=
  {| resp_text := Raised (Exn AttributeError "'Response' object has no attribute 'text'");
     resp_candidates := [Some " Keep "; None; Some ("walking." +:+ nbsp)] |}.

Definition blank_response : GenResponse :=
  {| resp_text := Returned (Some (nbsp +:+ " ")); resp_candidates := [Some "Keep walking."] |}.

Definition bulleted_response : GenResponse :=
  {| resp_text :=
       Returned (Some ("- Walk daily." +:+ newline +:+ newline
                       +:+ " - Eat more vegetables. "));
     resp_candidates := [] |}.


(** The records the [$match] stage of [get_doctor_patients] lets through. *)
Definition patient_records_of (db : Mongo) (email : JVal) : list PredictionDoc :=
  List.filter (fun d => jeqb (doctorId d) email && negb (jeqb (patientId d) JNull))
              (predictions db).

(** The records [get_doctor_patient_profile] asks the store for. *)
Definition visits_of (db : Mongo) (email : JVal) (patient_id : string) : list PredictionDoc :=
  List.filter (fun d => jeqb (doctorId d) email && jeqb (patientId d) (JStr patient_id))
              (predictions db).

(** The order of the tiers: Low, Moderate, High. *)
Definition tier_rank (risk_level : string) : nat :=
  if String.eqb risk_level "Low" then 0
  else if String.eqb risk_level "Moderate" then 1
  else 2.

(** * Properties *)

(** ** Equality of JSON values *)

Lemma pyfloat_eqb_eq (a b : pyfloat) : pyfloat_eqb a b = true <-> a = b.
Proof.
  destruct a as [[n d]|x|], b as [[n' d']|y|]; simpl; try (split; [discriminate|congruence]).
  - rewrite andb_true_iff, Z.eqb_eq, Pos.eqb_eq. split; [intros [-> ->]; done | by inversion 1].
  - rewrite Bool.eqb_true_iff. split; congruence.
  - done.
Qed.

(** Induction over JSON values that reaches the elements of arrays and
    objects. *)
Lemma JVal_nested_ind (P : JVal -> Prop) :
  P JNull -> (forall b, P (JBool b)) -> (forall z, P (JInt z)) ->
  (forall f, P (JFloat f)) -> (forall s, P (JStr s)) ->
  (forall l, Forall P l -> P (JArr l)) ->
  (forall d, Forall (fun kv => P (snd kv)) d -> P (JObj d)) ->
  forall v, P v.
Proof.
  intros HNull HBool HInt HFloat HStr HArr HObj.
  fix IH 1. intros [ |b|z|f|s|l|d].
  - exact HNull.
  - apply HBool.
  - apply HInt.
  - apply HFloat.
  - apply HStr.
  - apply HArr. induction l as [|x l IHl]; constructor; [apply IH | exact IHl].
  - apply HObj. induction d as [|[k x] d IHd]; constructor; [apply IH | exact IHd].
Qed.

Lemma jeqb_eq (a b : JVal) : jeqb a b = true <-> a = b.
Proof.
  revert b. induction a as [ |x|x|x|x|l IHl|d IHd] using JVal_nested_ind;
    intros [ |y|y|y|y|l'|d']; simpl; try (split; [discriminate|congruence]).
  - done.
  - rewrite Bool.eqb_true_iff. split; congruence.
  - rewrite Z.eqb_eq. split; congruence.
  - rewrite pyfloat_eqb_eq. split; congruence.
  - rewrite String.eqb_eq. split; congruence.
  - revert l'. induction IHl as [|x l Hx _ IH]; intros [|y l'];
      try (split; [discriminate|congruence]); [done|].
    rewrite andb_true_iff, Hx. specialize (IH l').
    split.
    + intros [-> Hl]. apply IH in Hl. congruence.
    + intros H. injection H as -> ->. split; [done|]. by apply IH.
  - revert d'. induction IHd as [|[k x] d Hx _ IH]; intros [|[k' y] d'];
      try (split; [discriminate|congruence]); [done|].
    simpl in Hx. rewrite !andb_true_iff, Hx, String.eqb_eq. specialize (IH d').
    split.
    + intros [[-> ->] Hd]. apply IH in Hd. congruence.
    + intros H. injection H as -> -> ->. repeat split; try done. by apply IH.
Qed.


Lemma jeqb_neq (a b : JVal) : jeqb a b = false <-> a <> b.
Proof.
  rewrite <- jeqb_eq. destruct (jeqb a b); split; congruence.
Qed.

(** ** Feature normalizer *)

Lemma Qltb_spec (x y : Q) : Qltb x y = true <-> (x < y)%Q.
Proof.
  unfold Qltb. rewrite negb_true_iff. split; intros H.
  - apply Qnot_le_lt. intros Hle. apply Qle_bool_iff in Hle. congruence.
  - destruct (Qle_bool y x) eqn:Hb; [|reflexivity].
    apply Qle_bool_iff in Hb. exfalso. eapply Qlt_not_le; eassumption.
Qed.

Lemma flt_spec (a : pyfloat) (t : Q) : flt a t = true <-> float_lt a t.
Proof.
  destruct a as [q|negative|]; simpl.
  - apply Qltb_spec.
  - reflexivity.
  - split; [discriminate | contradiction].
Qed.

Lemma flt_false (a : pyfloat) (t : Q) : flt a t = false <-> ~ float_lt a t.
Proof.
  rewrite <- flt_spec. destruct (flt a t); split; congruence.
Qed.

Lemma derive_column_target src tgt f (df : gmap string JVal) :
  derive_column src tgt f df !! tgt =
    match df !! tgt with
    | Some v => Some v
    | None => f <$> df !! src
    end.
Proof.
  unfold derive_column.
  destruct (df !! src) as [v|] eqn:Hs, (df !! tgt) as [w|] eqn:Ht; simpl; try done.
  by rewrite lookup_insert_eq.
Qed.

Lemma derive_column_other src tgt f (df : gmap string JVal) k :
  k <> tgt -> derive_column src tgt f df !! k = df !! k.
Proof.
  intros Hk. unfold derive_column.
  destruct (df !! src), (df !! tgt); try done.
  by rewrite lookup_insert_ne.
Qed.

(** The sample values of the specification. *)
Example age_group_samples :
  map (_age_group sample_float_of_str)
      [JInt 29; JInt 45; JInt 60; JInt 61; JStr "x"; JStr " 29 "; JNull; JFloat FNaN]
  = ["0-30"; "31-45"; "46-60"; "61+"; "unknown"; "0-30"; "unknown"; "61+"].
Proof. reflexivity. Qed.

Example bp_cat_samples :
  map (_bp_cat sample_float_of_str) [JInt 119; JInt 125; JInt 135; JInt 150]
  = ["normal"; "elevated"; "hypertension1"; "hypertension2"].
Proof. reflexivity. Qed.

Example chol_cat_samples :
  map (_chol_cat sample_float_of_str)
      [JInt 199; JFloat (FFin 200); JInt 239; JInt 240; JArr []]
  = ["normal"; "borderline"; "borderline"; "high"; "unknown"].
Proof. reflexivity. Qed.

Lemma normalize_derived fos (df : gmap string JVal) :
  derived_as df (normalize fos df) "thalach" "thalch" (fun v => v) /\
  derived_as df (normalize fos df) "age" "age_group" (fun v => JStr (_age_group fos v)) /\
  derived_as df (normalize fos df) "trestbps" "bp_cat" (fun v => JStr (_bp_cat fos v)) /\
  derived_as df (normalize fos df) "chol" "chol_cat" (fun v => JStr (_chol_cat fos v)).
Proof.
  unfold derived_as, normalize.
  repeat split;
    repeat (first [ rewrite derive_column_target
                  | rewrite derive_column_other by discriminate ]);
    reflexivity.
Qed.

Lemma normalize_other fos (df : gmap string JVal) k :
  k <> "thalch" -> k <> "age_group" -> k <> "bp_cat" -> k <> "chol_cat" ->
  normalize fos df !! k = df !! k.
Proof.
  intros. unfold normalize. by rewrite !derive_column_other.
Qed.

Lemma float_lt_mono (a : pyfloat) (t t' : Q) :
  (t <= t')%Q -> float_lt a t -> float_lt a t'.
Proof.
  destruct a as [q|negative|]; simpl; intros Hle H; try done.
  eapply Qlt_le_trans; eassumption.
Qed.

(** The cascade of comparisons of a binning helper, read off its tests. *)
Ltac bins :=
  repeat match goal with
         | H : flt _ _ = true |- _ => apply flt_spec in H
         | H : flt _ _ = false |- _ => apply flt_false in H
         end;
  repeat split; intros; try reflexivity; try contradiction;
  exfalso;
  match goal with
  | Hn : ~ float_lt ?a ?t', H : float_lt ?a ?t |- _ =>
      apply Hn; apply (float_lt_mono a t t'); [discriminate | exact H]
  end.

Lemma age_group_bins fos v :
  match py_float fos v with
  | Raised _ => _age_group fos v = "unknown"
  | Returned a =>
      (float_lt a 31 -> _age_group fos v = "0-30") /\
      (~ float_lt a 31 -> float_lt a 46 -> _age_group fos v = "31-45") /\
      (~ float_lt a 46 -> float_lt a 61 -> _age_group fos v = "46-60") /\
      (~ float_lt a 61 -> _age_group fos v = "61+")
  end.
Proof.
  unfold _age_group. destruct (py_float fos v) as [a|e]; [|reflexivity].
  destruct (flt a 31) eqn:H1, (flt a 46) eqn:H2, (flt a 61) eqn:H3; bins.
Qed.

Lemma bp_cat_bins fos v :
  match py_float fos v with
  | Raised _ => _bp_cat fos v = "unknown"
  | Returned b =>
      (float_lt b 120 -> _bp_cat fos v = "normal") /\
      (~ float_lt b 120 -> float_lt b 130 -> _bp_cat fos v = "elevated") /\
      (~ float_lt b 130 -> float_lt b 140 -> _bp_cat fos v = "hypertension1") /\
      (~ float_lt b 140 -> _bp_cat fos v = "hypertension2")
  end.
Proof.
  unfold _bp_cat. destruct (py_float fos v) as [b|e]; [|reflexivity].
  destruct (flt b 120) eqn:H1, (flt b 130) eqn:H2, (flt b 140) eqn:H3; bins.
Qed.

Lemma chol_cat_bins fos v :
  match py_float fos v with
  | Raised _ => _chol_cat fos v = "unknown"
  | Returned c =>
      (float_lt c 200 -> _chol_cat fos v = "normal") /\
      (~ float_lt c 200 -> float_lt c 240 -> _chol_cat fos v = "borderline") /\
      (~ float_lt c 240 -> _chol_cat fos v = "high")
  end.
Proof.
  unfold _chol_cat. destruct (py_float fos v) as [c|e]; [|reflexivity].
  destruct (flt c 200) eqn:H1, (flt c 240) eqn:H2; bins.
Qed.

(** ** Reading the bearer token *)

(** A header that starts with "Bearer " is that prefix followed by the rest,
    and the rest is what [split(" ", 1)[1]] returns. *)
Lemma prefix_app (p h : string) :
  String.prefix p h = true <-> exists rest, h = p +:+ rest.
Proof.
  revert h. induction p as [|a p IH]; intros h.
  - split; [intros _; by exists h | intros _; by destruct h].
  - destruct h as [|b h]; cbn -[ascii_dec].
    + split; [discriminate | intros [rest Hr]; discriminate Hr].
    + destruct (ascii_dec a b) as [->|Hne].
      * rewrite IH. split; intros [rest Hr]; exists rest.
        -- by rewrite Hr.
        -- by injection Hr.
      * split; [discriminate | intros [rest Hr]; injection Hr; congruence].
Qed.

Lemma bearer_prefix (h : string) :
  String.prefix "Bearer " h = true <-> exists rest, h = "Bearer " +:+ rest.
Proof. apply prefix_app. Qed.

Lemma split_second_bearer (rest : string) :
  split_second ("Bearer " +:+ rest) = Returned rest.
Proof. reflexivity. Qed.

Lemma caller_email_returns (E : Env) (req : Request) :
  exists user_email, caller_email E req = Returned user_email.
Proof.
  unfold caller_email.
  destruct (String.prefix "Bearer " (auth_header_of req)) eqn:Hp; [|by eexists].
  apply bearer_prefix in Hp as [rest ->].
  rewrite split_second_bearer. simpl.
  destruct (decode_token E (py_strip rest)); by eexists.
Qed.

(** ** Ensemble scorer *)

Lemma exact_mean_range (p1 p2 p3 : Q) :
  (0 <= p1 <= 1 -> 0 <= p2 <= 1 -> 0 <= p3 <= 1 ->
   0 <= exact_mean p1 p2 p3 <= 1)%Q.
Proof.
  intros [? ?] [? ?] [? ?]. unfold exact_mean. split.
  - apply Qle_shift_div_l; [reflexivity | lra].
  - apply Qle_shift_div_r; [reflexivity | lra].
Qed.

(** The score stays in [0, 1] although its operations round. *)
Lemma final_score_range (fl : Q -> Q) (p1 p2 p3 : Q) :
  keeps_small_integers fl ->
  (0 <= p1 <= 1 -> 0 <= p2 <= 1 -> 0 <= p3 <= 1 ->
   0 <= final_score fl p1 p2 p3 <= 1)%Q.
Proof.
  intros Hfl [? ?] [? ?] [? ?]. unfold final_score.
  assert (H12 : (0 <= fl (p1 + p2) <= 2)%Q)
    by (apply (Hfl 2); [lia | unfold inject_Z; split; lra]).
  assert (H123 : (0 <= fl (fl (p1 + p2) + p3) <= 3)%Q)
    by (apply (Hfl 3); [lia | unfold inject_Z; split; lra]).
  apply (Hfl 1); [lia|]. destruct H123. unfold inject_Z. split.
  - apply Qle_shift_div_l; [reflexivity | lra].
  - apply Qle_shift_div_r; [reflexivity | lra].
Qed.

(** Any rounding that is monotone and leaves 0, 1, 2 and 3 as they are, as
    rounding to the nearest double does, keeps the small integers; and with
    such a rounding a literal threshold that is rounded upwards, as 0.33
    and 0.66 are, separates the doubles as the fraction it stands for. *)
Section RoundedScore.
Variable fl : Q -> Q.
Hypothesis fl_monotone : forall x y : Q, (x <= y)%Q -> (fl x <= fl y)%Q.
Hypothesis fl_0 : (fl 0 == 0)%Q.
Hypothesis fl_1 : (fl 1 == 1)%Q.
Hypothesis fl_2 : (fl 2 == 2)%Q.
Hypothesis fl_3 : (fl 3 == 3)%Q.

Lemma fl_between (lo hi x : Q) :
  (fl lo == lo)%Q -> (fl hi == hi)%Q -> (lo <= x <= hi)%Q -> (lo <= fl x <= hi)%Q.
Proof.
  intros Hlo Hhi [H1 H2]. split.
  - rewrite <- Hlo. by apply fl_monotone.
  - rewrite <- Hhi. by apply fl_monotone.
Qed.

Lemma monotone_keeps_small_integers : keeps_small_integers fl.
Proof.
  intros k x Hk Hx.
  assert (Hcases : k = 0 \/ k = 1 \/ k = 2 \/ k = 3) by lia.
  destruct Hcases as [-> | [-> | [-> | ->]]];
    (apply fl_between; [exact fl_0 | assumption | exact Hx]).
Qed.

Lemma literal_threshold (t x : Q) :
  (fl (fl x) == fl x)%Q -> (t <= fl t)%Q ->
  (fl x < fl t)%Q <-> (fl x < t)%Q.
Proof.
  intros Hidem Ht. split; intros H.
  - apply Qnot_le_lt. intros Hle. apply fl_monotone in Hle.
    rewrite Hidem in Hle. apply (Qlt_not_le _ _ H Hle).
  - eapply Qlt_le_trans; eassumption.
Qed.
End RoundedScore.

(** A comparison of two given rationals, by computation. *)
Ltac compare_rationals :=
  vm_compute;
  first [ reflexivity | let H := fresh in intros H; discriminate H ].

(** The sample rounding, which is that of binary64, keeps them. *)
Lemma round_half_even_bounds (num den k : Z) :
  0 < den -> 0 <= num -> num <= k * den ->
  0 <= round_half_even num den <= k.
Proof.
  intros Hden Hnum Hk. unfold round_half_even.
  pose proof (Z.div_mod num den ltac:(lia)) as Hdm.
  pose proof (Z.mod_pos_bound num den Hden) as Hr.
  assert (Hq : 0 <= num / den) by (apply Z.div_pos; lia).
  assert (Hqk : num / den <= k) by (apply Z.div_le_upper_bound; lia).
  assert (Hlt : num / den = k -> num mod den = 0) by nia.
  destruct (2 * (num mod den) <? den) eqn:H1; [lia|]. apply Z.ltb_ge in H1.
  assert (num / den < k)
    by (destruct (Z.eq_dec (num / den) k) as [Heq|]; [apply Hlt in Heq; lia | lia]).
  destruct (den <? 2 * (num mod den)); [lia|].
  destruct (Z.even (num / den)); lia.
Qed.

Lemma binade_upper (q : Q) (k : Z) :
  0 <= k -> (0 < q)%Q -> (q < inject_Z (2 ^ k))%Q -> binade q <= k.
Proof.
  intros Hk Hpos Hlt. unfold binade.
  destruct q as [n d]. unfold Qlt in *. cbn [Qnum Qden inject_Z] in *.
  assert (Hn : 0 < n) by lia.
  rewrite Z.abs_eq by lia.
  assert (He0 : Z.log2 n - Z.log2 (Z.pos d) <= k).
  { assert (Hnk : n < 2 ^ k * Z.pos d) by lia.
    destruct (Z.log2_spec (Z.pos d) ltac:(lia)) as [_ Hd].
    pose proof (Z.log2_nonneg (Z.pos d)) as Hl.
    assert (H2k : 0 < 2 ^ k) by (apply Z.pow_pos_nonneg; lia).
    assert (Hpow : 2 ^ (k + Z.succ (Z.log2 (Z.pos d))) = 2 ^ k * 2 ^ Z.succ (Z.log2 (Z.pos d)))
      by (apply Z.pow_add_r; lia).
    assert (Hlog : Z.log2 n < k + Z.succ (Z.log2 (Z.pos d))).
    { apply Z.log2_lt_pow2; [lia|]. rewrite Hpow. nia. }
    lia. }
  destruct (if 0 <=? _ then _ else _); lia.
Qed.

Lemma round_binary64_keeps : keeps_small_integers round_binary64.
Proof.
  intros k x Hk [Hx0 Hxk]. unfold round_binary64.
  destruct (Qnum x =? 0) eqn:Hzero.
  { split; [apply Qle_refl|]. unfold Qle. simpl. lia. }
  apply Z.eqb_neq in Hzero.
  assert (Hpos : (0 < x)%Q).
  { unfold Qlt, Qle in *. simpl in *. lia. }
  assert (Hnum : 0 < Qnum x) by (unfold Qlt in Hpos; simpl in Hpos; lia).
  assert (Hb : binade x <= 2).
  { apply binade_upper; [lia | exact Hpos |].
    eapply Qle_lt_trans; [exact Hxk|]. unfold Qlt. simpl. lia. }
  assert (Hneg : (Qnum x <? 0) = false) by (apply Z.ltb_ge; lia). rewrite Hneg.
  set (e := Z.max (binade x - 52) (- 1074)).
  assert (He : e < 0) by (unfold e; lia).
  assert (Hle : (0 <=? e) = false) by (apply Z.leb_gt; lia). rewrite Hle.
  unfold pow2. rewrite Hle.
  rewrite Z.abs_eq by lia.
  set (N := 2 ^ (- e)).
  assert (HN : 0 < N) by (apply Z.pow_pos_nonneg; lia).
  destruct (round_half_even_bounds (Qnum x * N) (Z.pos (Qden x)) (k * N)) as [Hm0 Hmk];
    [lia | nia | |].
  { unfold Qle in Hxk. simpl in Hxk. nia. }
  set (m := round_half_even (Qnum x * N) (Z.pos (Qden x))) in *.
  unfold Qle, Qmult, inject_Z. cbn [Qnum Qden].
  rewrite Pos.mul_1_l, Z2Pos.id by lia. split; nia.
Qed.

(** The doubles that the literals 0.33 and 0.66 denote lie above the
    fractions, and the sample rounding leaves the doubles it has produced
    as they are. *)
Example threshold_literals :
  (0.33 < round_binary64 0.33)%Q /\ (0.66 < round_binary64 0.66)%Q /\
  round_binary64 (round_binary64 0.33) = round_binary64 0.33 /\
  round_binary64 0.33 = (5944751508129055 # 18014398509481984)%Q.
Proof. vm_compute. repeat split. Qed.

Lemma Qltb_false (x y : Q) : Qltb x y = false <-> (y <= x)%Q.
Proof.
  unfold Qltb. rewrite negb_false_iff. apply Qle_bool_iff.
Qed.

Lemma risk_of_tiers (s : Q) :
  ((s < 0.33)%Q -> risk_of s = "Low") /\
  ((0.33 <= s)%Q -> (s < 0.66)%Q -> risk_of s = "Moderate") /\
  ((0.66 <= s)%Q -> risk_of s = "High").
Proof.
  unfold risk_of.
  destruct (Qltb s 0.33) eqn:H1; [apply Qltb_spec in H1 | apply Qltb_false in H1];
    (destruct (Qltb s 0.66) eqn:H2; [apply Qltb_spec in H2 | apply Qltb_false in H2]);
    repeat split; intros; try reflexivity; exfalso; lra.
Qed.

(** What [predict_risk] answers once the row is accepted and the three
    classifiers have returned: 200 with the prediction built from them. *)
Lemma predict_risk_accepted (E : Env) (db : Mongo) (req : Request)
    patient_name lifestyle data processed p1 p2 p3 :
  parse_request req = Returned (patient_name, lifestyle, data) ->
  transform E (feature_row E data) = Returned processed ->
  log_predict_proba E processed = Returned p1 ->
  rf_predict_proba E processed = Returned p2 ->
  xgb_predict_proba E processed = Returned p3 ->
  exists p,
    compute_prediction E req = Returned (inr p) /\
    p_data p = data /\ p_lifestyle p = lifestyle /\ p_patient_name p = patient_name /\
    p_final_score p = final_score (fl E) p1 p2 p3 /\
    p_risk p = risk_of (final_score (fl E) p1 p2 p3) /\
    (p_top_features p, p_shap_error p) =
      shap_step E processed (get_feature_names_out E) /\
    fst (predict_risk E db req) =
      {| status := 200; body := BPrediction (response_of p) |}.
Proof.
  intros Hparse Ht H1 H2 H3.
  unfold predict_risk, predict_risk_view, compute_prediction.
  rewrite Hparse. simpl. rewrite Ht, H1. simpl. rewrite H2. simpl. rewrite H3. simpl.
  destruct (shap_step E processed (get_feature_names_out E)) as [top shap_error] eqn:Hs.
  eexists. split; [reflexivity|]. simpl.
  destruct (caller_email_returns E req) as [user_email ->]. simpl.
  repeat split; reflexivity.
Qed.

(** ** Attribution extractor *)

Lemma for_each_Forall2 {A B} (f : A -> Outcome B) (xs : list A) (ys : list B) :
  for_each f xs = Returned ys -> Forall2 (fun x y => f x = Returned y) xs ys.
Proof.
  revert ys. induction xs as [|x xs IH]; intros ys H; simpl in H.
  - injection H as <-. constructor.
  - destruct (f x) as [y|e] eqn:Hx; [|discriminate H]. simpl in H.
    destruct (for_each f xs) as [ys'|e] eqn:Hxs; [|discriminate H]. simpl in H.
    injection H as <-. constructor; [exact Hx | by apply IH].
Qed.

Lemma for_each_total {A B} (f : A -> Outcome B) (xs : list A) :
  Forall (fun x => exists y, f x = Returned y) xs ->
  exists ys, for_each f xs = Returned ys.
Proof.
  induction 1 as [|x xs [y Hy] _ [ys Hys]]; simpl.
  - by eexists.
  - rewrite Hy. simpl. rewrite Hys. simpl. by eexists.
Qed.

Lemma top_entry_Returned fnames sample_shap i e :
  top_entry fnames sample_shap i = Returned e <->
  fnames !! i = Some (fst e) /\ sample_shap !! i = Some (snd e).
Proof.
  unfold top_entry. destruct e as [f v]. simpl.
  destruct (sample_shap !! i) as [val|], (fnames !! i) as [f'|];
    split; try discriminate; try (intros [? ?]; discriminate).
  - intros H. injection H as <- <-. done.
  - intros [H1 H2]. injection H1 as <-. injection H2 as <-. done.
Qed.

Lemma last_slice_suffix {A} (top : nat) (l : list A) :
  exists pre, l = (pre ++ last_slice top l)%list.
Proof.
  destruct top as [|n].
  - by exists [].
  - exists (take (length l - S n) l). unfold last_slice. by rewrite take_drop.
Qed.

Lemma last_slice_length {A} (top : nat) (l : list A) :
  (0 < top)%nat -> length (last_slice top l) = Nat.min top (length l).
Proof.
  destruct top as [|n]; [lia|]. intros _. unfold last_slice.
  rewrite length_drop. lia.
Qed.

Lemma StronglySorted_rev {A} (R : relation A) (l : list A) :
  StronglySorted R l -> StronglySorted (flip R) (rev l).
Proof.
  induction 1 as [|x l Hl IH Hx]; simpl; [constructor|].
  apply StronglySorted_app_2.
  - intros x1 x2 H1 H2. apply list_elem_of_singleton in H2 as ->.
    unfold flip. rewrite Forall_forall in Hx. apply Hx.
    apply list_elem_of_In. apply list_elem_of_In in H1. by apply in_rev.
  - exact IH.
  - repeat constructor.
Qed.

Lemma StronglySorted_Forall2 {A B} (R : relation A) (S : relation B)
    (P : A -> B -> Prop) (xs : list A) (ys : list B) :
  (forall x x' y y', P x y -> P x' y' -> R x x' -> S y y') ->
  Forall2 P xs ys -> StronglySorted R xs -> StronglySorted S ys.
Proof.
  intros HP H2. induction H2 as [|x y xs ys Hxy Hrest IH]; intros Hs.
  - constructor.
  - apply StronglySorted_cons in Hs as [Hx Hs]. constructor; [by apply IH|].
    clear IH Hs. induction Hrest as [|x' y' xs ys Hxy' Hrest IH]; [constructor|].
    apply Forall_cons in Hx as [Hx Hxs]. constructor; [by eapply HP | by apply IH].
Qed.

Lemma nth_lookup_Q (l : list Q) (i : nat) (v : Q) :
  l !! i = Some v -> nth i l 0%Q = v.
Proof. intros H. by apply nth_lookup_Some with (d := 0%Q) in H. Qed.

Section AttributionFacts.
Variable argsort : list Q -> list nat.
Hypothesis argsort_ok : argsort_spec argsort.

Lemma argsort_in_range (l : list Q) (i : nat) :
  i ∈ argsort l -> (i < length l)%nat.
Proof.
  intros Hi. destruct (argsort_ok l) as [Hperm _].
  apply list_elem_of_In in Hi. eapply Permutation_in in Hi; [|exact Hperm].
  apply in_seq in Hi. lia.
Qed.

Lemma argsort_length (l : list Q) : length (argsort l) = length l.
Proof.
  destruct (argsort_ok l) as [Hperm _].
  apply Permutation_length in Hperm. by rewrite length_seq in Hperm.
Qed.

Lemma get_top_features_of_sound raw feature_names top sample res :
  raw = Returned sample ->
  for_each (top_entry feature_names sample)
           (rev (last_slice top (argsort (map Qabs sample)))) = Returned res ->
  ((0 < top)%nat -> (length res <= top)%nat) /\
  StronglySorted by_abs_desc res /\
  Forall (fun e => exists i, feature_names !! i = Some (fst e) /\ sample !! i = Some (snd e)) res.
Proof.
  intros _ Hres. apply for_each_Forall2 in Hres.
  set (idx := rev (last_slice top (argsort (map Qabs sample)))) in *.
  split; [|split].
  - intros Htop. rewrite <- (Forall2_length _ _ _ Hres). unfold idx.
    rewrite length_rev, last_slice_length by done. lia.
  - eapply (StronglySorted_Forall2
              (flip (fun i j => (nth i (map Qabs sample) 0 <= nth j (map Qabs sample) 0)%Q)));
      [|exact Hres|].
    + intros i j e e' Hi Hj Hij. unfold flip in Hij. unfold by_abs_desc.
      apply top_entry_Returned in Hi as [_ Hi]. apply top_entry_Returned in Hj as [_ Hj].
      change 0%Q with (Qabs 0) in Hij. rewrite !map_nth in Hij.
      by rewrite (nth_lookup_Q _ _ _ Hi), (nth_lookup_Q _ _ _ Hj) in Hij.
    + apply StronglySorted_rev.
      destruct (argsort_ok (map Qabs sample)) as [_ Hsorted].
      destruct (last_slice_suffix top (argsort (map Qabs sample))) as [pre Hpre].
      rewrite Hpre in Hsorted. by apply StronglySorted_app_1_r in Hsorted.
  - clear -Hres. induction Hres as [|i e idx' res Hie _ IH]; constructor; [|exact IH].
    exists i. by apply top_entry_Returned.
Qed.
End AttributionFacts.

Section AttributionTotal.
Variable argsort : list Q -> list nat.
Hypothesis argsort_ok : argsort_spec argsort.

Lemma top_entries_total feature_names sample top :
  (length sample <= length feature_names)%nat ->
  exists res,
    for_each (top_entry feature_names sample)
             (rev (last_slice top (argsort (map Qabs sample)))) = Returned res /\
    length res = length (last_slice top (argsort (map Qabs sample))).
Proof.
  intros Hlen.
  destruct (for_each_total (top_entry feature_names sample)
              (rev (last_slice top (argsort (map Qabs sample))))) as [res Hres].
  - apply Forall_forall. intros i Hi.
    apply list_elem_of_In, in_rev, list_elem_of_In in Hi.
    destruct (last_slice_suffix top (argsort (map Qabs sample))) as [pre Hpre].
    assert (Hin : i ∈ argsort (map Qabs sample))
      by (rewrite Hpre; apply elem_of_app; by right).
    apply (argsort_in_range argsort argsort_ok) in Hin. rewrite length_map in Hin.
    destruct (lookup_lt_is_Some_2 sample i Hin) as [v Hv].
    destruct (lookup_lt_is_Some_2 feature_names i ltac:(lia)) as [f Hf].
    exists (f, v). by apply top_entry_Returned.
  - exists res. split; [exact Hres|].
    apply for_each_Forall2, Forall2_length in Hres. by rewrite length_rev in Hres.
Qed.
End AttributionTotal.

(** The insertion instance meets the contract of [argsort]. *)
Lemma insert_idx_Permutation (l : list Q) (i : nat) (sorted : list nat) :
  Permutation (insert_idx l i sorted) (i :: sorted).
Proof.
  induction sorted as [|j rest IH]; simpl; [done|].
  destruct (Qltb (nth i l 0%Q) (nth j l 0%Q)); [done|].
  rewrite IH. apply perm_swap.
Qed.

Lemma insert_idx_sorted (l : list Q) (i : nat) (sorted : list nat) :
  StronglySorted (fun i j => (nth i l 0 <= nth j l 0)%Q) sorted ->
  StronglySorted (fun i j => (nth i l 0 <= nth j l 0)%Q) (insert_idx l i sorted).
Proof.
  induction 1 as [|j rest Hrest IH Hj]; simpl; [repeat constructor|].
  destruct (Qltb (nth i l 0%Q) (nth j l 0%Q)) eqn:Hlt.
  - apply Qltb_spec in Hlt. constructor; [by constructor|].
    constructor; [by apply Qlt_le_weak|].
    eapply Forall_impl; [exact Hj|]. intros k Hk. simpl in Hk.
    eapply Qle_trans; [apply Qlt_le_weak; exact Hlt | exact Hk].
  - apply Qltb_false in Hlt. constructor; [exact IH|].
    apply Forall_forall. intros k Hk.
    apply list_elem_of_In in Hk.
    eapply Permutation_in in Hk; [|apply insert_idx_Permutation].
    destruct Hk as [<-|Hk]; [exact Hlt|].
    rewrite Forall_forall in Hj. apply Hj. by apply list_elem_of_In.
Qed.

Lemma insertion_fold_spec (l : list Q) (todo acc : list nat) :
  StronglySorted (fun i j => (nth i l 0 <= nth j l 0)%Q) acc ->
  Permutation (fold_left (fun acc i => insert_idx l i acc) todo acc) (todo ++ acc)%list /\
  StronglySorted (fun i j => (nth i l 0 <= nth j l 0)%Q)
                 (fold_left (fun acc i => insert_idx l i acc) todo acc).
Proof.
  revert acc. induction todo as [|i todo IH]; intros acc Hacc; simpl; [done|].
  destruct (IH (insert_idx l i acc) (insert_idx_sorted l i acc Hacc)) as [Hp Hs].
  split; [|exact Hs].
  rewrite Hp, insert_idx_Permutation. by rewrite Permutation_middle.
Qed.

Lemma insertion_argsort_spec : argsort_spec insertion_argsort.
Proof.
  intros l. unfold insertion_argsort.
  destruct (insertion_fold_spec l (seq 0 (length l)) []) as [Hp Hs]; [constructor|].
  split; [|exact Hs]. by rewrite app_nil_r in Hp.
Qed.

(** ** The claims on the prediction pipeline *)

(** C1, as the code has it.  When the fitted preprocessor accepts the
    feature row of a /predict request and the three classifiers return their
    positive-class probabilities [p1], [p2], [p3], the answer is 200 and its
    [risk_score] is [(p1 + p2 + p3) / 3] as the program computes it on
    doubles: the two sums and the quotient, each rounded to the nearest
    double, which is the mean up to that rounding.  With a rounding that
    keeps the small integers, as that of doubles does, the score lies in
    [0, 1] when each probability does; and [risk_level] is "Low" for a score
    below 0.33, "Moderate" for a score from 0.33 and below 0.66, "High" for
    a score from 0.66. *)
Theorem predict_risk_score_and_level (E : Env) (db : Mongo) (req : Request)
    (patient_name lifestyle : JVal) (data : list (string * JVal))
    (processed : Processed) (p1 p2 p3 : Q) :
  parse_request req = Returned (patient_name, lifestyle, data) ->
  transform E (feature_row E data) = Returned processed ->
  log_predict_proba E processed = Returned p1 ->
  rf_predict_proba E processed = Returned p2 ->
  xgb_predict_proba E processed = Returned p3 ->
  exists r : PredictResponse,
    fst (predict_risk E db req) = {| status := 200; body := BPrediction r |} /\
    r_risk_score r = fl E (fl E (fl E (p1 + p2) + p3) / 3)%Q /\
    (keeps_small_integers (fl E) ->
     (0 <= p1 <= 1)%Q -> (0 <= p2 <= 1)%Q -> (0 <= p3 <= 1)%Q ->
     (0 <= r_risk_score r <= 1)%Q) /\
    ((r_risk_score r < 0.33)%Q -> r_risk_level r = "Low") /\
    ((0.33 <= r_risk_score r)%Q -> (r_risk_score r < 0.66)%Q -> r_risk_level r = "Moderate") /\
    ((0.66 <= r_risk_score r)%Q -> r_risk_level r = "High").
Proof.
  intros Hparse Ht H1 H2 H3.
  destruct (predict_risk_accepted E db req _ _ _ _ _ _ _ Hparse Ht H1 H2 H3)
    as (p & _ & _ & _ & _ & Hscore & Hrisk & _ & Hresp).
  exists (response_of p). split; [exact Hresp|].
  unfold response_of; simpl. rewrite Hscore, Hrisk.
  split; [reflexivity|]. split; [apply final_score_range|].
  apply risk_of_tiers.
Qed.

Lemma predict_risk_score_and_level_witness :
  exists r : PredictResponse,
    fst (predict_risk sample_env empty_store (sample_request None)) =
      {| status := 200; body := BPrediction r |} /\
    (0 <= r_risk_score r <= 1)%Q /\
    r_risk_level r = "Moderate".
Proof.
  destruct (predict_risk_score_and_level sample_env empty_store (sample_request None)
              (JStr " Ann Lee ") (JObj []) sample_features
              [0.5; 1; 0; 0.25; 1; 0; 1]%Q 0.2%Q 0.3%Q 0.7%Q)
    as (r & Hresp & Hscore & Hrange & _ & Hmod & _); try reflexivity.
  exists r. split; [exact Hresp|]. split.
  - apply Hrange; [exact round_binary64_keeps | split; compare_rationals..].
  - apply Hmod; rewrite Hscore; compare_rationals.
Defined.

(** The returned score is not the exact mean.  For these three doubles the
    mean lies below 33/100, where the tier would be "Low"; the program's
    sums and quotient give the double that the literal 0.33 denotes, which
    lies above 33/100, and the tier is "Moderate". *)
Lemma rounded_mean_crosses_threshold :
  let p1 := (1210245519433057 # 9007199254740992)%Q in
  let p2 := (954125565472927 # 1125899906842624)%Q in
  let p3 := (4728142014534973 # 576460752303423488)%Q in
  log_predict_proba near_threshold_env [] = Returned p1 /\
  rf_predict_proba near_threshold_env [] = Returned p2 /\
  xgb_predict_proba near_threshold_env [] = Returned p3 /\
  (exact_mean p1 p2 p3 < 0.33)%Q /\
  risk_of (exact_mean p1 p2 p3) = "Low" /\
  exists r : PredictResponse,
    fst (predict_risk near_threshold_env empty_store (sample_request None)) =
      {| status := 200; body := BPrediction r |} /\
    (r_risk_score r == 5944751508129055 # 18014398509481984)%Q /\
    (exact_mean p1 p2 p3 < r_risk_score r)%Q /\
    r_risk_level r = "Moderate".
Proof.
  intros p1 p2 p3. do 3 (split; [reflexivity|]).
  split; [reflexivity|]. split; [reflexivity|].
  destruct (predict_risk_accepted near_threshold_env empty_store (sample_request None)
              (JStr " Ann Lee ") (JObj []) sample_features
              [0.5; 1; 0; 0.25; 1; 0; 1]%Q p1 p2 p3)
    as (p & _ & _ & _ & _ & Hscore & Hrisk & _ & Hresp); try reflexivity.
  exists (response_of p). split; [exact Hresp|].
  unfold response_of; simpl. rewrite Hscore, Hrisk.
  vm_compute. repeat split.
Qed.

(** C2. In the frame handed to the preprocessor each derived column holds
    the value the request already gave it, else the value derived from its
    source column, else nothing: [thalch] copies [thalach]; [age_group],
    [bp_cat] and [chol_cat] bin [age], [trestbps] and [chol]; every other
    column is as submitted.  The bins are those of the cascades of
    comparisons, and a value [float()] rejects is binned "unknown". *)
Theorem feature_row_derived_columns (E : Env) (data : list (string * JVal)) :
  let fos := float_of_str E in
  let df : gmap string JVal := list_to_map data in
  let out := feature_row E data in
  (derived_as df out "thalach" "thalch" (fun v => v) /\
   derived_as df out "age" "age_group" (fun v => JStr (_age_group fos v)) /\
   derived_as df out "trestbps" "bp_cat" (fun v => JStr (_bp_cat fos v)) /\
   derived_as df out "chol" "chol_cat" (fun v => JStr (_chol_cat fos v))) /\
  (forall k, k <> "thalch" -> k <> "age_group" -> k <> "bp_cat" -> k <> "chol_cat" ->
             out !! k = df !! k) /\
  (forall v,
     match py_float fos v with
     | Raised _ => _age_group fos v = "unknown"
     | Returned a =>
         (float_lt a 31 -> _age_group fos v = "0-30") /\
         (~ float_lt a 31 -> float_lt a 46 -> _age_group fos v = "31-45") /\
         (~ float_lt a 46 -> float_lt a 61 -> _age_group fos v = "46-60") /\
         (~ float_lt a 61 -> _age_group fos v = "61+")
     end) /\
  (forall v,
     match py_float fos v with
     | Raised _ => _bp_cat fos v = "unknown"
     | Returned b =>
         (float_lt b 120 -> _bp_cat fos v = "normal") /\
         (~ float_lt b 120 -> float_lt b 130 -> _bp_cat fos v = "elevated") /\
         (~ float_lt b 130 -> float_lt b 140 -> _bp_cat fos v = "hypertension1") /\
         (~ float_lt b 140 -> _bp_cat fos v = "hypertension2")
     end) /\
  (forall v,
     match py_float fos v with
     | Raised _ => _chol_cat fos v = "unknown"
     | Returned c =>
         (float_lt c 200 -> _chol_cat fos v = "normal") /\
         (~ float_lt c 200 -> float_lt c 240 -> _chol_cat fos v = "borderline") /\
         (~ float_lt c 240 -> _chol_cat fos v = "high")
     end).
Proof.
  intros fos df out. split; [apply normalize_derived|].
  split; [intros k; apply normalize_other|].
  split; [intros v; apply age_group_bins|].
  split; [intros v; apply bp_cat_bins | intros v; apply chol_cat_bins].
Qed.

Lemma feature_row_derived_columns_witness :
  feature_row sample_env sample_features !! "thalch" = Some (JInt 150) /\
  feature_row sample_env sample_features !! "age_group" = Some (JStr "31-45") /\
  feature_row sample_env sample_features !! "bp_cat" = Some (JStr "hypertension1") /\
  feature_row sample_env sample_features !! "chol_cat" = Some (JStr "high") /\
  feature_row sample_env (("bp_cat", JStr "given") :: sample_features) !! "bp_cat"
    = Some (JStr "given") /\
  _age_group (float_of_str sample_env) (JStr "x") = "unknown".
Proof.
  destruct (feature_row_derived_columns sample_env sample_features)
    as ((Hth & Hage & Hbp & Hchol) & _).
  destruct (feature_row_derived_columns sample_env (("bp_cat", JStr "given") :: sample_features))
    as ((_ & _ & Hgiven & _) & _).
  unfold derived_as in *.
  rewrite Hth, Hage, Hbp, Hchol, Hgiven.
  repeat split; try reflexivity.
Defined.

(** C3. The list [get_top_features] returns has at most five entries, in
    order of non-increasing absolute contribution, and each entry pairs the
    name at some position with the signed value the first sample has at that
    position; it does return whenever the explainer gives a sample that has
    no more values than there are feature names. *)
Theorem get_top_features_top5_sorted (argsort : list Q -> list nat)
    (explainer : list Q -> Outcome ShapRaw) (x_np : list Q) (feature_names : list string) :
  argsort_spec argsort ->
  (forall res,
     get_top_features argsort explainer x_np feature_names = Returned res ->
     (length res <= 5)%nat /\
     StronglySorted by_abs_desc res /\
     exists raw sample,
       explainer x_np = Returned raw /\ sample_shap_of raw = Returned sample /\
       Forall (fun e => exists i, feature_names !! i = Some (fst e) /\
                                  sample !! i = Some (snd e)) res) /\
  (forall raw sample,
     explainer x_np = Returned raw -> sample_shap_of raw = Returned sample ->
     (length sample <= length feature_names)%nat ->
     exists res,
       get_top_features argsort explainer x_np feature_names = Returned res /\
       length res = Nat.min 5 (length sample)).
Proof.
  intros Hargsort. unfold get_top_features, get_top_features_of. split.
  - intros res Hres.
    destruct (explainer x_np) as [raw|e]; [|discriminate Hres]. simpl in Hres.
    destruct (sample_shap_of raw) as [sample|e] eqn:Hsample; [|discriminate Hres].
    simpl in Hres.
    destruct (get_top_features_of_sound argsort Hargsort (Returned sample)
                feature_names 5 sample res eq_refl Hres) as (Hlen & Hsorted & Hentries).
    split; [apply Hlen; lia|]. split; [exact Hsorted|].
    exists raw, sample. by repeat split.
  - intros raw sample -> Hsample Hlen. simpl. rewrite Hsample. simpl.
    destruct (top_entries_total argsort Hargsort feature_names sample 5 Hlen)
      as (res & Hres & Hn).
    exists res. split; [exact Hres|].
    rewrite Hn, last_slice_length by lia.
    by rewrite (argsort_length argsort Hargsort), length_map.
Qed.

Lemma get_top_features_top5_sorted_witness :
  exists res,
    get_top_features insertion_argsort sample_shap_values [] sample_feature_names
      = Returned res /\
    length res = 5%nat /\ StronglySorted by_abs_desc res.
Proof.
  destruct (get_top_features_top5_sorted insertion_argsort sample_shap_values []
              sample_feature_names insertion_argsort_spec) as [Hsound Htotal].
  destruct (Htotal _ _ eq_refl eq_refl) as (res & Hres & Hlen); [simpl; lia|].
  exists res. split; [exact Hres|]. split; [exact Hlen|].
  by destruct (Hsound res Hres) as (_ & Hsorted & _).
Defined.

(** ** Preprocessing failures *)

Lemma predict_risk_rejected (E : Env) (db : Mongo) (req : Request)
    patient_name lifestyle data e :
  parse_request req = Returned (patient_name, lifestyle, data) ->
  transform E (feature_row E data) = Raised e ->
  predict_risk E db req =
    (match exn_class e with
     | ValueError => msg_response 400 "Preprocessing failed" (Some (exn_msg e))
     | _ => {| status := 500; body := BServerError |}
     end, db).
Proof.
  intros Hparse Ht.
  unfold predict_risk, predict_risk_view, compute_prediction.
  rewrite Hparse. simpl. rewrite Ht.
  by destruct (exn_class e).
Qed.

(** C4, as the code has it.  A rejection of the row that the transform
    raises as a [ValueError] is answered 400 with the JSON message
    "Preprocessing failed" and the text of the exception, and writes
    nothing; the view catches no other class, so any other exception of the
    transform is answered 500. *)
Theorem preprocessing_value_error_is_400 (E : Env) (db : Mongo) (req : Request)
    (patient_name lifestyle : JVal) (data : list (string * JVal)) (e : exn) :
  parse_request req = Returned (patient_name, lifestyle, data) ->
  transform E (feature_row E data) = Raised e ->
  (exn_class e = ValueError ->
   predict_risk E db req =
     ({| status := 400; body := BMsg "Preprocessing failed" (Some (exn_msg e)) |}, db)) /\
  (exn_class e <> ValueError ->
   predict_risk E db req = ({| status := 500; body := BServerError |}, db)).
Proof.
  intros Hparse Ht. rewrite (predict_risk_rejected E db req _ _ _ _ Hparse Ht).
  split; intros Hc; [by rewrite Hc | by destruct (exn_class e)].
Qed.

Lemma preprocessing_value_error_is_400_witness :
  predict_risk sample_env empty_store
    {| method := "POST"; authorization := None; json := JObj [("age", JInt 45)] |}
  = ({| status := 400; body := BMsg "Preprocessing failed" (Some "columns are missing") |},
     empty_store).
Proof.
  refine (proj1 (preprocessing_value_error_is_400 sample_env empty_store _
                   JNull (JObj []) [("age", JInt 45)]
                   (Exn ValueError "columns are missing") _ _) _);
    reflexivity.
Defined.

(** A row the transform rejects with a [TypeError] is answered 500, not
    400. *)
Lemma rejected_row_answered_500 :
  transform (sample_env_with type_error_transform sample_shap_values)
            (feature_row (sample_env_with type_error_transform sample_shap_values)
                         sample_features)
    = Raised (Exn TypeError "float() argument must be a string or a real number, not 'dict'") /\
  fst (predict_risk (sample_env_with type_error_transform sample_shap_values)
                    empty_store (sample_request None))
    = {| status := 500; body := BServerError |}.
Proof. split; reflexivity. Qed.

(** ** The doctor-only views *)

(** The opening lines of a protected view, by cases on the header. *)
Lemma bearer_payload_cases (E : Env) (req : Request) :
  (String.prefix "Bearer " (auth_header_of req) = false /\
   bearer_payload E req = Returned (inl (msg_response 401 "Authorization header missing" None)))
  \/
  (exists rest, authorization req = Some ("Bearer " +:+ rest) /\
     match decode_token E (py_strip rest) with
     | Returned payload => bearer_payload E req = Returned (inr payload)
     | Raised e =>
         bearer_payload E req =
           Returned (inl (msg_response 401 "Invalid token" (Some (exn_msg e))))
     end).
Proof.
  unfold bearer_payload.
  destruct (String.prefix "Bearer " (auth_header_of req)) eqn:Hp; [right | by left].
  apply bearer_prefix in Hp as [rest Hrest]. exists rest.
  assert (Hauth : authorization req = Some ("Bearer " +:+ rest)).
  { unfold auth_header_of in Hrest. destruct (authorization req); simpl in Hrest;
      [by rewrite Hrest | discriminate Hrest]. }
  split; [exact Hauth|].
  rewrite Hrest, split_second_bearer. simpl.
  by destruct (decode_token E (py_strip rest)).
Qed.

Lemma bearer_payload_valid (E : Env) (req : Request) rest payload :
  authorization req = Some ("Bearer " +:+ rest) ->
  decode_token E (py_strip rest) = Returned payload ->
  bearer_payload E req = Returned (inr payload).
Proof.
  intros Hauth Hdec.
  destruct (bearer_payload_cases E req) as [[Hp _]|(rest' & Hauth' & Hb)].
  - unfold auth_header_of in Hp. rewrite Hauth in Hp.
    assert (Ht : String.prefix "Bearer " ("Bearer " +:+ rest) = true)
      by (apply bearer_prefix; by exists rest).
    simpl default in Hp. congruence.
  - rewrite Hauth in Hauth'. injection Hauth' as Heq.
    apply (inj (String.app "")) in Heq as <-.
    by rewrite Hdec in Hb.
Qed.

(** The role a token counts for: its [role] claim, "Doctor" without one. *)
Lemma doctor_gate_cases (payload : gmap string JVal) :
  (py_truthy (payload_email payload) = false /\
   doctor_gate payload = inl (msg_response 401 "Unauthorized" None)) \/
  (py_truthy (payload_email payload) = true /\ payload_role payload <> JStr "Doctor" /\
   doctor_gate payload = inl (msg_response 403 "Forbidden" None)) \/
  (py_truthy (payload_email payload) = true /\ payload_role payload = JStr "Doctor" /\
   doctor_gate payload = inr (payload_email payload)).
Proof.
  unfold doctor_gate.
  destruct (py_truthy (payload_email payload)); simpl; [|by left].
  right. destruct (jeqb (payload_role payload) (JStr "Doctor")) eqn:Hrole; simpl.
  - right. by apply jeqb_eq in Hrole.
  - left. by apply jeqb_neq in Hrole.
Qed.

Ltac doctor_view :=
  match goal with
  | |- doctor_only ?E ?req _ =>
      split;
      [ intros H401 H403;
        destruct (bearer_payload_cases E req) as [[_ Hb]|(rest & Hauth & Hb)];
        [ rewrite Hb in *; simpl in *; congruence |];
        destruct (decode_token E (py_strip rest)) as [payload|e] eqn:Hdec;
        [| rewrite Hb in *; simpl in *; congruence ];
        rewrite Hb in *; simpl in *;
        destruct (doctor_gate_cases payload)
          as [[Hemail Hg]|[(Hemail & Hrole & Hg)|(Hemail & Hrole & Hg)]];
        rewrite Hg in *; simpl in *; try congruence;
        by exists rest, payload
      | intros rest payload Hauth Hdec;
        rewrite (bearer_payload_valid E req rest payload Hauth Hdec); simpl;
        destruct (doctor_gate_cases payload)
          as [[Hemail Hg]|[(Hemail & Hrole & Hg)|(Hemail & Hrole & Hg)]];
        rewrite Hg; simpl;
        (repeat split; intros; try congruence; try reflexivity);
        match goal with
        | |- context [match ?query with Returned _ => _ | Raised _ => _ end] =>
            destruct query; simpl; auto
        end ]
  end.

Lemma get_doctor_patients_gate (E : Env) (db : Mongo) (req : Request) :
  doctor_only E req (get_doctor_patients E db req).
Proof.
  unfold get_doctor_patients, get_doctor_patients_view.
  doctor_view.
Qed.

Lemma get_doctor_patient_profile_gate (E : Env) (db : Mongo) patient_id (req : Request) :
  doctor_only E req (get_doctor_patient_profile E db patient_id req).
Proof.
  unfold get_doctor_patient_profile, get_doctor_patient_profile_view.
  doctor_view.
Qed.

(** C5, as the code has it.  GET /doctor/patients and
    GET /doctor/patient/<patient_id> answer something other than 401 or 403
    only to a request whose bearer token decodes, carries a non-empty email
    and counts for the role "Doctor" (its [role] claim, or "Doctor" when it
    has none).  For a token that decodes: without an email the answer is
    401; with an email and another role it is 403; with an email and the
    role "Doctor" the store is queried (200, or 500 if the store fails). *)
Theorem doctor_views_require_doctor_role (E : Env) (db : Mongo) (patient_id : string)
    (req : Request) :
  doctor_only E req (get_doctor_patients E db req) /\
  doctor_only E req (get_doctor_patient_profile E db patient_id req).
Proof.
  split; [apply get_doctor_patients_gate | apply get_doctor_patient_profile_gate].
Qed.

Lemma doctor_views_require_doctor_role_witness :
  status (get_doctor_patients sample_env empty_store
            (get_request (Some "Bearer doctor-token"))) = 200%nat.
Proof.
  destruct (doctor_views_require_doctor_role sample_env empty_store "doc@example.org::ann lee"
              (get_request (Some "Bearer doctor-token"))) as [[_ Hvalid] _].
  destruct (Hvalid "doctor-token" doctor_payload eq_refl eq_refl) as (_ & _ & Hserved).
  destruct (Hserved eq_refl eq_refl) as [H|H]; [exact H | discriminate H].
Defined.

(** A token that decodes and whose role is "Patient" is answered 401, not
    403, when its email is empty; and a token without a role claim is
    served. *)
Lemma doctor_views_role_counterexample :
  (decode_token sample_env (py_strip "patient-token") = Returned patient_without_email_payload /\
   patient_without_email_payload !! "role" = Some (JStr "Patient") /\
   status (get_doctor_patients sample_env empty_store
             (get_request (Some "Bearer patient-token"))) = 401%nat /\
   status (get_doctor_patient_profile sample_env empty_store "p"
             (get_request (Some "Bearer patient-token"))) = 401%nat) /\
  (decode_token sample_env (py_strip "legacy-token") = Returned payload_without_role /\
   payload_without_role !! "role" = None /\
   status (get_doctor_patients sample_env empty_store
             (get_request (Some "Bearer legacy-token"))) = 200%nat).
Proof. repeat split; reflexivity. Qed.

(** ** Deleting a history item *)

Lemma remove_first_cases (p : PredictionDoc -> bool) (l : list PredictionDoc) :
  (remove_first p l = (l, 0%nat) /\ Forall (fun d => p d = false) l) \/
  (exists pre d post,
     l = (pre ++ d :: post)%list /\ remove_first p l = ((pre ++ post)%list, 1%nat) /\
     p d = true /\ Forall (fun d => p d = false) pre).
Proof.
  induction l as [|x l IH]; simpl.
  - left. by split.
  - destruct (p x) eqn:Hx.
    + right. exists [], x, l. by repeat split.
    + destruct IH as [[-> Hall]|(pre & d & post & -> & -> & Hd & Hpre)].
      * left. split; [done | by constructor].
      * right. exists (x :: pre), d, post. repeat split; try done. by constructor.
Qed.

Lemma owned_item_spec (oid : N) (email : JVal) (d : PredictionDoc) :
  owned_item oid email d = true <-> _id d = oid /\ userId d = email.
Proof.
  unfold owned_item. by rewrite andb_true_iff, N.eqb_eq, jeqb_eq.
Qed.

(** What the view does once the token has decoded to [payload]. *)
Lemma delete_history_item_decoded (E : Env) (db : Mongo) item_id (req : Request)
    rest payload :
  method req <> "OPTIONS" ->
  authorization req = Some ("Bearer " +:+ rest) ->
  decode_token E (py_strip rest) = Returned payload ->
  delete_history_item E db item_id req =
    let email := payload_email payload in
    if negb (py_truthy email) then (msg_response 401 "Unauthorized" None, db)
    else
      match ObjectId E item_id with
      | None => (msg_response 400 "Invalid id" None, db)
      | Some oid =>
          match fault db with
          | Some e =>
              (msg_response 500 "Failed to delete history item" (Some (exn_msg e)), db)
          | None =>
              let '(ps, deleted_count) :=
                remove_first (owned_item oid email) (predictions db) in
              if Nat.eqb deleted_count 0
              then (msg_response 404 "Item not found" None,
                    set_predictions db ps (next_oid db))
              else (msg_response 200 "Deleted" None, set_predictions db ps (next_oid db))
          end
      end.
Proof.
  intros Hm Hauth Hdec. unfold delete_history_item, delete_history_item_view.
  apply String.eqb_neq in Hm. rewrite Hm.
  rewrite (bearer_payload_valid E req rest payload Hauth Hdec). simpl.
  destruct (py_truthy (payload_email payload)); simpl; [|done].
  destruct (ObjectId E item_id) as [oid|]; [|done].
  unfold delete_one_prediction, with_store.
  destruct (remove_first _ _) as [ps n].
  destruct (fault db); [done|].
  by destruct (Nat.eqb n 0).
Qed.

Lemma set_predictions_same (db : Mongo) :
  set_predictions db (predictions db) (next_oid db) = db.
Proof. by destruct db. Qed.




(** ** Identity and persistence in [predict_risk] *)

(** The response of [predict_risk] is decided by the body alone. *)
Lemma predict_risk_response (E : Env) (db : Mongo) (req : Request) :
  fst (predict_risk E db req) =
    match compute_prediction E req with
    | Raised _ => {| status := 500; body := BServerError |}
    | Returned (inl bad_request) => bad_request
    | Returned (inr p) => {| status := 200; body := BPrediction (response_of p) |}
    end.
Proof.
  unfold predict_risk, predict_risk_view.
  destruct (compute_prediction E req) as [[bad|p]|e]; try done.
  by destruct (caller_email_returns E req) as [user_email ->].
Qed.

Lemma predict_risk_store (E : Env) (db : Mongo) (req : Request) p user_email :
  compute_prediction E req = Returned (inr p) ->
  caller_email E req = Returned user_email ->
  snd (predict_risk E db req) = persist E db p user_email.
Proof.
  intros Hp He. unfold predict_risk, predict_risk_view. by rewrite Hp, He.
Qed.

Lemma predict_risk_store_unchanged (E : Env) (db : Mongo) (req : Request) :
  (forall p, compute_prediction E req <> Returned (inr p)) ->
  snd (predict_risk E db req) = db.
Proof.
  intros Hp. unfold predict_risk, predict_risk_view.
  destruct (compute_prediction E req) as [[bad|p]|e]; try done.
  by destruct (Hp p).
Qed.

Lemma compute_prediction_body (E : Env) (req req' : Request) :
  json req' = json req -> compute_prediction E req' = compute_prediction E req.
Proof.
  intros Hj. unfold compute_prediction, parse_request. by rewrite Hj.
Qed.

Lemma caller_email_anonymous (E : Env) (req : Request) :
  token_absent_or_undecodable E req -> caller_email E req = Returned JNull.
Proof.
  unfold caller_email, auth_header_of.
  intros [Hp|(rest & e & Hauth & Hdec)].
  - unfold auth_header_of in Hp. by rewrite Hp.
  - rewrite Hauth.
    assert (Ht : String.prefix "Bearer " ("Bearer " +:+ rest) = true)
      by (apply bearer_prefix; by exists rest).
    simpl default. rewrite Ht, split_second_bearer. simpl. by rewrite Hdec.
Qed.

(** What [persist] does, by cases: the document cannot be built, the
    driver refuses it, the store fails, or the document is appended. *)
Lemma persist_spec (E : Env) (db : Mongo) (p : Prediction) (user_email : JVal) :
  persist E db p user_email =
    match history_doc E p user_email with
    | Raised _ => db
    | Returned doc =>
        match prediction_error E (doc (next_oid db)), fault db with
        | None, None =>
            set_predictions db (predictions db ++ [doc (next_oid db)])%list
                            (N.succ (next_oid db))
        | _, _ => db
        end
    end.
Proof.
  unfold persist. destruct (history_doc E p user_email) as [doc|e]; simpl; [|done].
  unfold insert_one_prediction, with_store.
  destruct (prediction_error E (doc (next_oid db))); [done|].
  by destruct (fault db).
Qed.

Lemma history_doc_fields (E : Env) (p : Prediction) (user_email : JVal)
    (doc : N -> PredictionDoc) (oid : N) :
  history_doc E p user_email = Returned doc ->
  exists patient_id smoking diabetes family pregnancy,
    doc = history_record E p user_email patient_id smoking diabetes family pregnancy /\
    (py_truthy user_email && py_truthy (p_patient_name p) = false -> patient_id = JNull).
Proof.
  unfold history_doc.
  destruct (py_truthy user_email && py_truthy (p_patient_name p)) eqn:Hid.
  - destruct (jstrip (p_patient_name p)) as [name|e]; simpl; [|discriminate].
    destruct (jget (p_lifestyle p) "smoking_status") as [smoking|e]; simpl; [|discriminate].
    destruct (jget (p_lifestyle p) "diabetes_status") as [diabetes|e]; simpl; [|discriminate].
    destruct (jget (p_lifestyle p) "family_history_diabetes") as [family|e]; simpl;
      [|discriminate].
    destruct (jget (p_lifestyle p) "pregnancy_status") as [pregnancy|e]; simpl;
      [|discriminate].
    intros H. injection H as <-. repeat eexists. discriminate.
  - simpl.
    destruct (jget (p_lifestyle p) "smoking_status") as [smoking|e]; simpl; [|discriminate].
    destruct (jget (p_lifestyle p) "diabetes_status") as [diabetes|e]; simpl; [|discriminate].
    destruct (jget (p_lifestyle p) "family_history_diabetes") as [family|e]; simpl;
      [|discriminate].
    destruct (jget (p_lifestyle p) "pregnancy_status") as [pregnancy|e]; simpl;
      [|discriminate].
    intros H. injection H as <-. by repeat eexists.
Qed.

(** With a lifestyle entry that is a mapping, the document is built unless
    the patient name of an identified caller has no [strip]. *)
Lemma history_doc_mapping (E : Env) (p : Prediction) (user_email : JVal)
    (ls : list (string * JVal)) :
  p_lifestyle p = JObj ls ->
  py_truthy user_email && py_truthy (p_patient_name p) = false \/
  (exists n, p_patient_name p = JStr n) ->
  exists doc, history_doc E p user_email = Returned doc.
Proof.
  intros Hls Hname. unfold history_doc. rewrite Hls. simpl.
  destruct Hname as [-> | [n Hn]]; simpl; [by eexists|].
  rewrite Hn. destruct (py_truthy user_email && py_truthy (JStr n)); simpl; by eexists.
Qed.

Lemma persist_anonymous (E : Env) (db : Mongo) (p : Prediction) :
  (persist E db p JNull = db \/
   exists d, predictions (persist E db p JNull) = (predictions db ++ [d])%list /\
             anonymous_record d /\
             risk_score d = p_final_score p /\ risk_level d = p_risk p) /\
  (forall ls, p_lifestyle p = JObj ls -> fault db = None ->
     (forall doc, history_doc E p JNull = Returned doc ->
                  prediction_error E (doc (next_oid db)) = None) ->
     exists d, predictions (persist E db p JNull) = (predictions db ++ [d])%list /\
               anonymous_record d /\
               risk_score d = p_final_score p /\ risk_level d = p_risk p).
Proof.
  rewrite persist_spec.
  assert (Hrecord : forall doc, history_doc E p JNull = Returned doc ->
            anonymous_record (doc (next_oid db)) /\
            risk_score (doc (next_oid db)) = p_final_score p /\
            risk_level (doc (next_oid db)) = p_risk p).
  { intros doc Hdoc.
    destruct (history_doc_fields E p JNull doc (next_oid db) Hdoc)
      as (pid & sm & di & fa & pr & -> & Hpid).
    rewrite (Hpid eq_refl). by repeat split. }
  split.
  - destruct (history_doc E p JNull) as [doc|e] eqn:Hdoc; [|by left].
    destruct (prediction_error E (doc (next_oid db))); [by left|].
    destruct (fault db); [by left|].
    right. exists (doc (next_oid db)). split; [done|]. by apply Hrecord.
  - intros ls Hls Hf Hok.
    destruct (history_doc_mapping E p JNull ls Hls) as [doc Hdoc]; [by left|].
    rewrite Hdoc, (Hok doc Hdoc), Hf.
    exists (doc (next_oid db)). split; [done|]. by apply Hrecord.
Qed.

(** C7. A /predict call whose bearer token is absent or does not decode is
    answered exactly as the same body is with any other Authorization
    header, so a prediction that is computed is returned with status 200;
    any history record the call writes has [userId], [doctorId] and
    [patientId] null, and one such record is written whenever the prediction
    was computed, the lifestyle entry is a mapping (or absent), the driver
    accepts the record and the store does not fail. *)
Theorem predict_risk_without_token (E : Env) (db : Mongo) (req : Request) :
  token_absent_or_undecodable E req ->
  (forall req', json req' = json req ->
                fst (predict_risk E db req) = fst (predict_risk E db req')) /\
  (forall p, compute_prediction E req = Returned (inr p) ->
             fst (predict_risk E db req) =
               {| status := 200; body := BPrediction (response_of p) |}) /\
  (snd (predict_risk E db req) = db \/
   exists d, predictions (snd (predict_risk E db req)) = (predictions db ++ [d])%list /\
             anonymous_record d) /\
  (forall p ls,
     compute_prediction E req = Returned (inr p) -> p_lifestyle p = JObj ls ->
     record_accepted E db req ->
     fault db = None ->
     exists d, predictions (snd (predict_risk E db req)) = (predictions db ++ [d])%list /\
               anonymous_record d /\
               risk_score d = p_final_score p /\ risk_level d = p_risk p).
Proof.
  intros Hanon. apply caller_email_anonymous in Hanon.
  split; [|split; [|split]].
  - intros req' Hj. rewrite !predict_risk_response.
    by rewrite (compute_prediction_body E req req' Hj).
  - intros p Hp. by rewrite predict_risk_response, Hp.
  - destruct (compute_prediction E req) as [[bad|p]|e] eqn:Hp.
    + left. apply predict_risk_store_unchanged. congruence.
    + rewrite (predict_risk_store E db req p JNull Hp Hanon).
      destruct (persist_anonymous E db p) as [[Hsame|(d & Hd & Hanon' & _)] _];
        [by left | right; by exists d].
    + left. apply predict_risk_store_unchanged. congruence.
  - intros p ls Hp Hls Hok Hf.
    rewrite (predict_risk_store E db req p JNull Hp Hanon).
    apply (proj2 (persist_anonymous E db p) ls Hls Hf).
    intros doc Hdoc. by apply (Hok p JNull doc).
Qed.

(** The record of a sample request is one the sample driver accepts. *)
Ltac accept_sample_record :=
  let p := fresh "p" in
  let u := fresh "u" in
  let doc := fresh "doc" in
  let Hp := fresh "Hp" in
  let Hu := fresh "Hu" in
  let Hdoc := fresh "Hdoc" in
  intros p u doc Hp Hu Hdoc;
  vm_compute in Hp; injection Hp as <-;
  vm_compute in Hu; injection Hu as <-;
  vm_compute in Hdoc; injection Hdoc as <-;
  vm_compute; reflexivity.

Lemma predict_risk_without_token_witness :
  status (fst (predict_risk sample_env empty_store (sample_request (Some "Bearer expired")))) = 200%nat /\
  exists d,
    predictions (snd (predict_risk sample_env empty_store
                        (sample_request (Some "Bearer expired")))) = [d] /\
    anonymous_record d.
Proof.
  destruct (predict_risk_without_token sample_env empty_store
              (sample_request (Some "Bearer expired")))
    as (_ & Hresp & _ & Hrecord).
  - right. exists "expired", (Exn OtherError "Signature verification failed").
    split; reflexivity.
  - destruct (predict_risk_accepted sample_env empty_store
                (sample_request (Some "Bearer expired"))
                (JStr " Ann Lee ") (JObj []) sample_features
                [0.5; 1; 0; 0.25; 1; 0; 1]%Q 0.2%Q 0.3%Q 0.7%Q)
      as (p & Hp & _ & Hls & _); try reflexivity.
    split; [rewrite (Hresp p Hp); reflexivity|].
    destruct (Hrecord p [] Hp Hls) as (d & Hd & Hanon & _);
      [accept_sample_record | reflexivity |].
    exists d. split; [exact Hd | exact Hanon].
Defined.

(** ** A failing attribution step *)

(** C8. When attribution extraction raises during a /predict call whose
    row is accepted and whose classifiers return, the request still
    succeeds: the response has status 200, the score and tier of the
    ensemble and an empty [top_features].  It carries the text of the
    exception in [shap_error] when that text is not empty; when the text is
    empty the response has no [shap_error] field. *)
Theorem predict_risk_shap_failure (E : Env) (db : Mongo) (req : Request)
    patient_name lifestyle data processed p1 p2 p3 e :
  parse_request req = Returned (patient_name, lifestyle, data) ->
  transform E (feature_row E data) = Returned processed ->
  log_predict_proba E processed = Returned p1 ->
  rf_predict_proba E processed = Returned p2 ->
  xgb_predict_proba E processed = Returned p3 ->
  get_top_features (argsort E) (shap_values E) processed (get_feature_names_out E)
    = Raised e ->
  exists r,
    fst (predict_risk E db req) = {| status := 200; body := BPrediction r |} /\
    r_risk_score r = final_score (fl E) p1 p2 p3 /\
    r_risk_level r = risk_of (final_score (fl E) p1 p2 p3) /\
    r_top_features r = [] /\
    (exn_msg e <> "" -> r_shap_error r = Some (exn_msg e)) /\
    (exn_msg e = "" -> r_shap_error r = None).
Proof.
  intros Hparse Ht H1 H2 H3 Hshap.
  destruct (predict_risk_accepted E db req _ _ _ _ _ _ _ Hparse Ht H1 H2 H3)
    as (p & _ & _ & _ & _ & Hscore & Hrisk & Hstep & Hresp).
  unfold shap_step in Hstep. rewrite Hshap in Hstep. injection Hstep as Htop Herr.
  exists (response_of p). split; [exact Hresp|].
  unfold response_of; simpl. rewrite Htop, Herr, Hscore, Hrisk.
  do 3 (split; [reflexivity|]). split.
  - intros Hne. apply String.eqb_neq in Hne. unfold is_empty_str. by rewrite Hne.
  - by intros ->.
Qed.

Lemma predict_risk_shap_failure_witness :
  exists r,
    fst (predict_risk (sample_env_with sample_transform loud_shap_failure)
                      empty_store (sample_request None))
      = {| status := 200; body := BPrediction r |} /\
    r_top_features r = [] /\
    r_shap_error r = Some "The explainer expects 9 features".
Proof.
  destruct (predict_risk_shap_failure
              (sample_env_with sample_transform loud_shap_failure)
              empty_store (sample_request None)
              (JStr " Ann Lee ") (JObj []) sample_features
              [0.5; 1; 0; 0.25; 1; 0; 1]%Q 0.2%Q 0.3%Q 0.7%Q
              (Exn ValueError "The explainer expects 9 features"))
    as (r & Hresp & _ & _ & Htop & Herr & _);
    [reflexivity | reflexivity | reflexivity | reflexivity | reflexivity
    | vm_compute; reflexivity |].
  exists r. split; [exact Hresp|]. split; [exact Htop|].
  apply Herr. discriminate.
Defined.

(** At an explainer that raises an exception with an empty message the
    request succeeds with [top_features] empty, but the response has no
    [shap_error] field. *)
Theorem shap_error_dropped_when_message_empty :
  get_top_features insertion_argsort silent_shap_failure
    [0.5; 1; 0; 0.25; 1; 0; 1]%Q sample_feature_names = Raised (Exn OtherError "") /\
  exists r,
    fst (predict_risk (sample_env_with sample_transform silent_shap_failure)
                      empty_store (sample_request None))
      = {| status := 200; body := BPrediction r |} /\
    r_top_features r = [] /\
    r_shap_error r = None.
Proof.
  split; [reflexivity|].
  eexists. split; [vm_compute; reflexivity|]. split; reflexivity.
Qed.

(** ** Narrative generator *)

Lemma is_empty_str_false (s : string) : is_empty_str s = false <-> s <> "".
Proof. unfold is_empty_str. apply String.eqb_neq. Qed.

Lemma explanation_fallback_nonempty (risk_level : string) (risk_score : Q) :
  _basic_explanation_fallback risk_level risk_score <> "".
Proof. discriminate. Qed.

Lemma lifestyle_fallback_nonempty (risk_level : string) :
  _basic_lifestyle_fallback risk_level <> [].
Proof.
  unfold _basic_lifestyle_fallback.
  destruct (String.eqb risk_level "Low"), (String.eqb risk_level "Moderate"); discriminate.
Qed.

Lemma explanation_fallback_by_tier (l1 l2 : string) (risk_score : Q) :
  is_tier l1 -> is_tier l2 -> l1 <> l2 ->
  _basic_explanation_fallback l1 risk_score <> _basic_explanation_fallback l2 risk_score.
Proof.
  unfold _basic_explanation_fallback.
  intros [-> | [-> | ->]] [-> | [-> | ->]] Hne H; try done;
    apply (inj (String.app "Your predicted heart disease risk is ")) in H;
    discriminate H.
Qed.

Lemma lifestyle_fallback_by_tier (l1 l2 : string) :
  is_tier l1 -> is_tier l2 -> l1 <> l2 ->
  _basic_lifestyle_fallback l1 <> _basic_lifestyle_fallback l2.
Proof.
  intros [-> | [-> | ->]] [-> | [-> | ->]] Hne H; try done; discriminate H.
Qed.

Section NarrativeFacts.
Variable g : Gemini.
Variables (inputs : list (string * JVal)) (risk_score : Q) (risk_level : string)
          (top_features : list (string * Q)) (language : string).

Let prompt := prompt_for inputs risk_score risk_level top_features language.

Lemma generate_explanation_nonempty :
  generate_explanation g inputs risk_score risk_level top_features language <> "".
Proof.
  unfold generate_explanation.
  destruct (_get_client g); simpl; [|apply explanation_fallback_nonempty].
  destruct (generate_content g _) as [resp|e]; simpl;
    [|apply explanation_fallback_nonempty].
  destruct (getattr_text resp) as [t|e]; simpl; [|apply explanation_fallback_nonempty].
  match goal with
  | |- context [if is_empty_str ?text then Returned _ else Returned _] =>
      destruct (is_empty_str text) eqn:Hempty
  end; [apply explanation_fallback_nonempty | by apply is_empty_str_false].
Qed.

Lemma generate_lifestyle_suggestions_nonempty :
  generate_lifestyle_suggestions g inputs risk_score risk_level top_features language <> [].
Proof.
  unfold generate_lifestyle_suggestions.
  destruct (_get_client g); simpl; [|apply lifestyle_fallback_nonempty].
  destruct (generate_content g _) as [resp|e]; simpl;
    [|apply lifestyle_fallback_nonempty].
  destruct (getattr_text resp) as [t|e]; simpl; [|apply lifestyle_fallback_nonempty].
  match goal with
  | |- context [match ?cleaned with [] => Returned _ | _ :: _ => Returned _ end] =>
      destruct cleaned eqn:Hcleaned
  end; [apply lifestyle_fallback_nonempty | discriminate].
Qed.

Lemma generate_followup_plan_nonempty :
  generate_followup_plan g inputs risk_score risk_level top_features language <> "".
Proof.
  unfold generate_followup_plan.
  destruct (_get_client g); simpl; [|discriminate].
  destruct (generate_content g _) as [resp|e]; simpl; [|discriminate].
  destruct (getattr_text resp) as [t|e]; simpl; [|discriminate].
  destruct (is_empty_str (py_strip (opt_or_empty t))) eqn:Hempty;
    [discriminate | by apply is_empty_str_false].
Qed.

Lemma generate_prescription_summary_nonempty :
  generate_prescription_summary g inputs risk_score risk_level top_features language <> "".
Proof.
  unfold generate_prescription_summary.
  destruct (_get_client g); simpl; [|discriminate].
  destruct (generate_content g _) as [resp|e]; simpl; [|discriminate].
  destruct (getattr_text resp) as [t|e]; simpl; [|discriminate].
  destruct (is_empty_str (py_strip (opt_or_empty t))) eqn:Hempty;
    [discriminate | by apply is_empty_str_false].
Qed.

Lemma generate_explanation_unavailable :
  service_unavailable g (prompt KExplanation) ->
  generate_explanation g inputs risk_score risk_level top_features language
    = _basic_explanation_fallback risk_level risk_score.
Proof.
  unfold generate_explanation, prompt. intros [-> | [e He]]; [done|].
  rewrite He. by destruct (_get_client g).
Qed.

Lemma generate_lifestyle_suggestions_unavailable :
  service_unavailable g (prompt KLifestyle) ->
  generate_lifestyle_suggestions g inputs risk_score risk_level top_features language
    = _basic_lifestyle_fallback risk_level.
Proof.
  unfold generate_lifestyle_suggestions, prompt. intros [-> | [e He]]; [done|].
  rewrite He. by destruct (_get_client g).
Qed.
End NarrativeFacts.

Lemma generate_followup_plan_fixed (g : Gemini) inputs score level top language
    inputs' score' level' top' language' :
  service_unavailable g (prompt_for inputs score level top language KFollowup) ->
  service_unavailable g (prompt_for inputs' score' level' top' language' KFollowup) ->
  generate_followup_plan g inputs score level top language
    = generate_followup_plan g inputs' score' level' top' language'.
Proof.
  unfold generate_followup_plan, service_unavailable.
  destruct (_get_client g); simpl; [|done].
  intros [?|[e ->]] [?|[e' ->]]; done.
Qed.

Lemma generate_prescription_summary_fixed (g : Gemini) inputs score level top language
    inputs' score' level' top' language' :
  service_unavailable g (prompt_for inputs score level top language KPrescription) ->
  service_unavailable g (prompt_for inputs' score' level' top' language' KPrescription) ->
  generate_prescription_summary g inputs score level top language
    = generate_prescription_summary g inputs' score' level' top' language'.
Proof.
  unfold generate_prescription_summary, service_unavailable.
  destruct (_get_client g); simpl; [|done].
  intros [?|[e ->]] [?|[e' ->]]; done.
Qed.

(** C9. Each of the four narrative functions returns a non-empty text (a
    non-empty list for the lifestyle suggestions) whatever the generative
    service does.  When the service is not configured or its call raises,
    the explanation and the lifestyle suggestions are the fallback
    templates, which differ from one risk tier to another, and the follow-up
    plan and the prescription summary are fixed texts that do not depend on
    the arguments of the call. *)
Theorem narratives_fall_back (g : Gemini) (inputs : list (string * JVal)) (risk_score : Q)
    (risk_level : string) (top_features : list (string * Q)) (language : string) :
  let prompt := prompt_for inputs risk_score risk_level top_features language in
  (generate_explanation g inputs risk_score risk_level top_features language <> "" /\
   generate_lifestyle_suggestions g inputs risk_score risk_level top_features language <> [] /\
   generate_followup_plan g inputs risk_score risk_level top_features language <> "" /\
   generate_prescription_summary g inputs risk_score risk_level top_features language <> "") /\
  (service_unavailable g (prompt KExplanation) ->
   generate_explanation g inputs risk_score risk_level top_features language
     = _basic_explanation_fallback risk_level risk_score) /\
  (service_unavailable g (prompt KLifestyle) ->
   generate_lifestyle_suggestions g inputs risk_score risk_level top_features language
     = _basic_lifestyle_fallback risk_level) /\
  (forall inputs' score' level' top' language',
     service_unavailable g (prompt KFollowup) ->
     service_unavailable g (prompt_for inputs' score' level' top' language' KFollowup) ->
     generate_followup_plan g inputs risk_score risk_level top_features language
       = generate_followup_plan g inputs' score' level' top' language') /\
  (forall inputs' score' level' top' language',
     service_unavailable g (prompt KPrescription) ->
     service_unavailable g (prompt_for inputs' score' level' top' language' KPrescription) ->
     generate_prescription_summary g inputs risk_score risk_level top_features language
       = generate_prescription_summary g inputs' score' level' top' language') /\
  (forall l1 l2 score,
     is_tier l1 -> is_tier l2 -> l1 <> l2 ->
     _basic_explanation_fallback l1 score <> _basic_explanation_fallback l2 score /\
     _basic_lifestyle_fallback l1 <> _basic_lifestyle_fallback l2).
Proof.
  intros prompt. split; [|split; [|split; [|split; [|split]]]].
  - split; [apply generate_explanation_nonempty|].
    split; [apply generate_lifestyle_suggestions_nonempty|].
    split; [apply generate_followup_plan_nonempty | apply generate_prescription_summary_nonempty].
  - apply generate_explanation_unavailable.
  - apply generate_lifestyle_suggestions_unavailable.
  - intros. by apply generate_followup_plan_fixed.
  - intros. by apply generate_prescription_summary_fixed.
  - intros l1 l2 score H1 H2 Hne.
    split; [by apply explanation_fallback_by_tier | by apply lifestyle_fallback_by_tier].
Qed.

Lemma narratives_fall_back_witness :
  generate_explanation failing_gemini sample_features 0.2 "Low" [] "en"
    = _basic_explanation_fallback "Low" 0.2 /\
  generate_lifestyle_suggestions sample_gemini sample_features 0.2 "Low" [] "en"
    = _basic_lifestyle_fallback "Low" /\
  _basic_lifestyle_fallback "Low" <> _basic_lifestyle_fallback "High".
Proof.
  destruct (narratives_fall_back failing_gemini sample_features 0.2 "Low" [] "en")
    as (_ & Hexplain & _ & _ & _ & Htiers).
  destruct (narratives_fall_back sample_gemini sample_features 0.2 "Low" [] "en")
    as (_ & _ & Hlifestyle & _).
  split; [apply Hexplain; right; eexists; reflexivity|].
  split; [apply Hlifestyle; left; reflexivity|].
  apply (Htiers "Low" "High" 0.2%Q); [left; reflexivity | right; right; reflexivity | discriminate].
Defined.

(** ** Signup, login and the role of the token *)








Lemma find_one_user_none (E : Env) (db : Mongo) (email : JVal) :
  find_one_user E db email = Returned None <->
  fault db = None /\
  forall user, user ∈ users db -> field_matches E email (user_email user) = false.
Proof.
  unfold find_one_user, with_store. split.
  - destruct (fault db); [discriminate|]. intros H. injection H as H.
    split; [done|]. intros user Hin.
    apply (find_none _ _ H user). by apply list_elem_of_In.
  - intros [-> Hnone].
    destruct (find _ (users db)) as [user|] eqn:Hfind; [|done].
    apply find_some in Hfind as [Hin Hm].
    rewrite (Hnone user) in Hm; [discriminate Hm | by apply list_elem_of_In].
Qed.







(** * Further properties *)

(** ** More on the feature row *)

Lemma normalize_source fos (df : gmap string JVal) (src : string) :
  src = "thalach" \/ src = "age" \/ src = "trestbps" \/ src = "chol" ->
  normalize fos df !! src = df !! src.
Proof.
  intros [-> | [-> | [-> | ->]]]; by apply normalize_other.
Qed.

Lemma derived_as_again (df out out' : gmap string JVal) (src tgt : string) (f : JVal -> JVal) :
  derived_as df out src tgt f -> derived_as out out' src tgt f ->
  out !! src = df !! src ->
  out' !! tgt = out !! tgt.
Proof.
  unfold derived_as. intros H1 H2 Hsrc. rewrite H2.
  destruct (out !! tgt) as [v|] eqn:Hout; [done|].
  rewrite Hsrc. by destruct (df !! tgt).
Qed.

Lemma normalize_extends fos (df : gmap string JVal) (k : string) (v : JVal) :
  df !! k = Some v -> normalize fos df !! k = Some v.
Proof.
  intros Hk.
  destruct (normalize_derived fos df) as (H1 & H2 & H3 & H4). unfold derived_as in *.
  destruct (decide (k = "thalch")) as [->|N1]; [by rewrite H1, Hk|].
  destruct (decide (k = "age_group")) as [->|N2]; [by rewrite H2, Hk|].
  destruct (decide (k = "bp_cat")) as [->|N3]; [by rewrite H3, Hk|].
  destruct (decide (k = "chol_cat")) as [->|N4]; [by rewrite H4, Hk|].
  by rewrite normalize_other.
Qed.

Lemma normalize_idempotent fos (df : gmap string JVal) :
  normalize fos (normalize fos df) = normalize fos df.
Proof.
  apply map_eq. intros k.
  destruct (normalize_derived fos df) as (H1 & H2 & H3 & H4).
  destruct (normalize_derived fos (normalize fos df)) as (H1' & H2' & H3' & H4').
  destruct (decide (k = "thalch")) as [->|N1];
    [apply (derived_as_again df _ _ _ _ _ H1 H1'), normalize_source; auto|].
  destruct (decide (k = "age_group")) as [->|N2];
    [apply (derived_as_again df _ _ _ _ _ H2 H2'), normalize_source; auto|].
  destruct (decide (k = "bp_cat")) as [->|N3];
    [apply (derived_as_again df _ _ _ _ _ H3 H3'), normalize_source; auto|].
  destruct (decide (k = "chol_cat")) as [->|N4];
    [apply (derived_as_again df _ _ _ _ _ H4 H4'), normalize_source; auto|].
  by apply normalize_other.
Qed.

(** X1.  The derivations only add columns: every submitted
    column reaches the preprocessor with its value; and they are idempotent:
    a row that has been through them is left as it is, so submitting the
    normalized row gives the same frame. *)
Theorem feature_row_extends_idempotent (E : Env) (data : list (string * JVal)) :
  let df : gmap string JVal := list_to_map data in
  (forall k v, df !! k = Some v -> feature_row E data !! k = Some v) /\
  normalize (float_of_str E) (feature_row E data) = feature_row E data /\
  feature_row E (map_to_list (feature_row E data)) = feature_row E data.
Proof.
  intros df. unfold feature_row. fold df. split; [|split].
  - intros k v. apply normalize_extends.
  - apply normalize_idempotent.
  - rewrite list_to_map_to_list. apply normalize_idempotent.
Qed.

Lemma feature_row_extends_idempotent_witness :
  feature_row sample_env sample_features !! "age" = Some (JInt 45) /\
  feature_row sample_env sample_features !! "age_group" = Some (JStr "31-45").
Proof.
  destruct (feature_row_extends_idempotent sample_env sample_features) as [Hext _].
  split; [by apply Hext | reflexivity].
Defined.

(** ** More on the ensemble scorer *)

Lemma risk_of_monotone (s s' : Q) :
  (s <= s')%Q -> (tier_rank (risk_of s) <= tier_rank (risk_of s'))%nat.
Proof.
  intros Hle. unfold risk_of.
  destruct (Qltb s 0.33) eqn:H1; [apply Nat.le_0_l|]. apply Qltb_false in H1.
  assert (H1' : Qltb s' 0.33 = false) by (apply Qltb_false; lra). rewrite H1'.
  destruct (Qltb s 0.66) eqn:H2.
  - destruct (Qltb s' 0.66); [apply Nat.le_refl | apply Nat.le_succ_diag_r].
  - apply Qltb_false in H2.
    assert (H2' : Qltb s' 0.66 = false) by (apply Qltb_false; lra).
    rewrite H2'. apply Nat.le_refl.
Qed.

Lemma exact_mean_monotone (p1 p2 p3 p1' p2' p3' : Q) :
  (p1 <= p1')%Q -> (p2 <= p2')%Q -> (p3 <= p3')%Q ->
  (exact_mean p1 p2 p3 <= exact_mean p1' p2' p3')%Q.
Proof.
  intros H1 H2 H3. unfold exact_mean.
  apply Qmult_le_compat_r; [lra | discriminate].
Qed.

(** X2.  Raising the probability of any classifier never
    lowers the score or the tier; this does not rest on exact arithmetic,
    it holds as well when each operation is followed by a monotone
    rounding. *)
Theorem risk_level_monotone (fl : Q -> Q) (p1 p2 p3 p1' p2' p3' : Q) :
  (forall x y : Q, (x <= y)%Q -> (fl x <= fl y)%Q) ->
  (p1 <= p1')%Q -> (p2 <= p2')%Q -> (p3 <= p3')%Q ->
  (exact_mean p1 p2 p3 <= exact_mean p1' p2' p3')%Q /\
  (tier_rank (risk_of (exact_mean p1 p2 p3))
   <= tier_rank (risk_of (exact_mean p1' p2' p3')))%nat /\
  (final_score fl p1 p2 p3 <= final_score fl p1' p2' p3')%Q /\
  (tier_rank (risk_of (final_score fl p1 p2 p3))
   <= tier_rank (risk_of (final_score fl p1' p2' p3')))%nat.
Proof.
  intros Hfl H1 H2 H3.
  pose proof (exact_mean_monotone p1 p2 p3 p1' p2' p3' H1 H2 H3) as Hexact.
  assert (Hrounded : (final_score fl p1 p2 p3 <= final_score fl p1' p2' p3')%Q).
  { unfold final_score. apply Hfl.
    apply Qmult_le_compat_r; [|discriminate].
    apply Hfl. apply Qplus_le_compat; [|exact H3].
    apply Hfl. by apply Qplus_le_compat. }
  split; [exact Hexact|]. split; [by apply risk_of_monotone|].
  split; [exact Hrounded | by apply risk_of_monotone].
Qed.

Lemma risk_level_monotone_witness :
  (tier_rank (risk_of (exact_mean 0.2 0.3 0.7))
   <= tier_rank (risk_of (exact_mean 0.9 0.3 0.7)))%nat.
Proof.
  destruct (risk_level_monotone (fun x => x) 0.2 0.3 0.7 0.9 0.3 0.7)
    as (_ & Htier & _); [by intros x y | discriminate | discriminate | discriminate |].
  exact Htier.
Defined.

(** ** Requests that [predict_risk] cannot serve *)

Lemma predict_risk_raised (E : Env) (db : Mongo) (req : Request) e :
  compute_prediction E req = Raised e ->
  predict_risk E db req = ({| status := 500; body := BServerError |}, db).
Proof.
  intros H. unfold predict_risk, predict_risk_view. by rewrite H.
Qed.

Lemma parse_request_object (req : Request) (items : list (string * JVal)) :
  json req = JObj items ->
  parse_request req =
    let* data := jitems (py_or (dict_get items "features") (JObj items)) in
    Returned (py_or (dict_get items "patientName") (dict_get items "patient_name"),
              py_or (dict_get items "lifestyle") (JObj []), data).
Proof.
  intros Hj. unfold parse_request. rewrite Hj. by destruct items.
Qed.

(** X3.  A body that is a non-empty JSON value other than an
    object, or an object whose [features] entry is a non-empty value other
    than an object, is not caught by the view: the answer is 500 and nothing
    is written.  An empty body (null, an empty object, array or string, zero
    or false) is read as the empty mapping: no patient name, no lifestyle,
    no feature. *)
Theorem predict_risk_malformed_body (E : Env) (db : Mongo) (req : Request) :
  (py_truthy (json req) = true -> (forall items, json req <> JObj items) ->
   predict_risk E db req = ({| status := 500; body := BServerError |}, db)) /\
  (forall items,
     json req = JObj items -> py_truthy (dict_get items "features") = true ->
     (forall fs, dict_get items "features" <> JObj fs) ->
     predict_risk E db req = ({| status := 500; body := BServerError |}, db)) /\
  (py_truthy (json req) = false ->
   parse_request req = Returned (JNull, JObj [], [])).
Proof.
  split; [|split].
  - intros Ht Hnot.
    assert (Hr : exists e, compute_prediction E req = Raised e).
    { unfold compute_prediction, parse_request, py_or. rewrite Ht.
      destruct (json req) as [ | | | | | |items]; try (by eexists).
      by destruct (Hnot items). }
    destruct Hr as [e He]. by apply (predict_risk_raised E db req e).
  - intros items Hj Ht Hnot.
    assert (Hr : exists e, compute_prediction E req = Raised e).
    { unfold compute_prediction. rewrite (parse_request_object req items Hj).
      unfold py_or at 1. rewrite Ht.
      destruct (dict_get items "features") as [ | | | | | |fs]; try (by eexists).
      by destruct (Hnot fs). }
    destruct Hr as [e He]. by apply (predict_risk_raised E db req e).
  - intros Hf. unfold parse_request, py_or. by rewrite Hf.
Qed.

Lemma predict_risk_malformed_body_witness :
  predict_risk sample_env empty_store
    {| method := "POST"; authorization := None; json := JArr [JInt 1] |}
  = ({| status := 500; body := BServerError |}, empty_store) /\
  predict_risk sample_env empty_store
    {| method := "POST"; authorization := None;
       json := JObj [("features", JStr "age=45")] |}
  = ({| status := 500; body := BServerError |}, empty_store).
Proof.
  split.
  - apply (proj1 (predict_risk_malformed_body sample_env empty_store _));
      [reflexivity | discriminate].
  - apply (proj1 (proj2 (predict_risk_malformed_body sample_env empty_store _))
             [("features", JStr "age=45")]); [reflexivity | reflexivity | discriminate].
Defined.

(** X4.  Once the row is accepted, an exception of
    any of the three classifiers is fatal to the request: the answer is 500
    and nothing is written, whatever the other two return. *)
Theorem predict_risk_classifier_fault (E : Env) (db : Mongo) (req : Request)
    (patient_name lifestyle : JVal) (data : list (string * JVal)) (processed : Processed) :
  parse_request req = Returned (patient_name, lifestyle, data) ->
  transform E (feature_row E data) = Returned processed ->
  (exists e, log_predict_proba E processed = Raised e) \/
  (exists e, rf_predict_proba E processed = Raised e) \/
  (exists e, xgb_predict_proba E processed = Raised e) ->
  predict_risk E db req = ({| status := 500; body := BServerError |}, db).
Proof.
  intros Hparse Ht Hfault.
  assert (Hr : exists e, compute_prediction E req = Raised e).
  { unfold compute_prediction. rewrite Hparse. simpl. rewrite Ht.
    destruct (log_predict_proba E processed) as [p1|e1] eqn:H1; simpl; [|by eexists].
    destruct (rf_predict_proba E processed) as [p2|e2] eqn:H2; simpl; [|by eexists].
    destruct (xgb_predict_proba E processed) as [p3|e3] eqn:H3; simpl; [|by eexists].
    destruct Hfault as [[e He]|[[e He]|[e He]]]; discriminate He. }
  destruct Hr as [e He]. by apply (predict_risk_raised E db req e).
Qed.

Lemma predict_risk_classifier_fault_witness :
  predict_risk env_with_failing_forest empty_store (sample_request None)
  = ({| status := 500; body := BServerError |}, empty_store).
Proof.
  apply (predict_risk_classifier_fault env_with_failing_forest empty_store
           (sample_request None) (JStr " Ann Lee ") (JObj []) sample_features
           [0.5; 1; 0; 0.25; 1; 0; 1]%Q); [reflexivity | reflexivity |].
  right; left. eexists. reflexivity.
Defined.

(** ** More on [get_top_features] *)

Lemma for_each_first_failure {A B} (f : A -> Outcome B) (xs : list A) (e : exn) :
  Forall (fun x => f x = Raised e \/ exists y, f x = Returned y) xs ->
  Exists (fun x => f x = Raised e) xs ->
  for_each f xs = Raised e.
Proof.
  induction 1 as [|x xs Hx _ IH]; intros Hex; [by apply Exists_nil in Hex|].
  simpl. destruct Hx as [Hx|[y Hx]]; rewrite Hx; [done|]. simpl.
  apply Exists_cons in Hex as [Hex|Hex]; [rewrite Hx in Hex; discriminate Hex|].
  by rewrite (IH Hex).
Qed.

Lemma Forall2_exists_l {A B} (P : A -> B -> Prop) (l : list A) (k : list B) :
  Forall2 P l k -> Forall (fun y => exists x, x ∈ l /\ P x y) k.
Proof.
  induction 1 as [|x y l k Hxy _ IH]; constructor.
  - exists x. split; [apply list_elem_of_here | exact Hxy].
  - eapply Forall_impl; [exact IH|]. intros y' (x' & Hx' & HP).
    exists x'. split; [by apply list_elem_of_further | exact HP].
Qed.

Section TopPositions.
Variable argsort : list Q -> list nat.
Hypothesis argsort_ok : argsort_spec argsort.

Lemma top_positions_facts (sample : list Q) (top : nat) :
  let idx := rev (last_slice top (argsort (map Qabs sample))) in
  NoDup idx /\
  (forall i, i ∈ idx -> (i < length sample)%nat) /\
  (forall j i, (j < length sample)%nat -> j ∉ idx -> i ∈ idx ->
               (Qabs (nth j sample 0) <= Qabs (nth i sample 0))%Q) /\
  length idx = match top with O => length sample | _ => Nat.min top (length sample) end.
Proof.
  intros idx. subst idx.
  destruct (argsort_ok (map Qabs sample)) as [Hperm Hsorted].
  destruct (last_slice_suffix top (argsort (map Qabs sample))) as [pre Hpre].
  assert (Hnodup : NoDup (argsort (map Qabs sample))).
  { apply NoDup_ListNoDup. eapply Permutation_NoDup; [symmetry; exact Hperm|].
    apply seq_NoDup. }
  assert (Hin : forall i, i ∈ argsort (map Qabs sample) <-> (i < length sample)%nat).
  { intros i. rewrite list_elem_of_In. split; intros H.
    - eapply Permutation_in in H; [|exact Hperm]. apply in_seq in H.
      rewrite length_map in H. lia.
    - eapply Permutation_in; [symmetry; exact Hperm|]. apply in_seq.
      rewrite length_map. lia. }
  split; [|split; [|split]].
  - apply NoDup_ListNoDup, NoDup_rev, NoDup_ListNoDup.
    rewrite Hpre in Hnodup. by apply NoDup_app in Hnodup as (_ & _ & ?).
  - intros i Hi. apply Hin. rewrite Hpre. apply elem_of_app. right.
    by apply list_elem_of_In, in_rev, list_elem_of_In.
  - intros j i Hj Hnot Hi.
    assert (Hi' : i ∈ last_slice top (argsort (map Qabs sample)))
      by (by apply list_elem_of_In, in_rev, list_elem_of_In).
    assert (Hjpre : j ∈ pre).
    { apply Hin in Hj. rewrite Hpre in Hj. apply elem_of_app in Hj as [Hj|Hj]; [done|].
      destruct Hnot. by apply list_elem_of_In, in_rev, list_elem_of_In in Hj. }
    rewrite Hpre in Hsorted.
    pose proof (StronglySorted_app_1_elem_of _ _ _ j i Hsorted Hjpre Hi') as Hle.
    simpl in Hle. change 0%Q with (Qabs 0) in Hle. by rewrite !map_nth in Hle.
  - rewrite length_rev. destruct top as [|n].
    + simpl. apply Permutation_length in Hperm.
      by rewrite length_seq, length_map in Hperm.
    + rewrite last_slice_length by lia.
      by rewrite (argsort_length argsort argsort_ok), length_map.
Qed.
End TopPositions.

(** X5.  The entries returned by [get_top_features] come from
    pairwise distinct positions of the first sample, and no position left
    out has a larger absolute value than an entry that is returned. *)
Theorem get_top_features_are_largest (argsort : list Q -> list nat)
    (explainer : list Q -> Outcome ShapRaw) (x_np : list Q) (feature_names : list string)
    (raw : ShapRaw) (sample : list Q) (res : list (string * Q)) :
  argsort_spec argsort ->
  explainer x_np = Returned raw ->
  sample_shap_of raw = Returned sample ->
  get_top_features argsort explainer x_np feature_names = Returned res ->
  exists idx : list nat,
    NoDup idx /\
    Forall2 (fun i e => feature_names !! i = Some (fst e) /\ sample !! i = Some (snd e))
            idx res /\
    forall j v, sample !! j = Some v -> j ∉ idx ->
                Forall (fun e => (Qabs v <= Qabs (snd e))%Q) res.
Proof.
  intros Hspec Hraw Hsample Hres.
  unfold get_top_features, get_top_features_of in Hres.
  rewrite Hraw in Hres. simpl in Hres. rewrite Hsample in Hres. simpl in Hres.
  destruct (top_positions_facts argsort Hspec sample 5) as (Hnodup & Hrange & Hlargest & _).
  exists (rev (last_slice 5 (argsort (map Qabs sample)))).
  split; [exact Hnodup|].
  apply for_each_Forall2 in Hres.
  assert (H2 : Forall2 (fun i e => feature_names !! i = Some (fst e) /\
                                   sample !! i = Some (snd e))
                 (rev (last_slice 5 (argsort (map Qabs sample)))) res).
  { eapply Forall2_impl; [exact Hres|]. intros i e Hie. by apply top_entry_Returned. }
  split; [exact H2|].
  intros j v Hj Hnot.
  assert (Hjlt : (j < length sample)%nat) by (by apply lookup_lt_Some in Hj).
  eapply Forall_impl; [exact (Forall2_exists_l _ _ _ H2)|].
  intros e (i & Hi & _ & Hie). simpl.
  pose proof (Hlargest j i Hjlt Hnot Hi) as Hle.
  by rewrite (nth_lookup_Q _ _ _ Hj), (nth_lookup_Q _ _ _ Hie) in Hle.
Qed.

Lemma get_top_features_are_largest_witness :
  exists res idx,
    get_top_features insertion_argsort sample_shap_values [] sample_feature_names
      = Returned res /\
    NoDup idx /\ length idx = 5%nat /\
    forall v, [0.1; -0.4; 0.05; 0; 0.2; -0.3; 0.02]%Q !! 2%nat = Some v -> 2%nat ∉ idx ->
              Forall (fun e => (Qabs v <= Qabs (snd e))%Q) res.
Proof.
  destruct (get_top_features_are_largest insertion_argsort sample_shap_values []
              sample_feature_names
              (ShapList [Nd2 [[0.1; -0.4; 0.05; 0; 0.2; -0.3; 0.02]%Q];
                         Nd2 [[-0.1; 0.4; -0.05; 0; -0.2; 0.3; -0.02]%Q]])
              [0.1; -0.4; 0.05; 0; 0.2; -0.3; 0.02]%Q
              [("trestbps", (-0.4)%Q); ("bp_cat", (-0.3)%Q); ("age_group", 0.2%Q);
               ("age", 0.1%Q); ("chol", 0.05%Q)]
              insertion_argsort_spec eq_refl eq_refl eq_refl)
    as (idx & Hnodup & H2 & Hlargest).
  eexists. exists idx. split; [reflexivity|]. split; [exact Hnodup|].
  split; [by rewrite (Forall2_length _ _ _ H2)|].
  intros v. apply Hlargest.
Defined.

(** X6.  With enough feature names, the number of entries is the
    number of values of the sample cut at [top]; but for [top = 0] the slice
    [[-top:]] is the whole array, so every feature is returned, not none. *)
Theorem get_top_features_of_count (argsort : list Q -> list nat) (raw : ShapRaw)
    (sample : list Q) (feature_names : list string) (top : nat) :
  argsort_spec argsort ->
  sample_shap_of raw = Returned sample ->
  (length sample <= length feature_names)%nat ->
  exists res,
    get_top_features_of argsort (Returned raw) feature_names top = Returned res /\
    length res = match top with
                 | O => length sample
                 | _ => Nat.min top (length sample)
                 end.
Proof.
  intros Hspec Hsample Hlen. unfold get_top_features_of. simpl. rewrite Hsample. simpl.
  destruct (top_entries_total argsort Hspec feature_names sample top Hlen)
    as (res & Hres & Hn).
  exists res. split; [exact Hres|].
  destruct (top_positions_facts argsort Hspec sample top) as (_ & _ & _ & Hcount).
  rewrite length_rev in Hcount. by rewrite Hn.
Qed.

Lemma get_top_features_of_count_witness :
  exists res,
    get_top_features_of insertion_argsort
      (Returned (ShapArray (Nd1 [0.1; -0.4; 0.05]%Q))) ["age"; "chol"; "sex"] 0
      = Returned res /\
    length res = 3%nat.
Proof.
  destruct (get_top_features_of_count insertion_argsort (ShapArray (Nd1 [0.1; -0.4; 0.05]%Q))
              [0.1; -0.4; 0.05]%Q ["age"; "chol"; "sex"] 0 insertion_argsort_spec eq_refl)
    as (res & Hres & Hlen); [simpl; lia|].
  exists res. split; [exact Hres | exact Hlen].
Defined.

(** X7.  [get_top_features] passes on an exception of the
    explainer unchanged and raises IndexError on an empty list of arrays or
    an array without rows; an empty sample gives the empty list; and when
    there are fewer feature names than values, it raises IndexError as soon
    as a selected position has no name, which is certain when the sample has
    at most five values or there is no name at all. *)
Theorem get_top_features_failures (argsort : list Q -> list nat)
    (explainer : list Q -> Outcome ShapRaw) (x_np : list Q) (feature_names : list string) :
  argsort_spec argsort ->
  (forall e, explainer x_np = Raised e ->
     get_top_features argsort explainer x_np feature_names = Raised e) /\
  (forall raw e, explainer x_np = Returned raw -> sample_shap_of raw = Raised e ->
     exn_class e = IndexError /\
     get_top_features argsort explainer x_np feature_names = Raised e) /\
  (forall raw, explainer x_np = Returned raw -> sample_shap_of raw = Returned [] ->
     get_top_features argsort explainer x_np feature_names = Returned []) /\
  (forall raw sample,
     explainer x_np = Returned raw -> sample_shap_of raw = Returned sample ->
     (length feature_names < length sample)%nat ->
     (length sample <= 5)%nat \/ feature_names = [] ->
     get_top_features argsort explainer x_np feature_names
       = Raised (Exn IndexError "list index out of range")).
Proof.
  intros Hspec. unfold get_top_features, get_top_features_of.
  split; [by intros e ->|]. split; [|split].
  - intros raw e -> Hs. simpl. rewrite Hs. split; [|done].
    unfold sample_shap_of in Hs.
    destruct raw as [[|[v|[|r rows]] l]|[v|[|r rows]]]; simpl in Hs;
      try discriminate Hs; by injection Hs as <-.
  - intros raw -> Hs. simpl. rewrite Hs. simpl.
    destruct (top_positions_facts argsort Hspec [] 5) as (_ & _ & _ & Hcount).
    simpl in Hcount. by destruct (rev _).
  - intros raw sample -> Hs Hlt Hcase. simpl. rewrite Hs. simpl.
    destruct (top_positions_facts argsort Hspec sample 5) as (Hnodup & Hrange & _ & Hcount).
    set (idx := rev (last_slice 5 (argsort (map Qabs sample)))) in *.
    apply for_each_first_failure.
    + apply Forall_forall. intros i Hi. apply Hrange in Hi.
      destruct (lookup_lt_is_Some_2 sample i Hi) as [v Hv].
      unfold top_entry. rewrite Hv.
      destruct (feature_names !! i); [right; by eexists | by left].
    + assert (Hex : exists i, i ∈ idx /\ (length feature_names <= i)%nat).
      { destruct Hcase as [Hfew| ->].
        - exists (length sample - 1)%nat. split; [|lia].
          rewrite Nat.min_r in Hcount by lia.
          destruct (decide (length sample - 1 ∈ idx)%nat) as [|Hnot]; [done|].
          exfalso.
          assert (Hsub : idx ⊆ seq 0 (length sample - 1)).
          { intros i Hi. apply list_elem_of_In, in_seq.
            pose proof (Hrange i Hi).
            assert (i <> length sample - 1)%nat by (intros ->; done). lia. }
          pose proof (submseteq_length idx (seq 0 (length sample - 1))
                        (NoDup_submseteq _ _ Hnodup Hsub)) as Hle.
          rewrite length_seq in Hle. lia.
        - assert (Hpos : (0 < length idx)%nat) by (simpl in Hlt; lia).
          clearbody idx. destruct idx as [|i idx']; [simpl in Hpos; lia|].
          exists i. split; [apply list_elem_of_here | simpl; lia]. }
      destruct Hex as (i & Hi & Hge).
      apply Exists_exists. exists i. split; [by apply list_elem_of_In in Hi; apply list_elem_of_In|].
      pose proof (Hrange i Hi) as Hilt.
      destruct (lookup_lt_is_Some_2 sample i Hilt) as [v Hv].
      unfold top_entry. rewrite Hv. by rewrite (lookup_ge_None_2 feature_names i Hge).
Qed.

Lemma get_top_features_failures_witness :
  get_top_features insertion_argsort sample_shap_values [] []
    = Raised (Exn IndexError "list index out of range") /\
  get_top_features insertion_argsort (fun _ => Returned (ShapList [])) [] sample_feature_names
    = Raised (Exn IndexError "list index out of range").
Proof.
  split.
  - destruct (get_top_features_failures insertion_argsort sample_shap_values []
                [] insertion_argsort_spec) as (_ & _ & _ & Hnames).
    apply (Hnames _ _ eq_refl eq_refl); [simpl; lia | by right].
  - destruct (get_top_features_failures insertion_argsort (fun _ => Returned (ShapList [])) []
                sample_feature_names insertion_argsort_spec) as (_ & Hshape & _ & _).
    destruct (Hshape (ShapList []) (Exn IndexError "list index out of range") eq_refl eq_refl)
      as [_ H]. exact H.
Defined.

(** ** More on the narrative generator *)

(** The string methods work on characters: a no-break space is a blank, and
    a line separator ends a line. *)
Example unicode_blanks :
  py_strip (nbsp +:+ " Stay active. " +:+ nbsp) = "Stay active." /\
  py_strip nbsp = "" /\
  py_splitlines ("Walk daily." +:+ line_separator +:+ "Eat well.")
    = ["Walk daily."; "Eat well."] /\
  strip_bullet ("- " +:+ nbsp +:+ " -") = nbsp.
Proof. vm_compute. repeat split. Qed.

Lemma getattr_text_returned (resp : GenResponse) (t : option string) :
  resp_text resp = Returned t -> getattr_text resp = Returned t.
Proof. unfold getattr_text. by intros ->. Qed.

Lemma getattr_text_missing (resp : GenResponse) (e : exn) :
  resp_text resp = Raised e -> exn_class e = AttributeError ->
  getattr_text resp = Returned None.
Proof. unfold getattr_text. by intros -> ->. Qed.

Lemma getattr_text_raised (resp : GenResponse) (e : exn) :
  resp_text resp = Raised e -> exn_class e <> AttributeError ->
  getattr_text resp = Raised e.
Proof. unfold getattr_text. intros -> He. by destruct (exn_class e). Qed.

Lemma filter_map_filter {A B} (P : A -> Prop) `{!forall x, Decision (P x)}
    (R : B -> Prop) `{!forall y, Decision (R y)} (f : A -> B) (l : list A) :
  filter R (map f (filter P l)) = map f (filter (fun x => P x /\ R (f x)) l).
Proof.
  induction l as [|x l IH]; [done|].
  rewrite !filter_cons.
  destruct (decide (P x)) as [HP|HP]; simpl.
  - rewrite filter_cons. destruct (decide (R (f x))) as [HR|HR].
    + rewrite decide_True by done. simpl. by rewrite IH.
    + rewrite decide_False by (by intros [_ ?]). exact IH.
  - rewrite decide_False by (by intros [? _]). exact IH.
Qed.

Lemma filter_sublist_of {A} (P : A -> Prop) `{!forall x, Decision (P x)} (l : list A) :
  filter P l `sublist_of` l.
Proof.
  induction l as [|x l IH]; [constructor|].
  rewrite filter_cons. destruct (decide (P x)); by constructor.
Qed.

Section NarrativeService.
Variable g : Gemini.
Variables (inputs : list (string * JVal)) (risk_score : Q) (risk_level : string)
          (top_features : list (string * Q)) (language : string).

Let prompt := prompt_for inputs risk_score risk_level top_features language.

Lemma py_strip_nonempty_arg (t : string) : py_strip t <> "" -> t <> "".
Proof. intros H ->. by apply H. Qed.

Lemma generate_explanation_text (resp : GenResponse) (t : string) :
  _get_client g = true ->
  generate_content g (prompt KExplanation) = Returned resp ->
  getattr_text resp = Returned (Some t) -> t <> "" ->
  generate_explanation g inputs risk_score risk_level top_features language
    = if is_empty_str (py_strip t)
      then _basic_explanation_fallback risk_level risk_score
      else py_strip t.
Proof.
  intros Hc Hresp Ht Hne. unfold generate_explanation, prompt in *.
  rewrite Hc, Hresp. simpl. rewrite Ht. simpl.
  apply is_empty_str_false in Hne. rewrite !Hne.
  by destruct (is_empty_str (py_strip t)).
Qed.

Lemma generate_followup_plan_text (resp : GenResponse) (t : string) :
  _get_client g = true ->
  generate_content g (prompt KFollowup) = Returned resp ->
  getattr_text resp = Returned (Some t) -> py_strip t <> "" ->
  generate_followup_plan g inputs risk_score risk_level top_features language = py_strip t.
Proof.
  intros Hc Hresp Ht Hne. unfold generate_followup_plan, prompt in *.
  rewrite Hc, Hresp. simpl. rewrite Ht. simpl.
  apply is_empty_str_false in Hne. by rewrite Hne.
Qed.

Lemma generate_prescription_summary_text (resp : GenResponse) (t : string) :
  _get_client g = true ->
  generate_content g (prompt KPrescription) = Returned resp ->
  getattr_text resp = Returned (Some t) -> py_strip t <> "" ->
  generate_prescription_summary g inputs risk_score risk_level top_features language
    = py_strip t.
Proof.
  intros Hc Hresp Ht Hne. unfold generate_prescription_summary, prompt in *.
  rewrite Hc, Hresp. simpl. rewrite Ht. simpl.
  apply is_empty_str_false in Hne. by rewrite Hne.
Qed.

Lemma generate_explanation_candidates (resp : GenResponse) (t : option string) :
  _get_client g = true ->
  generate_content g (prompt KExplanation) = Returned resp ->
  getattr_text resp = Returned t -> opt_or_empty t = "" ->
  generate_explanation g inputs risk_score risk_level top_features language
    = let joined := String.concat "" (omap (fun c => c) (resp_candidates resp)) in
      if is_empty_str (py_strip joined)
      then _basic_explanation_fallback risk_level risk_score
      else py_strip joined.
Proof.
  intros Hc Hresp Ht Hempty. unfold generate_explanation, prompt in *.
  rewrite Hc, Hresp. simpl. rewrite Ht. simpl. rewrite Hempty. simpl.
  destruct (is_empty_str (String.concat "" (omap (fun c => c) (resp_candidates resp))))
    eqn:Hj; cbv zeta.
  - apply String.eqb_eq in Hj. rewrite Hj. reflexivity.
  - by destruct (is_empty_str (py_strip _)).
Qed.

Lemma generate_explanation_raised (resp : GenResponse) (e : exn) :
  _get_client g = true ->
  generate_content g (prompt KExplanation) = Returned resp ->
  getattr_text resp = Raised e ->
  generate_explanation g inputs risk_score risk_level top_features language
    = _basic_explanation_fallback risk_level risk_score.
Proof.
  intros Hc Hresp Ht. unfold generate_explanation, prompt in *.
  by rewrite Hc, Hresp; simpl; rewrite Ht.
Qed.

Lemma lifestyle_suggestions_cleaned (resp : GenResponse) (t : option string) :
  _get_client g = true ->
  generate_content g (prompt KLifestyle) = Returned resp ->
  getattr_text resp = Returned t ->
  let kept :=
    filter (fun ln => is_empty_str (py_strip ln) = false /\
                      is_empty_str (py_strip (strip_bullet ln)) = false)
           (py_splitlines (opt_or_empty t)) in
  generate_lifestyle_suggestions g inputs risk_score risk_level top_features language
    = match kept with
      | [] => _basic_lifestyle_fallback risk_level
      | _ => map (fun ln => py_strip (strip_bullet ln)) kept
      end.
Proof.
  intros Hc Hresp Ht kept. unfold generate_lifestyle_suggestions, prompt in *.
  rewrite Hc, Hresp. simpl. rewrite Ht. simpl.
  rewrite (filter_map_filter _ (fun ln => is_empty_str ln = false)). fold kept.
  by destruct kept.
Qed.
End NarrativeService.

Lemma lifestyle_fallback_entries (risk_level : string) :
  Forall (fun s => s <> "") (_basic_lifestyle_fallback risk_level).
Proof.
  unfold _basic_lifestyle_fallback.
  destruct (String.eqb risk_level "Low"), (String.eqb risk_level "Moderate");
    repeat constructor; discriminate.
Qed.

(** X8.  With a configured service whose answer has a text
    that is not blank, the explanation, the follow-up plan and the
    prescription summary are that text without its leading and trailing
    blanks. *)
Theorem narratives_return_stripped_text (g : Gemini) (inputs : list (string * JVal))
    (risk_score : Q) (risk_level : string) (top_features : list (string * Q))
    (language : string) (t : string) :
  let prompt := prompt_for inputs risk_score risk_level top_features language in
  _get_client g = true ->
  py_strip t <> "" ->
  (forall resp, generate_content g (prompt KExplanation) = Returned resp ->
     resp_text resp = Returned (Some t) ->
     generate_explanation g inputs risk_score risk_level top_features language = py_strip t) /\
  (forall resp, generate_content g (prompt KFollowup) = Returned resp ->
     resp_text resp = Returned (Some t) ->
     generate_followup_plan g inputs risk_score risk_level top_features language
       = py_strip t) /\
  (forall resp, generate_content g (prompt KPrescription) = Returned resp ->
     resp_text resp = Returned (Some t) ->
     generate_prescription_summary g inputs risk_score risk_level top_features language
       = py_strip t).
Proof.
  intros prompt Hc Hne. split; [|split]; intros resp Hresp Ht;
    apply getattr_text_returned in Ht.
  - rewrite (generate_explanation_text g inputs risk_score risk_level top_features language
               resp t Hc Hresp Ht (py_strip_nonempty_arg t Hne)).
    apply is_empty_str_false in Hne. by rewrite Hne.
  - by apply (generate_followup_plan_text g inputs risk_score risk_level top_features
                language resp t).
  - by apply (generate_prescription_summary_text g inputs risk_score risk_level top_features
                language resp t).
Qed.

Lemma narratives_return_stripped_text_witness :
  let g := answering_gemini padded_response in
  generate_explanation g sample_features 0.2 "Low" [] "en" = "Stay active." /\
  generate_followup_plan g sample_features 0.2 "Low" [] "en" = "Stay active.".
Proof.
  intros g.
  destruct (narratives_return_stripped_text g sample_features 0.2 "Low" [] "en"
              ("  Stay active." +:+ newline) eq_refl) as (He & Hf & _); [discriminate|].
  split; [by apply (He _ eq_refl) | by apply (Hf _ eq_refl)].
Defined.

(** X9.  The explanation looks at the candidates of the
    answer exactly when reading [.text] gives nothing: None, the empty
    string, or an AttributeError, which [getattr] turns into None.  It then
    joins the texts of the candidates, strips the result and falls back to
    the template if nothing is left.  When [.text] is a non-empty string the
    result is that string stripped, or the template if it was blank,
    whatever the candidates are; and when reading [.text] raises another
    exception the result is the template. *)
Theorem generate_explanation_from_candidates (g : Gemini) (inputs : list (string * JVal))
    (risk_score : Q) (risk_level : string) (top_features : list (string * Q))
    (language : string) (resp : GenResponse) :
  _get_client g = true ->
  generate_content g (prompt_for inputs risk_score risk_level top_features language
                        KExplanation) = Returned resp ->
  let result := generate_explanation g inputs risk_score risk_level top_features language in
  let fallback := _basic_explanation_fallback risk_level risk_score in
  (resp_text resp = Returned None \/ resp_text resp = Returned (Some "") \/
   (exists e, resp_text resp = Raised e /\ exn_class e = AttributeError) ->
   let joined := String.concat "" (omap (fun c => c) (resp_candidates resp)) in
   result = if is_empty_str (py_strip joined) then fallback else py_strip joined) /\
  (forall t, resp_text resp = Returned (Some t) -> t <> "" ->
     result = if is_empty_str (py_strip t) then fallback else py_strip t) /\
  (forall e, resp_text resp = Raised e -> exn_class e <> AttributeError ->
     result = fallback).
Proof.
  intros Hc Hresp result fallback. subst result fallback. split; [|split].
  - intros [Ht | [Ht | (e & Ht & He)]].
    + by apply (generate_explanation_candidates g inputs risk_score risk_level top_features
                  language resp None Hc Hresp (getattr_text_returned _ _ Ht)).
    + by apply (generate_explanation_candidates g inputs risk_score risk_level top_features
                  language resp (Some "") Hc Hresp (getattr_text_returned _ _ Ht)).
    + by apply (generate_explanation_candidates g inputs risk_score risk_level top_features
                  language resp None Hc Hresp (getattr_text_missing _ _ Ht He)).
  - intros t Ht Hne.
    by apply (generate_explanation_text g inputs risk_score risk_level top_features language
                resp t Hc Hresp (getattr_text_returned _ _ Ht)).
  - intros e Ht He.
    by apply (generate_explanation_raised g inputs risk_score risk_level top_features
                language resp e Hc Hresp (getattr_text_raised _ _ Ht He)).
Qed.

Lemma generate_explanation_from_candidates_witness :
  generate_explanation (answering_gemini candidates_response)
    sample_features 0.2 "Low" [] "en" = "Keep walking." /\
  generate_explanation (answering_gemini blank_response)
    sample_features 0.2 "Low" [] "en" = _basic_explanation_fallback "Low" 0.2.
Proof.
  split.
  - destruct (generate_explanation_from_candidates (answering_gemini candidates_response)
                sample_features 0.2 "Low" [] "en" _ eq_refl eq_refl) as [Hc _].
    rewrite Hc; [reflexivity|].
    right; right. eexists. split; reflexivity.
  - destruct (generate_explanation_from_candidates (answering_gemini blank_response)
                sample_features 0.2 "Low" [] "en" _ eq_refl eq_refl) as (_ & Hb & _).
    rewrite (Hb (nbsp +:+ " ")); [reflexivity | reflexivity | discriminate].
Defined.

(** X10.  No lifestyle suggestion is ever the empty string.
    When the configured service answers, the lines of the answer that are
    kept are those that are not blank and are not empty once their
    surrounding bullets and blanks are gone; the list is made of the kept
    lines, cleaned, in the order and number in which they occur in the
    answer, and it is the template when no line is kept. *)
Theorem lifestyle_suggestions_entries (g : Gemini) (inputs : list (string * JVal))
    (risk_score : Q) (risk_level : string) (top_features : list (string * Q))
    (language : string) :
  let result :=
    generate_lifestyle_suggestions g inputs risk_score risk_level top_features language in
  Forall (fun s => s <> "") result /\
  (forall resp t,
     _get_client g = true ->
     generate_content g (prompt_for inputs risk_score risk_level top_features language
                           KLifestyle) = Returned resp ->
     resp_text resp = Returned t ->
     let lines := py_splitlines (opt_or_empty t) in
     let kept :=
       filter (fun ln => py_strip ln <> "" /\ py_strip (strip_bullet ln) <> "") lines in
     kept `sublist_of` lines /\
     (kept = [] -> result = _basic_lifestyle_fallback risk_level) /\
     (kept <> [] -> result = map (fun ln => py_strip (strip_bullet ln)) kept)).
Proof.
  intros result. subst result. split.
  - unfold generate_lifestyle_suggestions.
    destruct (_get_client g); simpl; [|apply lifestyle_fallback_entries].
    destruct (generate_content g _) as [resp|e]; simpl; [|apply lifestyle_fallback_entries].
    destruct (getattr_text resp) as [t|e]; simpl; [|apply lifestyle_fallback_entries].
    match goal with
    | |- context [match ?cleaned with [] => Returned _ | _ :: _ => Returned _ end] =>
        remember cleaned as c eqn:Hc; destruct c as [|s c]
    end; [apply lifestyle_fallback_entries|].
    rewrite Hc. apply Forall_forall. intros s' Hs'.
    apply list_elem_of_filter in Hs' as [Hs' _]. by apply is_empty_str_false.
  - intros resp t Hcl Hresp Ht lines kept.
    split; [apply filter_sublist_of|].
    rewrite (lifestyle_suggestions_cleaned g inputs risk_score risk_level top_features
               language resp t Hcl Hresp (getattr_text_returned _ _ Ht)).
    assert (Hkept :
      filter (fun ln => is_empty_str (py_strip ln) = false /\
                        is_empty_str (py_strip (strip_bullet ln)) = false)
             (py_splitlines (opt_or_empty t)) = kept).
    { apply list_filter_iff. intros ln. by rewrite !is_empty_str_false. }
    rewrite Hkept. split; [by intros -> | by destruct kept].
Qed.

Lemma lifestyle_suggestions_entries_witness :
  generate_lifestyle_suggestions
    (answering_gemini bulleted_response)
    sample_features 0.2 "Low" [] "en"
  = ["Walk daily."; "Eat more vegetables."].
Proof.
  destruct (lifestyle_suggestions_entries
              (answering_gemini bulleted_response)
              sample_features 0.2 "Low" [] "en") as [_ Hlines].
  destruct (Hlines _ _ eq_refl eq_refl eq_refl) as (_ & _ & Hkept).
  rewrite Hkept; [reflexivity | discriminate].
Defined.

(** ** What [predict_risk] writes *)

Lemma persist_cases (E : Env) (db : Mongo) (p : Prediction) (user_email : JVal) :
  persist E db p user_email = db \/
  exists patient_id smoking diabetes family pregnancy,
    fault db = None /\
    persist E db p user_email =
      set_predictions db
        (predictions db ++
           [history_record E p user_email patient_id smoking diabetes family pregnancy
              (next_oid db)])%list
        (N.succ (next_oid db)).
Proof.
  rewrite persist_spec.
  destruct (history_doc E p user_email) as [doc|e] eqn:Hdoc; [|by left].
  destruct (prediction_error E (doc (next_oid db))); [by left|].
  destruct (fault db) eqn:Hf; [by left|].
  destruct (history_doc_fields E p user_email doc (next_oid db) Hdoc)
    as (patient_id & smoking & diabetes & family & pregnancy & -> & _).
  right. by exists patient_id, smoking, diabetes, family, pregnancy.
Qed.

Lemma persist_fault (E : Env) (db : Mongo) (p : Prediction) (user_email : JVal) :
  is_Some (fault db) -> persist E db p user_email = db.
Proof.
  intros [e He]. destruct (persist_cases E db p user_email) as [H|(?&?&?&?&?&Hf&_)];
    [exact H | congruence].
Qed.

Lemma predict_risk_store_cases (E : Env) (db : Mongo) (req : Request) :
  snd (predict_risk E db req) = db \/
  exists p user_email,
    compute_prediction E req = Returned (inr p) /\
    caller_email E req = Returned user_email /\
    snd (predict_risk E db req) = persist E db p user_email.
Proof.
  destruct (compute_prediction E req) as [[bad|p]|e] eqn:Hp;
    try (left; apply predict_risk_store_unchanged; congruence).
  right. destruct (caller_email_returns E req) as [user_email He].
  exists p, user_email. split; [done|]. split; [done|].
  by apply predict_risk_store.
Qed.

(** X11.  The response of /predict does not depend
    on the store at all, and a failing store is left exactly as it was: a
    history write that fails is swallowed. *)
Theorem predict_risk_ignores_store_failure (E : Env) (db db' : Mongo) (req : Request) :
  fst (predict_risk E db req) = fst (predict_risk E db' req) /\
  (is_Some (fault db) -> snd (predict_risk E db req) = db).
Proof.
  split; [by rewrite !predict_risk_response|].
  intros Hf. destruct (predict_risk_store_cases E db req) as [H|(p & u & _ & _ & ->)];
    [exact H | by apply persist_fault].
Qed.

Lemma predict_risk_ignores_store_failure_witness :
  let down := {| users := []; predictions := []; next_oid := 0;
                 fault := Some (Exn OtherError "connection refused") |} in
  status (fst (predict_risk sample_env down (sample_request None))) = 200%nat /\
  snd (predict_risk sample_env down (sample_request None)) = down.
Proof.
  intros down.
  destruct (predict_risk_ignores_store_failure sample_env down empty_store
              (sample_request None)) as [Hresp Hstore].
  split; [rewrite Hresp; reflexivity | apply Hstore; by eexists].
Defined.

(** X12.  A /predict call never touches the users or the
    records already stored: it leaves the store as it was or appends one
    record, and that record carries the score, tier, attributions,
    narratives, input and patient name of the 200 response, the time of the
    call, and the same value as [userId] and as [doctorId]. *)
Theorem predict_risk_appends_one_record (E : Env) (db : Mongo) (req : Request) :
  let db' := snd (predict_risk E db req) in
  users db' = users db /\ fault db' = fault db /\
  (db' = db \/
   exists d r,
     predictions db' = (predictions db ++ [d])%list /\
     fst (predict_risk E db req) = {| status := 200; body := BPrediction r |} /\
     risk_score d = r_risk_score r /\ risk_level d = r_risk_level r /\
     top_features d = r_top_features r /\
     explanation_text d = r_explanation_text r /\
     lifestyle_suggestions d = r_lifestyle_suggestions r /\
     followup_plan d = r_followup_plan r /\
     prescription_summary d = r_prescription_summary r /\
     input d = r_input r /\ patientName d = r_patientName r /\
     created_at d = utcnow E /\ doctorId d = userId d).
Proof.
  intros db'. subst db'.
  destruct (predict_risk_store_cases E db req) as [->|(p & u & Hp & _ & Hs)];
    [split; [done|]; split; [done|]; by left|].
  rewrite Hs.
  destruct (persist_cases E db p u) as [->|(pid & sm & di & fa & pr & _ & ->)];
    [split; [done|]; split; [done|]; by left|].
  split; [done|]. split; [done|]. right.
  eexists. exists (response_of p). split; [reflexivity|].
  split; [by rewrite predict_risk_response, Hp|].
  by repeat split.
Qed.

Lemma compute_prediction_fields (E : Env) (req : Request) (p : Prediction) :
  compute_prediction E req = Returned (inr p) ->
  parse_request req = Returned (p_patient_name p, p_lifestyle p, p_data p).
Proof.
  unfold compute_prediction.
  destruct (parse_request req) as [[[pn ls] data]|e]; [|discriminate]. simpl.
  destruct (transform E (feature_row E data)) as [processed|e].
  - destruct (log_predict_proba E processed); [|discriminate]. simpl.
    destruct (rf_predict_proba E processed); [|discriminate]. simpl.
    destruct (xgb_predict_proba E processed); [|discriminate]. simpl.
    destruct (shap_step E processed (get_feature_names_out E)).
    intros H. injection H as <-. reflexivity.
  - by destruct (exn_class e).
Qed.

Lemma predict_risk_200 (E : Env) (db : Mongo) (req : Request) :
  status (fst (predict_risk E db req)) = 200%nat ->
  exists p, compute_prediction E req = Returned (inr p).
Proof.
  rewrite predict_risk_response. unfold compute_prediction.
  destruct (parse_request req) as [[[pn ls] data]|e]; [|discriminate]. simpl.
  destruct (transform E (feature_row E data)) as [processed|e].
  - destruct (log_predict_proba E processed); [|discriminate]. simpl.
    destruct (rf_predict_proba E processed); [|discriminate]. simpl.
    destruct (xgb_predict_proba E processed); [|discriminate]. simpl.
    destruct (shap_step E processed (get_feature_names_out E)). by eexists.
  - by destruct (exn_class e).
Qed.

Lemma caller_email_decoded (E : Env) (req : Request) rest payload :
  authorization req = Some ("Bearer " +:+ rest) ->
  decode_token E (py_strip rest) = Returned payload ->
  caller_email E req = Returned (payload_email payload).
Proof.
  intros Hauth Hdec. unfold caller_email, auth_header_of. rewrite Hauth.
  assert (Ht : String.prefix "Bearer " ("Bearer " +:+ rest) = true)
    by (apply bearer_prefix; by exists rest).
  simpl default. rewrite Ht, split_second_bearer. simpl. by rewrite Hdec.
Qed.

(** X13.  When a /predict call that is answered 200 carries a
    bearer token that decodes to a non-empty email, its lifestyle entry is a
    mapping (or absent), the driver accepts the record and the store does
    not fail, one record is appended with that email as [userId] and
    [doctorId]; its [patientId] is "<email>::<name>" with the patient name
    stripped of outer blanks and lower-cased, both as Python's [str] does
    it, when the name is a non-empty string, and null when no name was
    given. *)
Theorem predict_risk_tags_identity (E : Env) (db : Mongo) (req : Request)
    (patient_name : JVal) (ls data : list (string * JVal))
    (rest : string) (payload : gmap string JVal) :
  parse_request req = Returned (patient_name, JObj ls, data) ->
  status (fst (predict_risk E db req)) = 200%nat ->
  authorization req = Some ("Bearer " +:+ rest) ->
  decode_token E (py_strip rest) = Returned payload ->
  py_truthy (payload_email payload) = true ->
  record_accepted E db req ->
  fault db = None ->
  let email := payload_email payload in
  let db' := snd (predict_risk E db req) in
  (forall n, patient_name = JStr n -> n <> "" ->
     exists d, predictions db' = (predictions db ++ [d])%list /\
               userId d = email /\ doctorId d = email /\
               patientId d = JStr (py_format E email +:+ "::" +:+ str_lower E (py_strip n))) /\
  (py_truthy patient_name = false ->
     exists d, predictions db' = (predictions db ++ [d])%list /\
               userId d = email /\ doctorId d = email /\ patientId d = JNull).
Proof.
  intros Hparse H200 Hauth Hdec Htruthy Hok Hfault email db'. subst email db'.
  destruct (predict_risk_200 E db req H200) as [p Hp].
  pose proof (compute_prediction_fields E req p Hp) as Hfields.
  rewrite Hparse in Hfields. injection Hfields as Hpn Hls Hdata.
  pose proof (caller_email_decoded E req rest payload Hauth Hdec) as Hu.
  rewrite (predict_risk_store E db req p (payload_email payload) Hp Hu).
  rewrite persist_spec.
  specialize (Hok p (payload_email payload)).
  unfold history_doc in *. rewrite <- Hpn, <- Hls, Htruthy in *.
  split.
  - intros n -> Hn. simpl in *. apply String.eqb_neq in Hn. rewrite Hn in *. simpl in *.
    rewrite (Hok _ Hp Hu eq_refl), Hfault.
    eexists. split; [reflexivity|]. by repeat split.
  - intros Hname. rewrite Hname in *. simpl in *.
    rewrite (Hok _ Hp Hu eq_refl), Hfault.
    eexists. split; [reflexivity|]. by repeat split.
Qed.

Lemma predict_risk_tags_identity_witness :
  exists d,
    predictions (snd (predict_risk sample_env empty_store
                        (sample_request (Some "Bearer doctor-token")))) = [d] /\
    userId d = JStr "doc@example.org" /\
    patientId d = JStr "doc@example.org::ann lee".
Proof.
  destruct (predict_risk_tags_identity sample_env empty_store
              (sample_request (Some "Bearer doctor-token"))
              (JStr " Ann Lee ") [] sample_features "doctor-token" doctor_payload)
    as [Hname _];
    [reflexivity | vm_compute; reflexivity | reflexivity | reflexivity | reflexivity
    | accept_sample_record | reflexivity |].
  destruct (Hname " Ann Lee " eq_refl) as (d & Hd & Hu & _ & Hp); [discriminate|].
  exists d. split; [exact Hd|]. split; [exact Hu | exact Hp].
Defined.

(** X14.  A /predict call answered 200 writes nothing,
    without any sign in the response, when its lifestyle entry is a
    non-empty value that is not a mapping, or when the caller is identified
    and the patient name is a non-empty value that is not a string. *)
Theorem predict_risk_drops_record (E : Env) (db : Mongo) (req : Request)
    (patient_name lifestyle : JVal) (data : list (string * JVal)) :
  parse_request req = Returned (patient_name, lifestyle, data) ->
  status (fst (predict_risk E db req)) = 200%nat ->
  ((forall ls, lifestyle <> JObj ls) -> snd (predict_risk E db req) = db) /\
  (forall rest payload,
     authorization req = Some ("Bearer " +:+ rest) ->
     decode_token E (py_strip rest) = Returned payload ->
     py_truthy (payload_email payload) = true ->
     py_truthy patient_name = true -> (forall n, patient_name <> JStr n) ->
     snd (predict_risk E db req) = db).
Proof.
  intros Hparse H200.
  destruct (predict_risk_200 E db req H200) as [p Hp].
  pose proof (compute_prediction_fields E req p Hp) as Hfields.
  rewrite Hparse in Hfields. injection Hfields as Hpn Hls Hdata.
  split.
  - intros Hnot. destruct (caller_email_returns E req) as [u Hu].
    rewrite (predict_risk_store E db req p u Hp Hu), persist_spec.
    unfold history_doc.
    destruct (if py_truthy u && py_truthy (p_patient_name p)
              then let* name := jstrip (p_patient_name p) in
                   Returned (JStr (py_format E u +:+ "::" +:+ str_lower E name))
              else Returned JNull) as [pid|e]; simpl; [|done].
    rewrite <- Hls. destruct lifestyle; try done. by destruct (Hnot d).
  - intros rest payload Hauth Hdec Hemail Hname Hnot.
    rewrite (predict_risk_store E db req p _ Hp
               (caller_email_decoded E req rest payload Hauth Hdec)), persist_spec.
    unfold history_doc. rewrite <- Hpn, Hemail, Hname. simpl.
    destruct patient_name; try done. by destruct (Hnot s).
Qed.

Lemma predict_risk_drops_record_witness :
  let req := {| method := "POST"; authorization := Some "Bearer doctor-token";
                json := JObj [("patientName", JInt 7); ("features", JObj sample_features)] |} in
  status (fst (predict_risk sample_env empty_store req)) = 200%nat /\
  snd (predict_risk sample_env empty_store req) = empty_store.
Proof.
  intros req.
  assert (H200 : status (fst (predict_risk sample_env empty_store req)) = 200%nat)
    by (vm_compute; reflexivity).
  split; [exact H200|].
  destruct (predict_risk_drops_record sample_env empty_store req
              (JInt 7) (JObj []) sample_features eq_refl H200) as [_ Hname].
  apply (Hname "doctor-token" doctor_payload); try reflexivity. discriminate.
Defined.

(** ** Sorting newest first *)

Lemma insert_desc_Permutation {A} (key : A -> Z) (x : A) (l : list A) :
  Permutation (insert_desc key x l) (x :: l).
Proof.
  induction l as [|y l IH]; simpl; [done|].
  destruct (key y <? key x); [done|].
  rewrite IH. apply perm_swap.
Qed.

Lemma insert_desc_sorted {A} (key : A -> Z) (x : A) (l : list A) :
  StronglySorted (fun a b => key b <= key a) l ->
  StronglySorted (fun a b => key b <= key a) (insert_desc key x l).
Proof.
  induction 1 as [|y l Hl IH Hy]; simpl; [repeat constructor|].
  destruct (key y <? key x) eqn:Hlt.
  - apply Z.ltb_lt in Hlt. constructor; [by constructor|].
    constructor; [lia|].
    eapply Forall_impl; [exact Hy|]. intros z Hz. simpl in Hz. lia.
  - apply Z.ltb_ge in Hlt. constructor; [exact IH|].
    apply Forall_forall. intros z Hz. apply list_elem_of_In in Hz.
    eapply Permutation_in in Hz; [|apply insert_desc_Permutation].
    destruct Hz as [<-|Hz]; [exact Hlt|].
    rewrite Forall_forall in Hy. apply Hy. by apply list_elem_of_In.
Qed.

Lemma sort_desc_fold {A} (key : A -> Z) (todo acc : list A) :
  StronglySorted (fun a b => key b <= key a) acc ->
  Permutation (fold_left (fun acc x => insert_desc key x acc) todo acc) (todo ++ acc)%list /\
  StronglySorted (fun a b => key b <= key a)
                 (fold_left (fun acc x => insert_desc key x acc) todo acc).
Proof.
  revert acc. induction todo as [|x todo IH]; intros acc Hacc; simpl; [done|].
  destruct (IH (insert_desc key x acc) (insert_desc_sorted key x acc Hacc)) as [Hp Hs].
  split; [|exact Hs].
  rewrite Hp, insert_desc_Permutation. by rewrite Permutation_middle.
Qed.

Lemma sort_desc_Permutation {A} (key : A -> Z) (l : list A) :
  Permutation (sort_desc key l) l.
Proof.
  unfold sort_desc. destruct (sort_desc_fold key l []) as [Hp _]; [constructor|].
  by rewrite app_nil_r in Hp.
Qed.


Lemma sort_desc_elem_of {A} (key : A -> Z) (l : list A) (x : A) :
  x ∈ sort_desc key l <-> x ∈ l.
Proof. by rewrite (sort_desc_Permutation key l). Qed.

Lemma sort_desc_length {A} (key : A -> Z) (l : list A) :
  length (sort_desc key l) = length l.
Proof. apply Permutation_length, sort_desc_Permutation. Qed.

(** ** The history view *)

Lemma get_history_for_user_decoded (E : Env) (db : Mongo) user_id (req : Request)
    rest payload :
  method req <> "OPTIONS" ->
  authorization req = Some ("Bearer " +:+ rest) ->
  decode_token E (py_strip rest) = Returned payload ->
  get_history_for_user E db user_id req =
    if negb (py_truthy (payload_email payload))
       || negb (jeqb (payload_email payload) (JStr user_id))
    then HistoryPlain (msg_response 403 "Forbidden" None)
    else
      match fault db with
      | Some e => HistoryPlain (msg_response 500 "Failed to load history" (Some (exn_msg e)))
      | None =>
          HistoryItems
            (map (history_entry E)
               (sort_desc created_at
                  (List.filter (fun d => jeqb (userId d) (JStr user_id)) (predictions db))))
      end.
Proof.
  intros Hm Hauth Hdec. unfold get_history_for_user, get_history_for_user_view.
  apply String.eqb_neq in Hm. rewrite Hm.
  rewrite (bearer_payload_valid E req rest payload Hauth Hdec). simpl.
  destruct (negb (py_truthy (payload_email payload))
            || negb (jeqb (payload_email payload) (JStr user_id))); [done|].
  unfold find_user_history, with_store. by destruct (fault db).
Qed.

Lemma history_gate_open (email : JVal) (user_id : string) :
  negb (py_truthy email) || negb (jeqb email (JStr user_id)) = false <->
  email = JStr user_id /\ user_id <> "".
Proof.
  rewrite orb_false_iff, !negb_false_iff, jeqb_eq. split.
  - intros [Ht ->]. split; [done|]. simpl in Ht.
    apply negb_true_iff in Ht. by apply String.eqb_neq in Ht.
  - intros [-> Hne]. split; [|done]. simpl.
    apply negb_true_iff. by apply String.eqb_neq.
Qed.

(** X15.  Apart from the CORS preflight, GET /history/<user_id>
    answers something other than 401 or 403 only to a request whose bearer
    token decodes to a payload whose email is the non-empty [user_id] of the
    path; a missing or undecodable token is answered 401, and a token for
    another email (or without one) 403. *)
Theorem get_history_for_user_access (E : Env) (db : Mongo) (user_id : string)
    (req : Request) :
  method req <> "OPTIONS" ->
  let a := get_history_for_user E db user_id req in
  (history_status a <> 401%nat -> history_status a <> 403%nat ->
   exists rest payload,
     authorization req = Some ("Bearer " +:+ rest) /\
     decode_token E (py_strip rest) = Returned payload /\
     payload_email payload = JStr user_id /\ user_id <> "") /\
  (String.prefix "Bearer " (auth_header_of req) = false ->
   a = HistoryPlain (msg_response 401 "Authorization header missing" None)) /\
  (forall rest e,
     authorization req = Some ("Bearer " +:+ rest) ->
     decode_token E (py_strip rest) = Raised e ->
     a = HistoryPlain (msg_response 401 "Invalid token" (Some (exn_msg e)))) /\
  (forall rest payload,
     authorization req = Some ("Bearer " +:+ rest) ->
     decode_token E (py_strip rest) = Returned payload ->
     payload_email payload <> JStr user_id ->
     a = HistoryPlain (msg_response 403 "Forbidden" None)).
Proof.
  intros Hm a. subst a.
  destruct (bearer_payload_cases E req) as [[Hp Hb]|(rest & Hauth & Hb)].
  - assert (Ha : get_history_for_user E db user_id req
                 = HistoryPlain (msg_response 401 "Authorization header missing" None)).
    { unfold get_history_for_user, get_history_for_user_view.
      apply String.eqb_neq in Hm. by rewrite Hm, Hb. }
    rewrite Ha. split; [intros H; by destruct H|]. split; [done|].
    assert (Hno : forall rest', authorization req <> Some ("Bearer " +:+ rest')).
    { intros rest' Hauth. unfold auth_header_of in Hp. rewrite Hauth in Hp.
      assert (Ht : String.prefix "Bearer " ("Bearer " +:+ rest') = true)
        by (apply bearer_prefix; by exists rest').
      simpl default in Hp. congruence. }
    split; intros rest' ? Hauth; by destruct (Hno rest').
  - assert (Hrest : forall rest', authorization req = Some ("Bearer " +:+ rest') -> rest' = rest).
    { intros rest' Hauth'. rewrite Hauth in Hauth'. injection Hauth' as Heq.
      by apply (inj (String.app "")) in Heq. }
    assert (Hpre : String.prefix "Bearer " (auth_header_of req) = true).
    { unfold auth_header_of. rewrite Hauth. apply bearer_prefix. by exists rest. }
    destruct (decode_token E (py_strip rest)) as [payload|e] eqn:Hdec.
    + rewrite (get_history_for_user_decoded E db user_id req rest payload Hm Hauth Hdec).
      destruct (negb (py_truthy (payload_email payload))
                || negb (jeqb (payload_email payload) (JStr user_id))) eqn:Hgate.
      * split; [intros _ H; by destruct H|]. split; [congruence|].
        split; [intros rest' e Hauth' Hdec'; apply Hrest in Hauth' as ->; congruence|].
        done.
      * apply history_gate_open in Hgate as [Hemail Hne].
        split; [intros _ _; by exists rest, payload|]. split; [congruence|].
        split; intros rest' ? Hauth' Hdec'; apply Hrest in Hauth' as ->; congruence.
    + assert (Ha : get_history_for_user E db user_id req
                   = HistoryPlain (msg_response 401 "Invalid token" (Some (exn_msg e)))).
      { unfold get_history_for_user, get_history_for_user_view.
        apply String.eqb_neq in Hm. by rewrite Hm, Hb. }
      rewrite Ha. split; [intros H; by destruct H|]. split; [congruence|].
      split; intros rest' ? Hauth' Hdec'; apply Hrest in Hauth' as ->; congruence.
Qed.

Lemma get_history_for_user_access_witness :
  get_history_for_user sample_env store_with_one_record "doc@example.org"
    (get_request (Some "Bearer legacy-token"))
  = HistoryPlain (msg_response 403 "Forbidden" None).
Proof.
  destruct (get_history_for_user_access sample_env store_with_one_record "doc@example.org"
              (get_request (Some "Bearer legacy-token"))) as (_ & _ & _ & Hother);
    [discriminate|].
  apply (Hother "legacy-token" payload_without_role); [reflexivity | reflexivity | discriminate].
Defined.




(** ** From a prediction to the history *)

Lemma persist_writes (E : Env) (db : Mongo) (p : Prediction) (user_email : JVal)
    (ls : list (string * JVal)) :
  p_lifestyle p = JObj ls ->
  (forall doc, history_doc E p user_email = Returned doc ->
               prediction_error E (doc (next_oid db)) = None) ->
  fault db = None ->
  py_truthy (p_patient_name p) = false \/ (exists n, p_patient_name p = JStr n) ->
  exists patient_id smoking diabetes family pregnancy,
    persist E db p user_email =
      set_predictions db
        (predictions db ++
           [history_record E p user_email patient_id smoking diabetes family pregnancy
              (next_oid db)])%list
        (N.succ (next_oid db)).
Proof.
  intros Hls Hok Hf Hname. rewrite persist_spec.
  destruct (history_doc_mapping E p user_email ls Hls) as [doc Hdoc].
  { destruct Hname as [Hname|Hname]; [left; by rewrite Hname, andb_false_r | by right]. }
  rewrite Hdoc, (Hok doc Hdoc), Hf.
  destruct (history_doc_fields E p user_email doc (next_oid db) Hdoc)
    as (patient_id & smoking & diabetes & family & pregnancy & -> & _).
  by exists patient_id, smoking, diabetes, family, pregnancy.
Qed.

Lemma insert_desc_newest {A} (key : A -> Z) (x : A) (l : list A) :
  Forall (fun y => key y < key x) l -> insert_desc key x l = x :: l.
Proof.
  intros Hall. destruct l as [|y l]; simpl; [done|].
  apply Forall_cons in Hall as [Hy _]. apply Z.ltb_lt in Hy. by rewrite Hy.
Qed.

Lemma sort_desc_snoc {A} (key : A -> Z) (l : list A) (x : A) :
  sort_desc key (l ++ [x]) = insert_desc key x (sort_desc key l).
Proof. unfold sort_desc. by rewrite fold_left_app. Qed.

(** X17.  After a /predict call that is answered 200 for a
    caller whose token carries the email [user_id], with a lifestyle entry
    that is a mapping (or absent), a patient name that is a string (or
    absent), a record that the driver accepts and a store that does not
    fail, the history of [user_id] is the
    history before the call plus one item, which holds the score, tier and
    input of the response and the time of the call; the item comes first
    when every stored record is older than the call. *)
Theorem predict_risk_then_history (E : Env) (db : Mongo) (req req' : Request)
    (user_id : string) (rest : string) (payload : gmap string JVal)
    (patient_name : JVal) (ls data : list (string * JVal)) :
  parse_request req = Returned (patient_name, JObj ls, data) ->
  py_truthy patient_name = false \/ (exists n, patient_name = JStr n) ->
  status (fst (predict_risk E db req)) = 200%nat ->
  authorization req = Some ("Bearer " +:+ rest) ->
  decode_token E (py_strip rest) = Returned payload ->
  payload_email payload = JStr user_id ->
  user_id <> "" ->
  record_accepted E db req ->
  fault db = None ->
  method req' <> "OPTIONS" ->
  authorization req' = authorization req ->
  exists r d items items',
    fst (predict_risk E db req) = {| status := 200; body := BPrediction r |} /\
    get_history_for_user E db user_id req' = HistoryItems items /\
    get_history_for_user E (snd (predict_risk E db req)) user_id req' = HistoryItems items' /\
    Permutation items' (history_entry E d :: items) /\
    risk_score d = r_risk_score r /\ risk_level d = r_risk_level r /\
    input d = r_input r /\ created_at d = utcnow E /\
    (Forall (fun d' => created_at d' < utcnow E) (predictions db) ->
     items' = history_entry E d :: items).
Proof.
  intros Hparse Hname H200 Hauth Hdec Hemail Hne Hok Hf Hm' Hauth'.
  rewrite Hauth in Hauth'.
  destruct (predict_risk_200 E db req H200) as [p Hp].
  pose proof (compute_prediction_fields E req p Hp) as Hfields.
  rewrite Hparse in Hfields. injection Hfields as Hpn Hls Hdata.
  rewrite Hpn in Hname.
  pose proof (caller_email_decoded E req rest payload Hauth Hdec) as Hu.
  rewrite (predict_risk_store E db req p (payload_email payload) Hp Hu).
  destruct (persist_writes E db p (payload_email payload) ls (eq_sym Hls)
              (fun doc => Hok p (payload_email payload) doc Hp Hu) Hf Hname)
    as (pid & sm & di & fa & pr & ->).
  set (d := history_record E p (payload_email payload) pid sm di fa pr (next_oid db)).
  rewrite !(get_history_for_user_decoded E _ user_id req' rest payload Hm' Hauth' Hdec).
  assert (Hopen : negb (py_truthy (payload_email payload))
                  || negb (jeqb (payload_email payload) (JStr user_id)) = false)
    by (by apply history_gate_open).
  rewrite Hopen. simpl. rewrite Hf.
  assert (Hown : jeqb (payload_email payload) (JStr user_id) = true) by (by apply jeqb_eq).
  rewrite List.filter_app. simpl. rewrite Hown.
  set (mine := List.filter (fun d => jeqb (userId d) (JStr user_id)) (predictions db)).
  exists (response_of p), d. eexists. eexists.
  split; [by rewrite predict_risk_response, Hp|].
  split; [reflexivity|]. split; [reflexivity|].
  rewrite sort_desc_snoc.
  split; [|repeat split].
  - change (history_entry E d :: map (history_entry E) (sort_desc created_at mine))
      with (map (history_entry E) (d :: sort_desc created_at mine)).
    apply Permutation_map, insert_desc_Permutation.
  - intros Hold. rewrite insert_desc_newest; [done|].
    apply Forall_forall. intros d' Hd'. apply sort_desc_elem_of in Hd'.
    apply list_elem_of_In, filter_In in Hd' as [Hd' _].
    rewrite Forall_forall in Hold. apply Hold. by apply list_elem_of_In.
Qed.

Lemma predict_risk_then_history_witness :
  let req := sample_request (Some "Bearer doctor-token") in
  let req' := get_request (Some "Bearer doctor-token") in
  exists it it',
    get_history_for_user sample_env
      (snd (predict_risk sample_env store_with_one_record req)) "doc@example.org" req'
    = HistoryItems [it; it'].
Proof.
  intros req req'.
  destruct (predict_risk_then_history sample_env store_with_one_record req req'
              "doc@example.org" "doctor-token" doctor_payload
              (JStr " Ann Lee ") [] sample_features)
    as (r & d & items & items' & _ & Hbefore & Hafter & Hperm & _);
    [reflexivity | right; by eexists | vm_compute; reflexivity | reflexivity | reflexivity
    | reflexivity | discriminate | accept_sample_record | vm_compute; reflexivity
    | discriminate | reflexivity |].
  rewrite Hafter.
  assert (Hone : length items = 1%nat).
  { assert (H : HistoryItems items
                = get_history_for_user sample_env store_with_one_record "doc@example.org" req')
      by (by rewrite Hbefore).
    vm_compute in H. by injection H as ->. }
  apply Permutation_length in Hperm. simpl in Hperm. rewrite Hone in Hperm.
  destruct items' as [|it [|it' [|? ?]]]; try discriminate Hperm.
  by exists it, it'.
Defined.

(** ** More on deleting a history item *)

Lemma remove_first_none (p : PredictionDoc -> bool) (l : list PredictionDoc) :
  Forall (fun d => p d = false) l -> remove_first p l = (l, 0%nat).
Proof.
  induction 1 as [|d l Hd _ IH]; simpl; [done|]. by rewrite Hd, IH.
Qed.






(** X19.  In a store whose records have pairwise distinct ids,
    repeating a DELETE that was served (200 or 404) is answered 404 and
    changes nothing more. *)
Theorem delete_history_item_repeated (E : Env) (db : Mongo) (item_id : string)
    (req : Request) (rest : string) (payload : gmap string JVal) (oid : N) :
  method req <> "OPTIONS" ->
  authorization req = Some ("Bearer " +:+ rest) ->
  decode_token E (py_strip rest) = Returned payload ->
  py_truthy (payload_email payload) = true ->
  ObjectId E item_id = Some oid ->
  fault db = None ->
  NoDup (map _id (predictions db)) ->
  let db' := snd (delete_history_item E db item_id req) in
  delete_history_item E db' item_id req = (msg_response 404 "Item not found" None, db') /\
  NoDup (map _id (predictions db')).
Proof.
  intros Hm Hauth Hdec Hemail Hoid Hfault Hnodup db'.
  assert (Hnone : Forall (fun d => owned_item oid (payload_email payload) d = false)
                         (predictions db') /\ fault db' = None /\
                  NoDup (map _id (predictions db'))).
  { subst db'.
    rewrite (delete_history_item_decoded E db item_id req rest payload Hm Hauth Hdec).
    cbv zeta. rewrite Hemail, Hoid, Hfault. simpl.
    destruct (remove_first_cases (owned_item oid (payload_email payload)) (predictions db))
      as [[-> Hnone]|(pre & d & post & Hl & -> & Hd & Hpre)]; simpl; [done|].
    apply owned_item_spec in Hd as [Hid Huser].
    rewrite Hl, map_app in Hnodup. simpl in Hnodup.
    apply NoDup_app in Hnodup as (Hpre' & Hdisj & Hpost).
    apply NoDup_cons in Hpost as [Hd Hpost].
    split; [|split; [done|]].
    - apply Forall_app. split; [exact Hpre|].
      apply Forall_forall. intros d' Hd'.
      destruct (owned_item oid (payload_email payload) d') eqn:Hown; [|done].
      apply owned_item_spec in Hown as [Hid' _]. destruct Hd.
      rewrite Hid, <- Hid'. apply list_elem_of_In, in_map. by apply list_elem_of_In.
    - rewrite map_app. apply NoDup_app. split; [exact Hpre'|]. split; [|exact Hpost].
      intros x Hx Hx'. apply (Hdisj x Hx). by apply list_elem_of_further. }
  destruct Hnone as (Hnone & Hfault' & Hnodup').
  split; [|exact Hnodup'].
  rewrite (delete_history_item_decoded E db' item_id req rest payload Hm Hauth Hdec).
  cbv zeta. rewrite Hemail, Hoid, Hfault'. simpl.
  rewrite (remove_first_none _ _ Hnone). simpl.
  by rewrite set_predictions_same.
Qed.

Lemma delete_history_item_repeated_witness :
  let req := delete_request (Some "Bearer doctor-token") in
  let db' := snd (delete_history_item sample_env store_with_one_record
                    "000000000000000000000000" req) in
  predictions db' = [] /\
  delete_history_item sample_env db' "000000000000000000000000" req
  = (msg_response 404 "Item not found" None, db').
Proof.
  intros req db'. split; [vm_compute; reflexivity|].
  apply (delete_history_item_repeated sample_env store_with_one_record
           "000000000000000000000000" req "doctor-token" doctor_payload 0%N);
    [discriminate | reflexivity | reflexivity | reflexivity | reflexivity
    | vm_compute; reflexivity |].
  vm_compute. apply NoDup_cons. split; [apply not_elem_of_nil | apply NoDup_nil_2].
Defined.



(** ** More on the doctor views *)






(** ** The patients of a doctor *)







Lemma patient_records_of_spec (db : Mongo) (email : JVal) (d : PredictionDoc) :
  d ∈ patient_records_of db email <->
  d ∈ predictions db /\ doctorId d = email /\ patientId d <> JNull.
Proof.
  unfold patient_records_of.
  rewrite list_elem_of_In, filter_In, andb_true_iff, negb_true_iff, jeqb_eq, jeqb_neq,
    <- list_elem_of_In.
  done.
Qed.




(** ** The profile of a patient *)




Lemma visits_of_spec (db : Mongo) (email : JVal) (patient_id : string) (d : PredictionDoc) :
  d ∈ visits_of db email patient_id <->
  d ∈ predictions db /\ doctorId d = email /\ patientId d = JStr patient_id.
Proof.
  unfold visits_of.
  by rewrite list_elem_of_In, filter_In, andb_true_iff, !jeqb_eq, <- list_elem_of_In.
Qed.



(** ** More on signup, login and tokens *)







(** The email value of a body is handed to the server as a filter: a
    mapping with [$gt] selects a stored user whose email it does not name,
    so that /signup answers 400 for it and /login lets it in. *)
Example operator_email_selects_user :
  let db := snd (signup sample_env empty_store signup_request) in
  (operator_email ∉ map user_email (users db)) /\
  signup sample_env db operator_signup_request
    = (msg_response 400 "User already exists" None, db) /\
  login sample_env db operator_login_request
    = {| status := 200; body := BLogin "issued-token" (JStr "Ann") (JStr "Doctor") |}.
Proof.
  split; [|split; vm_compute; reflexivity].
  vm_compute. intros Hin. apply list_elem_of_singleton in Hin. discriminate Hin.
Qed.

(** A record with an integer beyond 64 bits is refused by the driver: the
    prediction is answered and nothing is stored. *)
Example wide_integer_not_stored :
  status (fst (predict_risk sample_env empty_store wide_age_request)) = 200%nat /\
  snd (predict_risk sample_env empty_store wide_age_request) = empty_store.
Proof. split; vm_compute; reflexivity. Qed.


Lemma find_one_user_find (E : Env) (db : Mongo) (email : JVal) :
  fault db = None ->
  find_one_user E db email
    = Returned (find (fun u => field_matches E email (user_email u)) (users db)).
Proof. intros Hf. unfold find_one_user, with_store. by rewrite Hf. Qed.



(** X28.  The payload [generate_token] signs holds the email, an
    expiry one day after the call, the name and the role when they are not
    None, and nothing else; read back by the views it gives that email, and
    the role "Doctor" when no role was given. *)
Theorem token_payload_claims (E : Env) (email name role : JVal) :
  let payload := token_payload E email name role in
  payload !! "email" = Some email /\
  payload !! "exp" = Some (JInt (utcnow E + 86400)) /\
  (name = JNull -> payload !! "name" = None) /\
  (name <> JNull -> payload !! "name" = Some name) /\
  (role = JNull -> payload !! "role" = None /\ payload_role payload = JStr "Doctor") /\
  (role <> JNull -> payload !! "role" = Some role /\ payload_role payload = role) /\
  payload_email payload = email /\
  (forall k, k <> "email" -> k <> "exp" -> k <> "name" -> k <> "role" -> payload !! k = None).
Proof.
  intros payload. subst payload. unfold payload_role, payload_email, token_payload.
  destruct (jeqb name JNull) eqn:Hn, (jeqb role JNull) eqn:Hr;
    rewrite ?jeqb_eq, ?jeqb_neq in *;
    repeat split; intros;
      repeat first [ done
                   | rewrite lookup_insert_eq
                   | rewrite lookup_insert_ne by done
                   | rewrite lookup_empty ].
Qed.

Lemma token_payload_claims_witness :
  payload_role (token_payload sample_env (JStr "ann@example.org") (JStr "Ann") JNull)
    = JStr "Doctor" /\
  token_payload sample_env (JStr "ann@example.org") (JStr "Ann") JNull !! "role" = None.
Proof.
  destruct (token_payload_claims sample_env (JStr "ann@example.org") (JStr "Ann") JNull)
    as (_ & _ & _ & _ & Hnull & _).
  destruct (Hnull eq_refl) as [Hrole Hdefault]. split; [exact Hdefault | exact Hrole].
Defined.

(** X29.  Neither view of routes/auth_routes.py catches an
    exception: a body without an email, a failing store, a missing name or
    password when the filter made of the email value selects no stored user,
    a user document the driver refuses, or a token that cannot be signed is
    answered with the 500 page of the framework, and /signup then stores
    nothing. *)
Theorem auth_routes_uncaught (E : Env) (db : Mongo) (req : Request) :
  let failed := {| status := 500; body := BServerError |} in
  (forall e, jindex (json req) "email" = Raised e ->
     signup E db req = (failed, db) /\ login E db req = failed) /\
  (forall email e, jindex (json req) "email" = Returned email -> fault db = Some e ->
     signup E db req = (failed, db) /\ login E db req = failed) /\
  (forall email,
     jindex (json req) "email" = Returned email -> fault db = None ->
     (forall user, user ∈ users db -> field_matches E email (user_email user) = false) ->
     (exists e, jindex (json req) "name" = Raised e) \/
     (exists e, jindex (json req) "password" = Raised e) ->
     signup E db req = (failed, db)) /\
  (forall email name password role e,
     jindex (json req) "email" = Returned email -> fault db = None ->
     (forall user, user ∈ users db -> field_matches E email (user_email user) = false) ->
     jindex (json req) "name" = Returned name ->
     jindex (json req) "password" = Returned password ->
     jindex (json req) "role" = Returned role ->
     user_error E {| user_name := name; user_email := email;
                     user_password := hash_password E password;
                     user_role := Some role |} = Some e ->
     signup E db req = (failed, db)) /\
  (forall email user,
     jindex (json req) "email" = Returned email -> fault db = None ->
     find (fun u => field_matches E email (user_email u)) (users db) = Some user ->
     (exists e, jindex (json req) "password" = Raised e) \/
     (exists password e,
        jindex (json req) "password" = Returned password /\
        verify_password E password (user_password user) = true /\
        generate_token E (user_email user) (user_name user) (default JNull (user_role user))
          = Raised e) ->
     login E db req = failed).
Proof.
  intros failed. subst failed. unfold signup, signup_view, login, login_view.
  split; [|split; [|split; [|split]]].
  - by intros e ->.
  - intros email e -> Hf. simpl. unfold find_one_user, with_store. by rewrite Hf.
  - intros email Hemail Hf Hnew Hmissing. rewrite Hemail. simpl.
    rewrite (proj2 (find_one_user_none E db email) (conj Hf Hnew)).
    destruct (json req) as [ | | | | | |items]; try discriminate Hemail. simpl.
    destruct Hmissing as [[e He]|[e He]]; simpl in He.
    + destruct (dict_lookup items "name"); [discriminate He | done].
    + destruct (dict_lookup items "name"); simpl; [|done].
      simpl in Hemail. destruct (dict_lookup items "email"); simpl; [|done].
      destruct (dict_lookup items "password"); [discriminate He | done].
  - intros email name password role e Hemail Hf Hnew Hname Hpw Hrole Herr.
    rewrite Hemail. simpl.
    rewrite (proj2 (find_one_user_none E db email) (conj Hf Hnew)).
    destruct (json req) as [ | | | | | |items]; try discriminate Hemail. simpl in *.
    destruct (dict_lookup items "name"); [|discriminate Hname].
    destruct (dict_lookup items "email"); [|discriminate Hemail].
    destruct (dict_lookup items "password"); [|discriminate Hpw].
    destruct (dict_lookup items "role"); [|discriminate Hrole].
    injection Hname as ->. injection Hemail as ->. injection Hpw as ->.
    injection Hrole as ->. simpl.
    unfold insert_one_user. by rewrite Herr.
  - intros email user -> Hf Hfind Hbad. simpl.
    rewrite (find_one_user_find E db email Hf), Hfind. simpl.
    destruct Hbad as [[e ->]|(password & e & -> & Hv & Htoken)]; [done|].
    simpl. by rewrite Hv, Htoken.
Qed.

Lemma auth_routes_uncaught_witness :
  let req := {| method := "POST"; authorization := None;
                json := JObj [("email", JStr "ann@example.org"); ("name", JStr "Ann")] |} in
  signup sample_env empty_store req = ({| status := 500; body := BServerError |}, empty_store).
Proof.
  intros req.
  destruct (auth_routes_uncaught sample_env empty_store req) as (_ & _ & Hmissing & _).
  apply (Hmissing (JStr "ann@example.org")); [reflexivity | reflexivity | |].
  - intros user Hin. by apply elem_of_nil in Hin.
  - right. eexists. reflexivity.
Defined.


